(** * create_lambda_layer: a shallow embedding of [create_lambda_layer.py]

    The script builds an AWS Lambda layer: it makes a temporary workspace,
    runs [pip install ... -t <workspace>/python] through the shell, zips the
    [python] directory, optionally publishes the archive and finally removes
    the workspace.

    The embedding keeps paths as the strings the script manipulates
    ([os.path.join], [os.path.relpath], [os.path.normpath] are transcribed
    from [posixpath]), the file system as a tree of directories and files,
    and the effects (file system, calls to the shell and to the provider,
    standard output) in a state-and-exception monad.  The shell and the
    provider are parameters of the development. *)

From Stdlib Require Import List String Ascii ZArith Bool Lia Permutation.
Import ListNotations.
Local Open Scope list_scope.
Local Open Scope string_scope.
Set Warnings "-register-all".

(** ** Strings *)

Module Str.

(** [s.split(sep)] for a one-character separator: never the empty list. *)
Fixpoint split (sep : ascii) (s : string) : list string :=
  match s with
  | EmptyString => [""]
  | String c s' =>
      if Ascii.eqb c sep then "" :: split sep s'
      else match split sep s' with
           | [] => [String c ""]
           | h :: t => String c h :: t
           end
  end.

(** [sep.join(l)] *)
Definition join (sep : string) (l : list string) : string := String.concat sep l.

(** [c in s] for a character [c] *)
Fixpoint mem (c : ascii) (s : string) : bool :=
  match s with
  | EmptyString => false
  | String d s' => Ascii.eqb d c || mem c s'
  end.

(** [s.startswith(c)] and [s.endswith(c)] for a character [c] *)
Definition starts (c : ascii) (s : string) : bool :=
  match s with
  | String d _ => Ascii.eqb d c
  | EmptyString => false
  end.

Fixpoint ends (c : ascii) (s : string) : bool :=
  match s with
  | EmptyString => false
  | String d EmptyString => Ascii.eqb d c
  | String _ s' => ends c s'
  end.

(** [needle in s] for strings *)
Fixpoint contains (needle s : string) : bool :=
  String.prefix needle s ||
  match s with
  | EmptyString => false
  | String _ s' => contains needle s'
  end.

(** [s.lstrip(c)] as the loop [while s[0] == c: s = s[1:]] *)
Fixpoint lstrip (c : ascii) (s : string) : string :=
  match s with
  | String d s' => if Ascii.eqb d c then lstrip c s' else s
  | EmptyString => EmptyString
  end.

(** [c.isspace()] on the ASCII range *)
Definition is_space (c : ascii) : bool :=
  let n := nat_of_ascii c in
  (Nat.leb 9 n && Nat.leb n 13) || (Nat.leb 28 n && Nat.leb n 32).

Fixpoint lstrip_space (s : string) : string :=
  match s with
  | String c s' => if is_space c then lstrip_space s' else s
  | EmptyString => EmptyString
  end.

Fixpoint rstrip_space (s : string) : string :=
  match s with
  | EmptyString => EmptyString
  | String c s' =>
      let r := rstrip_space s' in
      if (r =? "") && is_space c then "" else String c r
  end.

(** [s.strip()] *)
Definition strip (s : string) : string := rstrip_space (lstrip_space s).

(** [s.split()]: the words between runs of white space. *)
Fixpoint words (s : string) : list string :=
  match s with
  | EmptyString => []
  | String c s' =>
      if is_space c then words s'
      else match s' with
           | EmptyString => [String c ""]
           | String c' _ =>
               if is_space c' then String c "" :: words s'
               else match words s' with
                    | h :: t => String c h :: t
                    | [] => [String c ""]
                    end
           end
  end.

End Str.

(** ** [posixpath] *)

Module PosixPath.

Definition sep : ascii := "/"%char.
Definition nul : ascii := "000"%char.

Definition isabs (s : string) : bool := Str.starts sep s.

(** [os.path.join(a, b)]: an absolute [b] discards [a]. *)
Definition join (a b : string) : string :=
  if isabs b then b
  else if (a =? "") || Str.ends sep a then a ++ b
  else a ++ "/" ++ b.

(** The loop of [normpath] over the components, [acc] being [new_comps]
    in reverse. *)
Fixpoint norm_comps (rooted : bool) (acc : list string) (comps : list string)
  : list string :=
  match comps with
  | [] => rev acc
  | c :: cs =>
      if (c =? "") || (c =? ".") then norm_comps rooted acc cs
      else if negb (c =? "..") then norm_comps rooted (c :: acc) cs
      else match acc with
           | [] => if rooted then norm_comps rooted acc cs
                   else norm_comps rooted (c :: acc) cs
           | top :: acc' =>
               if top =? ".." then norm_comps rooted (c :: acc) cs
               else norm_comps rooted acc' cs
           end
  end.

Definition tl (s : string) : string :=
  match s with
  | String _ s' => s'
  | EmptyString => EmptyString
  end.

(** The number of leading slashes [normpath] keeps: 0, 1, or 2 for a path
    that starts with exactly two. *)
Definition initial_slashes (s : string) : nat :=
  if negb (isabs s) then 0
  else if isabs (tl s) && negb (isabs (tl (tl s))) then 2
  else 1.

Definition normpath (s : string) : string :=
  if s =? "" then "."
  else
    let n := initial_slashes s in
    let comps := norm_comps (Nat.ltb 0 n) [] (Str.split sep s) in
    let p := Str.join "/" comps in
    let p := match n with 0 => p | 1 => "/" ++ p | _ => "//" ++ p end in
    if p =? "" then "." else p.

(** [os.path.abspath]; the working directory is given. *)
Definition abspath (cwd s : string) : string :=
  if isabs s then normpath s else normpath (join cwd s).

Definition nonempty (l : list string) : list string :=
  filter (fun x => negb (x =? "")) l.

(** Length of the common prefix of two component lists. *)
Fixpoint common (a b : list string) : nat :=
  match a, b with
  | x :: a', y :: b' => if x =? y then S (common a' b') else 0
  | _, _ => 0
  end.

(** [join] applied to a whole list: the fold of [join] from its head. *)
Definition join_all (l : list string) : string :=
  match l with
  | [] => ""
  | x :: l' => fold_left join l' x
  end.

(** [os.path.relpath(path, start)]; the script never passes an empty
    [path], for which Python raises. *)
Definition relpath (cwd path start : string) : string :=
  let start_list := nonempty (Str.split sep (abspath cwd start)) in
  let path_list := nonempty (Str.split sep (abspath cwd path)) in
  let i := common start_list path_list in
  let rel_list := (repeat ".." (List.length start_list - i) ++ skipn i path_list)%list in
  match rel_list with
  | [] => "."
  | _ => join_all rel_list
  end.

End PosixPath.


(** [os.path.split]: [(p[:i], p[i:])] for [i] just after the last slash,
    the head without its trailing slashes unless it is made of slashes. *)
Module PathSplit.

Fixpoint rpart (s : string) : string * string :=
  match s with
  | EmptyString => ("", "")
  | String c s' =>
      let (h, t) := rpart s' in
      if h =? "" then
        if Ascii.eqb c PosixPath.sep then (String c "", t) else ("", String c t)
      else (String c h, t)
  end.

Fixpoint all_sep (s : string) : bool :=
  match s with
  | EmptyString => true
  | String c s' => Ascii.eqb c PosixPath.sep && all_sep s'
  end.

Fixpoint rstrip (s : string) : string :=
  match s with
  | EmptyString => EmptyString
  | String c s' =>
      let r := rstrip s' in
      if (r =? "") && Ascii.eqb c PosixPath.sep then "" else String c r
  end.

Definition split (p : string) : string * string :=
  let (head, tail) := rpart p in
  if negb (head =? "") && negb (all_sep head) then (rstrip head, tail)
  else (head, tail).

End PathSplit.


(** ** The file system *)

Module FS.

(** File contents.  The bytes of a zip archive are kept as its list of
    members, name and content, in the order they were written; compression
    is not modelled. *)
Inductive fdata : Type :=
| Blob (bytes : string)
| ZipData (members : list (string * fdata)).

(** A directory lists its entries in the order [scandir] returns them. *)
Inductive node : Type :=
| File (d : fdata)
| Dir (entries : list (string * node)).

(** The root directory. *)
Definition t : Type := list (string * node).

Inductive errno : Type := ENOENT | ENOTDIR | EEXIST | EISDIR | EINVAL | EBUSY.

Fixpoint find (n : string) (es : list (string * node)) : option node :=
  match es with
  | [] => None
  | (m, c) :: es' => if m =? n then Some c else find n es'
  end.

(** Replace the entry [n] where it stands, or add it at the end. *)
Fixpoint set (n : string) (x : node) (es : list (string * node))
  : list (string * node) :=
  match es with
  | [] => [(n, x)]
  | (m, c) :: es' => if m =? n then (n, x) :: es' else (m, c) :: set n x es'
  end.

Definition unlink (n : string) (es : list (string * node)) : list (string * node) :=
  filter (fun e => negb (fst e =? n)) es.

(** The node at a path given by its components from the root. *)
Fixpoint get (x : node) (p : list string) : option node :=
  match p with
  | [] => Some x
  | n :: p' =>
      match x with
      | Dir es => match find n es with
                  | Some c => get c p'
                  | None => None
                  end
      | File _ => None
      end
  end.

Definition lookup (root : t) (p : list string) : option node := get (Dir root) p.

(** Store [x] at [p]; every proper prefix of [p] must be a directory. *)
Fixpoint put (es : list (string * node)) (p : list string) (x : node)
  : option (list (string * node)) :=
  match p with
  | [] => None
  | [n] => Some (set n x es)
  | n :: p' =>
      match find n es with
      | Some (Dir es') =>
          match put es' p' x with
          | Some es'' => Some (set n (Dir es'') es)
          | None => None
          end
      | _ => None
      end
  end.

(** Remove the tree at [p]. *)
Fixpoint remove (es : list (string * node)) (p : list string)
  : list (string * node) :=
  match p with
  | [] => es
  | [n] => unlink n es
  | n :: p' =>
      match find n es with
      | Some (Dir es') => set n (Dir (remove es' p')) es
      | _ => es
      end
  end.

(** Path resolution, component by component from the directory [cur]:
    a component is looked up in a directory only; [..] goes to the parent
    and the root is its own parent.  There are no symbolic links. *)
Fixpoint follow (root : t) (cur : list string) (cs : list string)
  : errno + list string :=
  match cs with
  | [] => inr cur
  | c :: cs' =>
      match lookup root cur with
      | None => inl ENOENT
      | Some (File _) => inl ENOTDIR
      | Some (Dir _) =>
          if (c =? "") || (c =? ".") then follow root cur cs'
          else if c =? ".." then follow root (removelast cur) cs'
          else follow root (cur ++ [c])%list cs'
      end
  end.

(** The components a path string names.  The working directory is the
    root; the script only ever forms absolute paths.  Names and paths of
    any length resolve: the limits of the system on them, [NAME_MAX] and
    [PATH_MAX], are not part of this file system. *)
Definition resolve (root : t) (s : string) : errno + list string :=
  if Str.mem PosixPath.nul s then inl EINVAL
  else if s =? "" then inl ENOENT
  else follow root [] (Str.split PosixPath.sep s).

Definition stat (root : t) (s : string) : errno + node :=
  match resolve root s with
  | inl e => inl e
  | inr p => match lookup root p with
             | Some x => inr x
             | None => inl ENOENT
             end
  end.

Definition exists_ (root : t) (s : string) : bool :=
  match stat root s with inr _ => true | inl _ => false end.

Definition isdir (root : t) (s : string) : bool :=
  match stat root s with inr (Dir _) => true | _ => false end.

(** [os.mkdir] *)
Definition mkdir (root : t) (s : string) : errno + t :=
  match resolve root s with
  | inl e => inl e
  | inr p =>
      match lookup root p with
      | Some _ => inl EEXIST
      | None => match put root p (Dir []) with
                | Some root' => inr root'
                | None => inl ENOENT
                end
      end
  end.

(** [open(s, 'wb')]: the file is created or truncated; the result carries
    the place of the file for the writes that follow. *)
Definition create (root : t) (s : string) : errno + (list string * t) :=
  match resolve root s with
  | inl e => inl e
  | inr p =>
      match lookup root p with
      | Some (Dir _) => inl EISDIR
      | _ => match put root p (File (Blob "")) with
             | Some root' => inr (p, root')
             | None => inl ENOENT
             end
      end
  end.

(** [open(s, 'rb').read()] *)
Definition read (root : t) (s : string) : errno + fdata :=
  match stat root s with
  | inl e => inl e
  | inr (Dir _) => inl EISDIR
  | inr (File d) => inr d
  end.

(** Writing through an open descriptor: the content of the file at [p]. *)
Definition store (root : t) (p : list string) (d : fdata) : t :=
  match lookup root p with
  | Some (File _) => match put root p (File d) with
                     | Some root' => root'
                     | None => root
                     end
  | _ => root
  end.

(** [shutil.rmtree] *)
Definition rmtree (root : t) (s : string) : errno + t :=
  match resolve root s with
  | inl e => inl e
  | inr p =>
      match lookup root p with
      | None => inl ENOENT
      | Some (File _) => inl ENOTDIR
      | Some (Dir _) =>
          match p with
          | [] => inl EBUSY
          | _ => inr (remove root p)
          end
      end
  end.

(** [os.scandir] split the way [os.walk] splits it. *)
Definition dirnames (es : list (string * node)) : list string :=
  flat_map (fun e => match snd e with Dir _ => [fst e] | File _ => [] end) es.

Definition filenames (es : list (string * node)) : list string :=
  flat_map (fun e => match snd e with File _ => [fst e] | Dir _ => [] end) es.

(** [os.walk(top)], top-down: the directory itself, then each of its
    subdirectories in turn, under the name [join(top, dirname)]. *)
Fixpoint walk_node (top : string) (x : node)
  : list (string * list string * list string) :=
  match x with
  | File _ => []
  | Dir es =>
      (top, dirnames es, filenames es) ::
      flat_map (fun e : string * node =>
                  let (n, c) := e in walk_node (PosixPath.join top n) c) es
  end.

(** Errors of the initial [scandir] are ignored by [os.walk]. *)
Definition walk (root : t) (top : string) : list (string * list string * list string) :=
  match stat root top with
  | inr x => walk_node top x
  | inl _ => []
  end.

(** The absolute path string of a place. *)
Definition path_of (p : list string) : string := "/" ++ Str.join "/" p.

(** A name a directory entry can bear. *)
Definition valid_name (n : string) : bool :=
  negb (n =? "") && negb (n =? ".") && negb (n =? "..") &&
  negb (Str.mem PosixPath.sep n) && negb (Str.mem PosixPath.nul n).

Fixpoint nodupb (l : list string) : bool :=
  match l with
  | [] => true
  | x :: l' => negb (existsb (String.eqb x) l') && nodupb l'
  end.

(** Well-formed trees: valid names, no name twice in a directory. *)
Fixpoint wf (x : node) : bool :=
  match x with
  | File _ => true
  | Dir es =>
      forallb valid_name (map fst es) && nodupb (map fst es) &&
      forallb (fun e : string * node => let (_, c) := e in wf c) es
  end.

(** The regular files of a directory, in [scandir] order. *)
Definition files_of (es : list (string * node)) : list (string * fdata) :=
  flat_map (fun e => match snd e with File d => [(fst e, d)] | Dir _ => [] end) es.

(** The regular files below a node, each with its path from the node, in
    the order a top-down walk meets them. *)
Fixpoint listing (x : node) : list (list string * fdata) :=
  match x with
  | File _ => []
  | Dir es =>
      map (fun f => ([fst f], snd f)) (files_of es) ++
      flat_map (fun e : string * node =>
                  let (n, c) := e in
                  map (fun f => (n :: fst f, snd f)) (listing c)) es
  end.

End FS.

(** ** Effects *)

(** Python exceptions the script can meet. *)
Inductive exn : Type :=
| OSError (e : FS.errno) (path : string)
| ValueError (msg : string)
| IndexError (msg : string)
| CalledProcessError (returncode : Z) (cmd : list string)
| ClientError (msg : string)
| EOFError
| SystemExit (code : Z).

Definition os_error (e : FS.errno) (path : string) : exn :=
  match e with
  | FS.EINVAL => ValueError "embedded null byte"
  | _ => OSError e path
  end.

(** What the script does to the outside, in the order it does it. *)
Inductive event : Type :=
| EvShell (cmd : string)
| EvZipOpen (path : string)
| EvPublish (region layer_name description : string) (content : FS.fdata)
            (runtimes : list string)
| EvPrint (line : string)
| EvInput (prompt : string)
| EvRmtree (path : string).

(** The [ZipFile] object: where the archive is, and the members written
    so far. *)
Record zipfile : Type := Zip { zplace : list string; zmembers : list (string * FS.fdata) }.

(** The state: the file system, the events so far, and the archive the
    script has open, if any. *)
Record world : Type := World { fs : FS.t; events : list event; zf : option zipfile }.

Inductive result (A : Type) : Type :=
| Ok (a : A)
| Raise (e : exn).
Arguments Ok {A} a.
Arguments Raise {A} e.

Definition M (A : Type) : Type := world -> result A * world.

Definition ret {A} (a : A) : M A := fun w => (Ok a, w).

Definition raise {A} (e : exn) : M A := fun w => (Raise e, w).

Definition bind {A B} (m : M A) (k : A -> M B) : M B :=
  fun w => match m w with
           | (Ok a, w') => k a w'
           | (Raise e, w') => (Raise e, w')
           end.

Declare Scope py_scope.
Delimit Scope py_scope with py.
Notation "x <- m ;; k" := (bind m (fun x => k))
  (at level 100, m at next level, right associativity) : py_scope.
Notation "m ;; k" := (bind m (fun _ => k))
  (at level 100, right associativity) : py_scope.
Local Open Scope py_scope.

Definition emit (e : event) : M unit :=
  fun w => (Ok tt, World w.(fs) (w.(events) ++ [e]) w.(zf)).

(** Lift a file-system operation that reads. *)
Definition fs_read {A} (op : FS.t -> FS.errno + A) (path : string) : M A :=
  fun w => match op w.(fs) with
           | inr a => (Ok a, w)
           | inl e => (Raise (os_error e path), w)
           end.

(** Lift a file-system operation that writes. *)
Definition fs_write (op : FS.t -> FS.errno + FS.t) (path : string) : M unit :=
  fun w => match op w.(fs) with
           | inr root => (Ok tt, World root w.(events) w.(zf))
           | inl e => (Raise (os_error e path), w)
           end.

(** [try: body finally: fin]: [fin] always runs; its exception, if any,
    replaces the outcome of [body]. *)
Definition try_finally {A} (body : M A) (fin : M unit) : M A :=
  fun w => let (r, w1) := body w in
           match fin w1 with
           | (Ok _, w2) => (r, w2)
           | (Raise e, w2) => (Raise e, w2)
           end.

(** [for x in l: body(x)] *)
Fixpoint for_each {A} (l : list A) (body : A -> M unit) : M unit :=
  match l with
  | [] => ret tt
  | x :: l' => body x ;; for_each l' body
  end.

(** ** The standard library calls *)

Module Tempfile.

(** [tempfile._RandomNameSequence.characters] *)
Definition characters : list ascii :=
  list_ascii_of_string "abcdefghijklmnopqrstuvwxyz0123456789_".

Definition choice (i : nat) : ascii :=
  nth (i mod List.length characters) characters "_"%char.

(** A candidate name from the random indices drawn for it. *)
Definition name (draw : list nat) : string :=
  string_of_list_ascii (map choice draw).

Definition gettempdir : string := "/tmp".

(** Where the candidate of a draw lies. *)
Definition place (draw : list nat) : list string := ["tmp"; "tmp" ++ name draw].

(** [tempfile.mkdtemp()]: the first candidate [gettempdir()/tmp<name>] that
    [mkdir] accepts; a candidate that exists is skipped, any other error
    is raised; [FileExistsError] when the candidates run out. *)
Fixpoint mkdtemp (draws : list (list nat)) : M string :=
  match draws with
  | [] => raise (OSError FS.EEXIST "No usable temporary directory name found")
  | d :: draws' =>
      let file := PosixPath.join gettempdir ("tmp" ++ name d) in
      fun w => match FS.mkdir w.(fs) file with
               | inr root => (Ok (PosixPath.abspath "/" file), World root w.(events) w.(zf))
               | inl FS.EEXIST => mkdtemp draws' w
               | inl e => (Raise (os_error e file), w)
               end
  end.

End Tempfile.

Module Os.

(** [os.makedirs(name)] with [exist_ok=False]: missing parents are made
    first.  [fuel] bounds the recursion on the head of the path, which
    gets shorter at every call. *)
Fixpoint makedirs_fuel (fuel : nat) (name : string) : M unit :=
  match fuel with
  | O => fs_write (fun root => FS.mkdir root name) name
  | S fuel' =>
      let (head, tail) := PathSplit.split name in
      let (head, tail) := if tail =? "" then PathSplit.split head else (head, tail) in
      fun w =>
        if negb (head =? "") && negb (tail =? "") && negb (FS.exists_ w.(fs) head) then
          match makedirs_fuel fuel' head w with
          | (Raise (OSError FS.EEXIST _), w') | (Ok _, w') =>
              if tail =? "." then (Ok tt, w')
              else fs_write (fun root => FS.mkdir root name) name w'
          | (Raise e, w') => (Raise e, w')
          end
        else fs_write (fun root => FS.mkdir root name) name w
  end.

Definition makedirs (name : string) : M unit :=
  makedirs_fuel (String.length name) name.

End Os.

Module Zipfile.

(** [zipfile.ZipFile(file, 'w', ZIP_DEFLATED)]: the file is created. *)
Definition ZipFile (file : string) : M unit :=
  fun w => match FS.create w.(fs) file with
           | inr (p, root) =>
               (Ok tt, World root (w.(events) ++ [EvZipOpen file]) (Some (Zip p [])))
           | inl e => (Raise (os_error e file), w)
           end.

(** [ZipInfo.from_file]: the member name is the normalised [arcname]
    without leading slashes, with a final slash for a directory. *)
Definition member_name (arcname : string) (isdir : bool) : M string :=
  let a := Str.lstrip PosixPath.sep (PosixPath.normpath arcname) in
  if a =? "" then raise (IndexError "string index out of range")
  else ret (if isdir then a ++ "/" else a).

Definition add_member (a : string) (d : FS.fdata) : M unit :=
  fun w => match w.(zf) with
           | Some z => (Ok tt, World w.(fs) w.(events)
                                 (Some (Zip z.(zplace) (z.(zmembers) ++ [(a, d)]))))
           | None => (Raise (ValueError "Attempt to write to ZIP archive that was already closed"), w)
           end.

(** [zf.write(filename, arcname)] *)
Definition write (filename arcname : string) : M unit :=
  x <- fs_read (fun root => FS.stat root filename) filename ;;
  match x with
  | FS.Dir _ =>
      a <- member_name arcname true ;;
      add_member a (FS.Blob "")
  | FS.File _ =>
      a <- member_name arcname false ;;
      d <- fs_read (fun root => FS.read root filename) filename ;;
      add_member a d
  end.

(** [ZipFile.close()]: the archive gets its final content. *)
Definition close : M unit :=
  fun w => match w.(zf) with
           | Some z => (Ok tt, World (FS.store w.(fs) z.(zplace) (FS.ZipData z.(zmembers)))
                                 w.(events) None)
           | None => (Ok tt, w)
           end.

(** [with zipfile.ZipFile(file, 'w', ...) as zf: body]: the archive is
    closed however the body ends. *)
Definition with_ZipFile (file : string) (body : M unit) : M unit :=
  ZipFile file ;; try_finally body close.

End Zipfile.

(** ** The script *)

Section Script.

(** The provider's response object and what [print] shows of it. *)
Variable Response : Type.
Variable str : Response -> string.

(** The shell: the exit status of a command and what it leaves on the
    file system. *)
Variable sh : string -> FS.t -> Z * FS.t.

(** [boto3.client('lambda', region_name=...).publish_layer_version(...)]:
    the message of the error it raises, or the response. *)
Variable publish_layer_version :
  string -> string -> string -> FS.fdata -> list string -> string + Response.

(** The random indices [tempfile] draws, one list per candidate name. *)
Variable draws : list (list nat).

(** The line standard input holds, [None] at end of file. *)
Variable stdin : option string.

(** What a call returns: the script's function has no [return]. *)
Inductive pyval : Type :=
| PyNone
| PyResponse (r : Response).

(** [subprocess.check_call([cmd], shell=True)] *)
Definition check_call (cmd : string) : M unit :=
  fun w =>
    if Str.mem PosixPath.nul cmd then (Raise (ValueError "embedded null byte"), w)
    else
      let (code, root) := sh cmd w.(fs) in
      let w' := World root (w.(events) ++ [EvShell cmd]) w.(zf) in
      if (code =? 0)%Z then (Ok tt, w')
      else (Raise (CalledProcessError code [cmd]), w').

Definition print (line : string) : M unit := emit (EvPrint line).

Definition rmtree (path : string) : M unit :=
  emit (EvRmtree path) ;;
  fs_write (fun root => FS.rmtree root path) path.

Definition os_walk (top : string) : M (list (string * list string * list string)) :=
  fun w => (Ok (FS.walk w.(fs) top), w).

(** Truth value of [libraries] and of [requirements_file]: [None] and the
    empty list or string are false. *)
Definition truthy {A} (x : option (list A)) : bool :=
  match x with
  | Some (_ :: _) => true
  | _ => false
  end.

Definition truthy_str (x : option string) : bool :=
  match x with
  | Some s => negb (s =? "")
  | None => false
  end.

Definition items {A} (x : option (list A)) : list A :=
  match x with
  | Some l => l
  | None => []
  end.

Definition text (x : option string) : string :=
  match x with
  | Some s => s
  | None => "None"
  end.

(** The command of line 21 and that of line 25. *)
Definition pip_install (library package_dir : string) : string :=
  "pip install " ++ library ++ " -t " ++ package_dir.

Definition pip_install_r (requirements_file package_dir : string) : string :=
  "pip install -r " ++ requirements_file ++ " -t " ++ package_dir.

(** The [Description] argument of the publish call, line 42. *)
Definition description (libraries : option (list string)) : string :=
  "Lambda layer for " ++
  (if truthy libraries then Str.join ", " (items libraries) else "multiple libraries").

(** Lines 18-25: the installs. *)
Definition install (libraries : option (list string))
    (requirements_file : option string) (package_dir : string) : M unit :=
  (if truthy libraries then
     for_each (items libraries)
       (fun library => check_call (pip_install library package_dir))
   else ret tt) ;;
  (if truthy_str requirements_file then
     check_call (pip_install_r (text requirements_file) package_dir)
   else ret tt).

(** Lines 30-34: the walk.  Both paths are absolute, so [relpath] never
    consults the working directory. *)
Definition write_tree (temp_dir package_dir : string) : M unit :=
  tree <- os_walk package_dir ;;
  for_each tree (fun '(root, _, files) =>
    for_each files (fun file =>
      let full_path := PosixPath.join root file in
      let relative_path := PosixPath.relpath "/" full_path temp_dir in
      Zipfile.write full_path relative_path)).

(** Lines 28-34: the archive. *)
Definition archive (temp_dir package_dir zip_file : string) : M unit :=
  Zipfile.with_ZipFile zip_file (write_tree temp_dir package_dir).

(** Lines 36-50: publish or report. *)
Definition deliver (libraries : option (list string))
    (layer_name runtime region_name : string) (upload : bool) (zip_file : string)
  : M unit :=
  if upload then
    content <- fs_read (fun root => FS.read root zip_file) zip_file ;;
    emit (EvPublish region_name layer_name (description libraries) content [runtime]) ;;
    match publish_layer_version region_name layer_name (description libraries)
            content [runtime] with
    | inr response => print (str response)
    | inl msg => raise (ClientError msg)
    end
  else print ("Lambda layer package created at: " ++ zip_file).

(** Lines 18-50: the body of the [try]. *)
Definition attempt (libraries : option (list string))
    (layer_name runtime region_name : string) (upload : bool)
    (requirements_file : option string) (temp_dir package_dir : string) : M unit :=
  install libraries requirements_file package_dir ;;
  let zip_file := PosixPath.join temp_dir (layer_name ++ ".zip") in
  archive temp_dir package_dir zip_file ;;
  deliver libraries layer_name runtime region_name upload zip_file.

(** Lines 11-15: the workspace. *)
Definition workspace : M (string * string) :=
  temp_dir <- Tempfile.mkdtemp draws ;;
  let package_dir := PosixPath.join temp_dir "python" in
  Os.makedirs package_dir ;;
  ret (temp_dir, package_dir).

Definition create_lambda_layer (libraries : option (list string))
    (layer_name runtime region_name : string) (upload : bool)
    (requirements_file : option string) : M pyval :=
  dirs <- workspace ;;
  let (temp_dir, package_dir) := dirs in
  try_finally
    (attempt libraries layer_name runtime region_name upload requirements_file
       temp_dir package_dir)
    (rmtree temp_dir) ;;
  ret PyNone.

(** What lines 36-50 add to the events, with the result they end in:
    nothing when they are not reached or cannot read the archive back,
    the report, or the publish call, followed by the printed response
    when there is one. *)
Inductive delivery (libraries : option (list string))
    (layer_name runtime region_name zip_file : string)
  : bool -> result unit -> list event -> Prop :=
| undelivered (upload : bool) (e : exn) :
    delivery libraries layer_name runtime region_name zip_file upload (Raise e) []
| reported :
    delivery libraries layer_name runtime region_name zip_file false (Ok tt)
      [EvPrint ("Lambda layer package created at: " ++ zip_file)]
| published (content : FS.fdata) (response : Response) :
    publish_layer_version region_name layer_name (description libraries) content
      [runtime] = inr response ->
    delivery libraries layer_name runtime region_name zip_file true (Ok tt)
      [EvPublish region_name layer_name (description libraries) content [runtime];
       EvPrint (str response)]
| rejected (content : FS.fdata) (msg : string) :
    publish_layer_version region_name layer_name (description libraries) content
      [runtime] = inl msg ->
    delivery libraries layer_name runtime region_name zip_file true
      (Raise (ClientError msg))
      [EvPublish region_name layer_name (description libraries) content [runtime]].

(** What [parser.parse_args()] finds on the command line: the value given
    to each flag, [None] for a flag that is not there.  How [argparse]
    reads the argument vector is not modelled. *)
Record cmdline : Type := Cmdline {
  opt_libraries : option (list string);
  opt_layer_name : option string;
  opt_runtime : option string;
  opt_region : option string;
  opt_no_upload : bool;
  opt_requirements_file : option string
}.

Record namespace : Type := Namespace {
  libraries : option (list string);
  layer_name : string;
  runtime : string;
  region : string;
  no_upload : bool;
  requirements_file : option string
}.

Definition default (d : string) (x : option string) : string :=
  match x with
  | Some s => s
  | None => d
  end.

(** Lines 57-65: [--layer-name] is required, [--libraries] takes one
    name at least; the parser exits with status 2 otherwise. *)
Definition parse_args (c : cmdline) : M namespace :=
  match c.(opt_libraries), c.(opt_layer_name) with
  | Some [], _ => raise (SystemExit 2)
  | _, None => raise (SystemExit 2)
  | libs, Some name =>
      ret (Namespace libs name (default "python3.10" c.(opt_runtime))
             (default "us-east-1" c.(opt_region)) c.(opt_no_upload)
             c.(opt_requirements_file))
  end.

(** [input(prompt)] *)
Definition input (prompt : string) : M string :=
  emit (EvInput prompt) ;;
  match stdin with
  | Some line => ret line
  | None => raise EOFError
  end.

(** The same command line with another value for [--region]. *)
Definition with_region (r : option string) (c : cmdline) : cmdline :=
  Cmdline c.(opt_libraries) c.(opt_layer_name) c.(opt_runtime) r
    c.(opt_no_upload) c.(opt_requirements_file).

(** Lines 56-73. *)
Definition main (c : cmdline) : M pyval :=
  args <- parse_args c ;;
  libs <- (if negb (truthy args.(libraries)) then
             if negb (truthy_str args.(requirements_file)) then
               line <- input "Please enter the pip library names (separated by spaces): " ;;
               let user_input := Str.strip line in
               ret (if negb (user_input =? "") then Some (Str.words user_input) else None)
             else ret args.(libraries)
           else ret args.(libraries)) ;;
  create_lambda_layer libs args.(layer_name) args.(runtime) args.(region)
    (negb args.(no_upload)) args.(requirements_file) ;;
  ret PyNone.

End Script.

(** ** Sample surroundings, used to run the script on concrete inputs *)

Module Sample.

(** A package manager that installs [<dir>/<library>/__init__.py] for
    [pip install <library> -t <dir>], knows no package [no-such-package],
    prints its help for [--help], and rejects any other command. *)
Definition pip (cmd : string) (root : FS.t) : Z * FS.t :=
  if String.prefix "pip install no-such-package " cmd then (1%Z, root)
  else
    match Str.split " " cmd with
    | ["pip"; "install"; lib; "-t"; dir] =>
        if lib =? "--help" then (0%Z, root)
        else
          match FS.mkdir root (PosixPath.join dir lib) with
          | inr r1 =>
              match FS.create r1 (PosixPath.join (PosixPath.join dir lib) "__init__.py") with
              | inr (p, r2) => (0%Z, FS.store r2 p (FS.Blob ("# " ++ lib)))
              | inl _ => (1%Z, r1)
              end
          | inl _ => (1%Z, root)
          end
    | _ => (2%Z, root)
    end.



(** A provider that accepts every layer. *)
Definition provider (region name desc : string) (content : FS.fdata)
    (runtimes : list string) : string + string :=
  inr ("{'LayerArn': 'arn:aws:lambda:" ++ region ++ ":layer:" ++ name ++ "', 'Version': 1}").

(** A machine with an empty [/tmp] and an output directory [/srv]. *)
Definition machine : world :=
  World [("tmp", FS.Dir []); ("srv", FS.Dir [])] [] None.

Definition draws : list (list nat) := [[0; 1; 2; 3; 4; 5; 6; 7]].

(** The workspace of the first draw, and the machine once [requests] is
    installed in it. *)
Definition temp_dir : string := "/tmp/tmpabcdefgh".


(** [create_lambda_layer] on the sample machine. *)
Definition run (libraries : option (list string)) (layer_name : string)
    (upload : bool) (requirements_file : option string) :=
  create_lambda_layer string (fun r => r) pip provider draws
    libraries layer_name "python3.10" "us-east-1" upload requirements_file machine.

End Sample.

(** ** Notions the statements use *)

Definition valid (n : string) : Prop := FS.valid_name n = true.

(** A layer name that is a single path component: no slash, no NUL. *)
Definition plain_name (n : string) : bool :=
  negb (Str.mem PosixPath.sep n) && negb (Str.mem PosixPath.nul n).



(** An exception of an install step. *)
Definition install_error (e : exn) : Prop :=
  e = ValueError "embedded null byte" \/
  exists code cmd, code <> 0%Z /\ e = CalledProcessError code [cmd].

(** A step that only runs shell commands: it leaves the open archive
    alone, adds shell events only, and ends well or in an install error. *)
Definition shell_only (m : M unit) : Prop :=
  forall (w w' : world) (r : result unit),
    m w = (r, w') ->
    w'.(zf) = w.(zf) /\
    (exists cmds, w'.(events) = (w.(events) ++ map EvShell cmds)%list) /\
    (r = Ok tt \/ exists e, r = Raise e /\ install_error e).

(** A step that leaves no event. *)
Definition silent {A} (m : M A) : Prop :=
  forall (w w' : world) (r : result A), m w = (r, w') -> w'.(events) = w.(events).

(** A step that leaves the file system as it is, too. *)
Definition harmless {A} (m : M A) : Prop :=
  forall (w w' : world) (r : result A),
    m w = (r, w') -> w'.(events) = w.(events) /\ w'.(fs) = w.(fs).

(** The world after more members were written to the open archive [z]. *)
Definition wrote (w : world) (z : zipfile) (more : list (string * FS.fdata)) : world :=
  World w.(fs) w.(events) (Some (Zip z.(zplace) (z.(zmembers) ++ more))).

(** The loops of lines 30-34 over the walk of the tree [x] found at
    [base ++ rel] write the regular files of [x], in walk order, under
    their paths from [base]. *)
Definition walked (base : list string) (x : FS.node) : Prop :=
  forall (rel : list string) (w : world) (z : zipfile),
    rel <> [] -> Forall valid rel -> FS.wf x = true ->
    FS.lookup w.(fs) (base ++ rel) = Some x -> w.(zf) = Some z ->
    for_each (FS.walk_node (FS.path_of (base ++ rel)) x)
      (fun '(root, _, files) =>
         for_each files
           (fun file =>
              Zipfile.write (PosixPath.join root file)
                (PosixPath.relpath "/" (PosixPath.join root file) (FS.path_of base)))) w =
    (Ok tt, wrote w z (map (fun f => (Str.join "/" (rel ++ fst f), snd f))
                         (FS.listing x))).

(** A step that, while the archive [z] is open, at most adds members to
    it. *)
Definition appending {A} (m : M A) : Prop :=
  forall (w w' : world) (z : zipfile) (r : result A),
    w.(zf) = Some z -> m w = (r, w') -> exists more, w' = wrote w z more.






(** ** Notions of the further properties *)

(** The package-manager commands of lines 19-25, in the order the script
    issues them: one per library, then the one for the manifest. *)
Definition commands (libraries : option (list string))
    (requirements_file : option string) (package_dir : string) : list string :=
  (map (fun library => pip_install library package_dir) (items libraries) ++
   (if truthy_str requirements_file
    then [pip_install_r (text requirements_file) package_dir]
    else []))%list.

Definition is_publish (e : event) : bool :=
  match e with
  | EvPublish _ _ _ _ _ => true
  | _ => false
  end.

Definition is_print (e : event) : bool :=
  match e with
  | EvPrint _ => true
  | _ => false
  end.

(** The exceptions of the file and archive operations. *)
Definition file_error (e : exn) : bool :=
  match e with
  | OSError _ _ | ValueError _ | IndexError _ => true
  | _ => false
  end.

(** A step whose exceptions all satisfy [P]. *)
Definition raises {A} (P : exn -> Prop) (m : M A) : Prop :=
  forall (w w' : world) (e : exn), m w = (Raise e, w') -> P e.


(** The exceptions [create_lambda_layer] can raise: not those of the
    parser and of the prompt. *)
Definition script_error (e : exn) : bool :=
  match e with
  | SystemExit _ | EOFError => false
  | _ => true
  end.

(** The prompt of line 70. *)
Definition prompt : string :=
  "Please enter the pip library names (separated by spaces): ".

(** Lines 70-71: the library list for the line the user typed. *)
Definition answer (line : string) : option (list string) :=
  let user_input := Str.strip line in
  if negb (user_input =? "") then Some (Str.words user_input) else None.

(** A string made of white space only. *)
Fixpoint blank (s : string) : bool :=
  match s with
  | EmptyString => true
  | String c s' => Str.is_space c && blank s'
  end.

(** A string without white space. *)
Fixpoint spaceless (s : string) : bool :=
  match s with
  | EmptyString => true
  | String c s' => negb (Str.is_space c) && spaceless s'
  end.

(** A name as the user can type it: not empty, without white space. *)
Definition wordlike (s : string) : bool := negb (s =? "") && spaceless s.

(** Text of the ASCII range.  There [Str.is_space] is [str.isspace];
    beyond it Python knows further white space, U+0085 and U+00A0 among
    others, so that what is stated of the words of a line is stated for
    lines of this range. *)
Definition is_ascii (c : ascii) : bool := Nat.ltb (nat_of_ascii c) 128.

Fixpoint ascii_text (s : string) : bool :=
  match s with
  | EmptyString => true
  | String c s' => is_ascii c && ascii_text s'
  end.

(** The call of line 73 for a parsed command line, with the library list
    [main] has settled on. *)
Definition call_of (Response : Type) (str : Response -> string)
    (sh : string -> FS.t -> Z * FS.t)
    (publish_layer_version :
       string -> string -> string -> FS.fdata -> list string -> string + Response)
    (draws : list (list nat)) (c : cmdline) (name : string)
    (libs : option (list string)) : M (pyval Response) :=
  create_lambda_layer Response str sh publish_layer_version draws
    libs name (default "python3.10" c.(opt_runtime)) (default "us-east-1" c.(opt_region))
    (negb c.(opt_no_upload)) c.(opt_requirements_file).

(** * Properties *)

(** ** Strings *)

Lemma append_nil_r (s : string) : s ++ "" = s.
Proof. induction s; simpl; congruence. Qed.

Lemma append_assoc (a b c : string) : (a ++ b) ++ c = a ++ (b ++ c).
Proof. induction a; simpl; congruence. Qed.

Lemma length_append (a b : string) :
  String.length (a ++ b) = String.length a + String.length b.
Proof. induction a; simpl; congruence. Qed.

Lemma mem_append (c : ascii) (a b : string) :
  Str.mem c (a ++ b) = Str.mem c a || Str.mem c b.
Proof.
  induction a as [|d a IH]; simpl; [reflexivity|].
  rewrite IH. now rewrite orb_assoc.
Qed.

Lemma split_not_nil (c : ascii) (s : string) : Str.split c s <> [].
Proof.
  induction s as [|d s IH]; simpl; [discriminate|].
  destruct (Ascii.eqb d c); [discriminate|].
  destruct (Str.split c s); discriminate.
Qed.

Lemma split_without (c : ascii) (s : string) :
  Str.mem c s = false -> Str.split c s = [s].
Proof.
  induction s as [|d s IH]; simpl; [reflexivity|].
  intros H. apply orb_false_iff in H as [Hd Hs].
  rewrite Hd, (IH Hs). reflexivity.
Qed.

Lemma split_append (c : ascii) (a b : string) :
  Str.split c (a ++ String c b) = (Str.split c a ++ Str.split c b)%list.
Proof.
  induction a as [|d a IH]; simpl.
  - now rewrite Ascii.eqb_refl.
  - destruct (Ascii.eqb d c); [now rewrite IH|].
    rewrite IH. destruct (Str.split c a) eqn:E; [|reflexivity].
    now apply split_not_nil in E.
Qed.

Lemma starts_without (c : ascii) (s : string) :
  Str.mem c s = false -> Str.starts c s = false.
Proof.
  destruct s as [|d s]; simpl; [reflexivity|].
  intros H. now apply orb_false_iff in H as [Hd _].
Qed.

Lemma ends_without (c : ascii) (s : string) :
  Str.mem c s = false -> Str.ends c s = false.
Proof.
  induction s as [|d s IH]; simpl; [reflexivity|].
  intros H. apply orb_false_iff in H as [Hd Hs].
  destruct s; [exact Hd | now apply IH].
Qed.

Lemma ends_append (c : ascii) (a b : string) :
  b <> "" -> Str.ends c (a ++ b) = Str.ends c b.
Proof.
  intros Hb. induction a as [|d a IH]; simpl; [reflexivity|].
  destruct (a ++ b) eqn:E; [|exact IH].
  destruct a; simpl in E; [congruence | discriminate].
Qed.

Lemma ends_cons (c d : ascii) (s : string) :
  s <> "" -> Str.ends c (String d s) = Str.ends c s.
Proof. destruct s; [congruence | reflexivity]. Qed.

Lemma starts_append (c : ascii) (a b : string) :
  a <> "" -> Str.starts c (a ++ b) = Str.starts c a.
Proof. destruct a; simpl; congruence. Qed.

Lemma lstrip_keeps (c : ascii) (s : string) :
  Str.starts c s = false -> Str.lstrip c s = s.
Proof. destruct s as [|d s]; simpl; [reflexivity|]. now intros ->. Qed.

Lemma prefix_append (a b : string) : String.prefix a (a ++ b) = true.
Proof.
  induction a as [|c a IH]; simpl; [now destruct b|].
  destruct (ascii_dec c c); [exact IH | congruence].
Qed.

Lemma contains_prefix (needle s : string) :
  String.prefix needle s = true -> Str.contains needle s = true.
Proof. destruct s; simpl; now intros ->. Qed.

Lemma contains_append (needle a b : string) :
  Str.contains needle (a ++ needle ++ b) = true.
Proof.
  induction a as [|c a IH]; simpl.
  - apply contains_prefix, prefix_append.
  - rewrite IH. apply orb_true_r.
Qed.

(** [join] and [split] on lists of components without separator. *)
Lemma join_cons (sep x : string) (l : list string) :
  l <> [] -> Str.join sep (x :: l) = x ++ sep ++ Str.join sep l.
Proof. destruct l; [congruence | reflexivity]. Qed.

Lemma split_join (cs : list string) :
  cs <> [] ->
  Forall (fun n => Str.mem PosixPath.sep n = false) cs ->
  Str.split PosixPath.sep (Str.join "/" cs) = cs.
Proof.
  induction cs as [|n cs IH]; [congruence|].
  intros _ H. inversion H as [|? ? Hn Hcs]; subst.
  destruct cs as [|m cs].
  - simpl. now apply split_without.
  - rewrite join_cons by discriminate.
    change (n ++ "/" ++ Str.join "/" (m :: cs))
      with (n ++ String PosixPath.sep (Str.join "/" (m :: cs))).
    rewrite split_append, split_without by exact Hn.
    rewrite IH by (discriminate || assumption). reflexivity.
Qed.

Lemma mem_join (c : ascii) (cs : list string) :
  Str.mem c "/" = false ->
  Forall (fun n => Str.mem c n = false) cs ->
  Str.mem c (Str.join "/" cs) = false.
Proof.
  intros Hc. induction cs as [|n cs IH]; [reflexivity|].
  intros H. inversion H as [|? ? Hn Hcs]; subst.
  destruct cs as [|m cs]; [exact Hn|].
  rewrite join_cons by discriminate.
  rewrite !mem_append, Hn, Hc, IH by assumption. reflexivity.
Qed.

(** ** Paths made of valid names *)

Lemma valid_inv (n : string) :
  valid n ->
  n <> "" /\ n <> "." /\ n <> ".." /\
  Str.mem PosixPath.sep n = false /\ Str.mem PosixPath.nul n = false.
Proof.
  unfold valid, FS.valid_name. intros H.
  repeat (apply andb_true_iff in H as [H ?]).
  repeat match goal with
         | K : negb _ = true |- _ => apply negb_true_iff in K
         end.
  repeat split; try assumption; now apply String.eqb_neq.
Qed.

Lemma valid_nosep (cs : list string) :
  Forall valid cs -> Forall (fun n => Str.mem PosixPath.sep n = false) cs.
Proof. apply Forall_impl. intros n H. now apply valid_inv in H. Qed.

Lemma valid_nonul (cs : list string) :
  Forall valid cs -> Forall (fun n => Str.mem PosixPath.nul n = false) cs.
Proof. apply Forall_impl. intros n H. now apply valid_inv in H. Qed.

Lemma valid_not_abs (n : string) : valid n -> PosixPath.isabs n = false.
Proof. intros H. apply starts_without. now apply valid_inv in H. Qed.

Lemma join_not_empty (cs : list string) :
  cs <> [] -> Forall valid cs -> Str.join "/" cs <> "".
Proof.
  destruct cs as [|n cs]; [congruence|]. intros _ H.
  inversion H as [|? ? Hn _]; subst. apply valid_inv in Hn as [Hn _].
  destruct cs; simpl; [exact Hn|]. destruct n; [congruence | discriminate].
Qed.

Lemma join_not_abs (cs : list string) :
  cs <> [] -> Forall valid cs -> PosixPath.isabs (Str.join "/" cs) = false.
Proof.
  destruct cs as [|n cs]; [congruence|]. intros _ H.
  inversion H as [|? ? Hn _]; subst.
  pose proof (valid_not_abs _ Hn) as Ha. apply valid_inv in Hn as [Hn _].
  destruct cs; [exact Ha|]. rewrite join_cons by discriminate.
  unfold PosixPath.isabs in *. now rewrite starts_append.
Qed.

Lemma join_snoc (cs : list string) (n : string) :
  cs <> [] -> Str.join "/" (cs ++ [n]) = Str.join "/" cs ++ "/" ++ n.
Proof.
  induction cs as [|m cs IH]; [congruence|]. intros _.
  destruct cs as [|k cs]; [reflexivity|].
  change ((m :: k :: cs) ++ [n])%list with (m :: ((k :: cs) ++ [n]))%list.
  rewrite join_cons by discriminate. rewrite IH by discriminate.
  rewrite (join_cons "/" m (k :: cs)) by discriminate.
  now rewrite !append_assoc.
Qed.

Lemma join_ends (cs : list string) :
  cs <> [] -> Forall valid cs -> Str.ends PosixPath.sep (Str.join "/" cs) = false.
Proof.
  induction cs as [|n cs IH]; [congruence|]. intros _ H.
  inversion H as [|? ? Hn Hcs]; subst.
  destruct cs as [|m cs].
  - apply ends_without. now apply valid_inv in Hn.
  - rewrite join_cons by discriminate.
    rewrite ends_append by discriminate.
    pose proof (join_not_empty (m :: cs) ltac:(discriminate) Hcs) as Hne.
    change ("/" ++ Str.join "/" (m :: cs)) with (String "/" (Str.join "/" (m :: cs))).
    rewrite ends_cons by exact Hne.
    apply IH; [discriminate | exact Hcs].
Qed.

Lemma path_of_snoc (cs : list string) (n : string) :
  cs <> [] -> FS.path_of (cs ++ [n]) = FS.path_of cs ++ "/" ++ n.
Proof.
  intros H. unfold FS.path_of. rewrite join_snoc by exact H.
  now rewrite append_assoc.
Qed.

Lemma path_of_ends (cs : list string) :
  cs <> [] -> Forall valid cs -> Str.ends PosixPath.sep (FS.path_of cs) = false.
Proof.
  intros H1 H2. unfold FS.path_of.
  rewrite ends_append by now apply join_not_empty.
  now apply join_ends.
Qed.

Lemma path_join_name (cs : list string) (n : string) :
  cs <> [] -> Forall valid cs -> PosixPath.isabs n = false ->
  PosixPath.join (FS.path_of cs) n = FS.path_of (cs ++ [n]).
Proof.
  intros H1 H2 Hn. unfold PosixPath.join. rewrite Hn.
  rewrite path_of_ends by assumption.
  change (FS.path_of cs =? "") with false. simpl.
  now rewrite path_of_snoc.
Qed.

Lemma split_path_of (cs : list string) :
  cs <> [] -> Forall valid cs ->
  Str.split PosixPath.sep (FS.path_of cs) = "" :: cs.
Proof.
  intros H1 H2. unfold FS.path_of.
  change ("/" ++ Str.join "/" cs) with ("" ++ String PosixPath.sep (Str.join "/" cs)).
  rewrite split_append. simpl.
  now rewrite split_join by (assumption || now apply valid_nosep).
Qed.

Lemma path_of_nonul (cs : list string) :
  Forall valid cs -> Str.mem PosixPath.nul (FS.path_of cs) = false.
Proof.
  intros H. unfold FS.path_of.
  rewrite mem_append, mem_join; [reflexivity | reflexivity | now apply valid_nonul].
Qed.

Lemma norm_comps_valid (rooted : bool) (cs acc : list string) :
  Forall valid cs -> PosixPath.norm_comps rooted acc cs = (rev acc ++ cs)%list.
Proof.
  revert acc. induction cs as [|c cs IH]; intros acc H; simpl.
  - now rewrite app_nil_r.
  - inversion H as [|? ? Hc Hcs]; subst.
    apply valid_inv in Hc as (H1 & H2 & H3 & _).
    apply String.eqb_neq in H1, H2, H3. rewrite H1, H2, H3. simpl.
    rewrite IH by exact Hcs. simpl. now rewrite <- app_assoc.
Qed.

Lemma normpath_path_of (cs : list string) :
  cs <> [] -> Forall valid cs -> PosixPath.normpath (FS.path_of cs) = FS.path_of cs.
Proof.
  intros H1 H2. unfold PosixPath.normpath.
  change (FS.path_of cs =? "") with false. cbv iota.
  assert (Hs : PosixPath.initial_slashes (FS.path_of cs) = 1).
  { unfold PosixPath.initial_slashes, FS.path_of. simpl.
    now rewrite join_not_abs. }
  rewrite Hs, split_path_of by assumption. simpl.
  rewrite norm_comps_valid by exact H2. reflexivity.
Qed.

Lemma normpath_relative (cs : list string) :
  cs <> [] -> Forall valid cs ->
  PosixPath.normpath (Str.join "/" cs) = Str.join "/" cs.
Proof.
  intros H1 H2. unfold PosixPath.normpath.
  pose proof (join_not_empty cs H1 H2) as Hne.
  apply String.eqb_neq in Hne. rewrite Hne.
  unfold PosixPath.initial_slashes. rewrite join_not_abs by assumption. simpl.
  rewrite split_join by (assumption || now apply valid_nosep).
  rewrite norm_comps_valid by exact H2. simpl. now rewrite Hne.
Qed.

Lemma nonempty_valid (cs : list string) :
  Forall valid cs -> PosixPath.nonempty cs = cs.
Proof.
  induction 1 as [|n cs Hn _ IH]; [reflexivity|].
  unfold PosixPath.nonempty in *. simpl.
  apply valid_inv in Hn as [Hn _]. apply String.eqb_neq in Hn.
  now rewrite Hn, IH.
Qed.

Lemma common_prefix (a b : list string) : PosixPath.common a (a ++ b) = List.length a.
Proof.
  induction a as [|x a IH]; simpl; [now destruct b|].
  now rewrite String.eqb_refl, IH.
Qed.

Lemma join_all_valid (cs : list string) (acc : string) :
  acc <> "" -> Str.ends PosixPath.sep acc = false -> Forall valid cs ->
  fold_left PosixPath.join cs acc =
  match cs with
  | [] => acc
  | _ => acc ++ "/" ++ Str.join "/" cs
  end.
Proof.
  revert acc. induction cs as [|n cs IH]; intros acc Ha He H; [reflexivity|].
  inversion H as [|? ? Hn Hcs]; subst. simpl fold_left.
  assert (Hj : PosixPath.join acc n = acc ++ "/" ++ n).
  { unfold PosixPath.join. rewrite (valid_not_abs _ Hn), He.
    apply String.eqb_neq in Ha. now rewrite Ha. }
  rewrite Hj. apply valid_inv in Hn as (Hn & _ & _ & Hs & _).
  rewrite IH; try assumption.
  - destruct cs; [reflexivity|]. rewrite (join_cons "/" n) by discriminate.
    now rewrite !append_assoc.
  - destruct acc; [congruence | discriminate].
  - rewrite ends_append by discriminate.
    change ("/" ++ n) with (String "/" n).
    rewrite ends_cons by exact Hn. now apply ends_without.
Qed.

Lemma join_all_names (cs : list string) :
  Forall valid cs -> PosixPath.join_all cs = Str.join "/" cs.
Proof.
  destruct cs as [|n cs]; [reflexivity|]. intros H.
  inversion H as [|? ? Hn Hcs]; subst. unfold PosixPath.join_all.
  pose proof Hn as Hv. apply valid_inv in Hn as (Hn & _ & _ & Hs & _).
  rewrite join_all_valid; try assumption.
  - destruct cs; [reflexivity|]. now rewrite (join_cons "/" n) by discriminate.
  - now apply ends_without.
Qed.

(** [relpath] of a place below the start is the path between them. *)
Lemma relpath_below (base rest : list string) :
  base <> [] -> rest <> [] -> Forall valid base -> Forall valid rest ->
  PosixPath.relpath "/" (FS.path_of (base ++ rest)) (FS.path_of base) =
  Str.join "/" rest.
Proof.
  intros Hb Hr Vb Vr.
  assert (Vall : Forall valid (base ++ rest)) by (apply Forall_app; now split).
  assert (Hall : (base ++ rest)%list <> []) by (destruct base; [congruence | discriminate]).
  unfold PosixPath.relpath, PosixPath.abspath.
  change (PosixPath.isabs (FS.path_of base)) with true.
  change (PosixPath.isabs (FS.path_of (base ++ rest))) with true. cbv iota.
  rewrite !normpath_path_of, !split_path_of by assumption.
  change (PosixPath.nonempty ("" :: base)) with (PosixPath.nonempty base).
  change (PosixPath.nonempty ("" :: base ++ rest)) with (PosixPath.nonempty (base ++ rest)).
  rewrite !nonempty_valid by assumption.
  rewrite common_prefix, Nat.sub_diag, skipn_app, skipn_all, Nat.sub_diag. simpl.
  destruct rest as [|r rest]; [congruence|].
  now apply join_all_names.
Qed.

(** ** The file system *)

Lemma find_set_same (n : string) (x : FS.node) (es : list (string * FS.node)) :
  FS.find n (FS.set n x es) = Some x.
Proof.
  induction es as [|[m c] es IH]; simpl.
  - now rewrite String.eqb_refl.
  - destruct (m =? n) eqn:E; simpl; [now rewrite String.eqb_refl | now rewrite E].
Qed.

Lemma find_set_other (m n : string) (x : FS.node) (es : list (string * FS.node)) :
  m <> n -> FS.find m (FS.set n x es) = FS.find m es.
Proof.
  intros Hmn. induction es as [|[k c] es IH]; simpl.
  - apply not_eq_sym, String.eqb_neq in Hmn. now rewrite Hmn.
  - destruct (k =? n) eqn:E; simpl.
    + apply String.eqb_eq in E. subst k.
      apply not_eq_sym, String.eqb_neq in Hmn. now rewrite Hmn.
    + now rewrite IH.
Qed.

Lemma find_unlink_same (n : string) (es : list (string * FS.node)) :
  FS.find n (FS.unlink n es) = None.
Proof.
  induction es as [|[m c] es IH]; simpl; [reflexivity|].
  destruct (m =? n) eqn:E; simpl; [exact IH | now rewrite E].
Qed.

Lemma get_file (d : FS.fdata) (p : list string) :
  p <> [] -> FS.get (FS.File d) p = None.
Proof. destruct p; [congruence | reflexivity]. Qed.

Lemma get_app (x : FS.node) (p q : list string) :
  FS.get x (p ++ q) =
  match FS.get x p with
  | Some y => FS.get y q
  | None => None
  end.
Proof.
  revert x. induction p as [|n p IH]; intros x; simpl; [reflexivity|].
  destruct x as [d|es]; [reflexivity|].
  destruct (FS.find n es); [apply IH | reflexivity].
Qed.

Lemma lookup_below_none (root : FS.t) (p q : list string) :
  FS.lookup root p = None -> FS.lookup root (p ++ q) = None.
Proof. unfold FS.lookup. rewrite get_app. now intros ->. Qed.

Lemma lookup_below_file (root : FS.t) (p q : list string) (d : FS.fdata) :
  FS.lookup root p = Some (FS.File d) -> q <> [] -> FS.lookup root (p ++ q) = None.
Proof. unfold FS.lookup. rewrite get_app. intros -> H. now apply get_file. Qed.

Lemma lookup_parent_dir (root : FS.t) (p : list string) (n : string) (x : FS.node) :
  FS.lookup root (p ++ [n]) = Some x -> exists es, FS.lookup root p = Some (FS.Dir es).
Proof.
  unfold FS.lookup. rewrite get_app.
  destruct (FS.get (FS.Dir root) p) as [[d|es]|]; try discriminate.
  intros _. now exists es.
Qed.

Lemma put_cons (es : list (string * FS.node)) (n : string) (p : list string)
    (x : FS.node) :
  p <> [] ->
  FS.put es (n :: p) x =
  match FS.find n es with
  | Some (FS.Dir e1) =>
      match FS.put e1 p x with
      | Some e2 => Some (FS.set n (FS.Dir e2) es)
      | None => None
      end
  | _ => None
  end.
Proof. destruct p; [congruence | reflexivity]. Qed.

Lemma remove_cons (es : list (string * FS.node)) (n : string) (p : list string) :
  p <> [] ->
  FS.remove es (n :: p) =
  match FS.find n es with
  | Some (FS.Dir e1) => FS.set n (FS.Dir (FS.remove e1 p)) es
  | _ => es
  end.
Proof. destruct p; [congruence | reflexivity]. Qed.

Lemma get_cons (es : list (string * FS.node)) (n : string) (p : list string) :
  FS.get (FS.Dir es) (n :: p) =
  match FS.find n es with
  | Some c => FS.get c p
  | None => None
  end.
Proof. reflexivity. Qed.

Lemma get_remove (es : list (string * FS.node)) (p q : list string) :
  p <> [] -> FS.get (FS.Dir (FS.remove es p)) (p ++ q) = None.
Proof.
  revert es. induction p as [|n p IH]; intros es Hp; [congruence|].
  destruct p as [|m p].
  - simpl. now rewrite find_unlink_same.
  - rewrite remove_cons by discriminate.
    change ((n :: m :: p) ++ q)%list with (n :: ((m :: p) ++ q))%list.
    rewrite get_cons.
    destruct (FS.find n es) as [[d|es']|] eqn:E.
    + now rewrite E.
    + rewrite find_set_same. apply IH. discriminate.
    + now rewrite E.
Qed.

Lemma put_parent (es : list (string * FS.node)) (p : list string) (n : string)
    (x : FS.node) (es0 : list (string * FS.node)) :
  FS.get (FS.Dir es) p = Some (FS.Dir es0) ->
  exists es', FS.put es (p ++ [n]) x = Some es'.
Proof.
  revert es. induction p as [|m p IH]; intros es H.
  - simpl. eauto.
  - rewrite get_cons in H. destruct (FS.find m es) as [c|] eqn:E; [|discriminate].
    destruct c as [d|es1]; [destruct p; discriminate|].
    destruct (IH es1 H) as [es' Hes'].
    change ((m :: p) ++ [n])%list with (m :: (p ++ [n]))%list.
    rewrite put_cons by (now destruct p).
    rewrite E, Hes'. eauto.
Qed.

Lemma get_put_same (es es' : list (string * FS.node)) (p : list string) (x : FS.node) :
  FS.put es p x = Some es' -> FS.get (FS.Dir es') p = Some x.
Proof.
  revert es es'. induction p as [|n p IH]; intros es es' H; [discriminate|].
  destruct p as [|m p].
  - simpl in H. injection H as <-. simpl. now rewrite find_set_same.
  - rewrite put_cons in H by discriminate.
    destruct (FS.find n es) as [[d|e1]|]; try discriminate.
    destruct (FS.put e1 (m :: p) x) as [e2|] eqn:E; [|discriminate].
    injection H as <-.
    rewrite get_cons, find_set_same. now apply (IH e1).
Qed.

Lemma put_head (es es' : list (string * FS.node)) (a : string) (p : list string)
    (x : FS.node) :
  FS.put es (a :: p) x = Some es' -> exists y, es' = FS.set a y es.
Proof.
  destruct p as [|m p].
  - simpl. intros H. injection H as <-. eauto.
  - rewrite put_cons by discriminate.
    destruct (FS.find a es) as [[d|e1]|]; try discriminate.
    destruct (FS.put e1 (m :: p) x); [|discriminate].
    intros H. injection H as <-. eauto.
Qed.

(** Storing at a place leaves the places that branch off its path. *)
Lemma get_put_aside (es es' : list (string * FS.node)) (c p q : list string)
    (a b : string) (x : FS.node) :
  FS.put es (c ++ a :: p) x = Some es' -> a <> b ->
  FS.get (FS.Dir es') (c ++ b :: q) = FS.get (FS.Dir es) (c ++ b :: q).
Proof.
  revert es es'. induction c as [|n c IH]; intros es es' H Hab.
  - simpl app in *. apply put_head in H as [y ->].
    rewrite !get_cons, find_set_other by congruence. reflexivity.
  - change ((n :: c) ++ a :: p)%list with (n :: (c ++ a :: p))%list in H.
    rewrite put_cons in H by (now destruct c).
    destruct (FS.find n es) as [[d|e1]|] eqn:En; try discriminate.
    destruct (FS.put e1 (c ++ a :: p) x) as [e2|] eqn:E; [|discriminate].
    injection H as <-.
    change ((n :: c) ++ b :: q)%list with (n :: (c ++ b :: q))%list.
    rewrite !get_cons, find_set_same, En. now apply (IH e1).
Qed.

(** ** Path resolution *)

Lemma follow_step (root : FS.t) (cur cs : list string) (c : string) :
  valid c ->
  FS.follow root cur (c :: cs) =
  match FS.lookup root cur with
  | None => inl FS.ENOENT
  | Some (FS.File _) => inl FS.ENOTDIR
  | Some (FS.Dir _) => FS.follow root (cur ++ [c]) cs
  end.
Proof.
  intros Hc. apply valid_inv in Hc as (H1 & H2 & H3 & _).
  apply String.eqb_neq in H1, H2, H3. simpl. now rewrite H1, H2, H3.
Qed.

Lemma follow_inr (root : FS.t) (cs cur p : list string) :
  Forall valid cs -> FS.follow root cur cs = inr p -> p = (cur ++ cs)%list.
Proof.
  revert cur. induction cs as [|c cs IH]; intros cur H E.
  - simpl in E. injection E as <-. now rewrite app_nil_r.
  - inversion H as [|? ? Hc Hcs]; subst. rewrite follow_step in E by exact Hc.
    destruct (FS.lookup root cur) as [[d|es]|]; try discriminate.
    apply IH in E; [|exact Hcs]. now rewrite <- app_assoc in E.
Qed.

Lemma follow_inl (root : FS.t) (cs cur q : list string) (e : FS.errno) :
  Forall valid cs -> FS.follow root cur cs = inl e ->
  FS.lookup root (cur ++ cs ++ q) = None.
Proof.
  revert cur. induction cs as [|c cs IH]; intros cur H E; [discriminate|].
  inversion H as [|? ? Hc Hcs]; subst. rewrite follow_step in E by exact Hc.
  destruct (FS.lookup root cur) as [[d|es]|] eqn:L.
  - apply (lookup_below_file _ _ _ _ L). discriminate.
  - apply (IH _ Hcs) in E. now rewrite <- app_assoc in E.
  - now apply lookup_below_none.
Qed.

Lemma follow_found (root : FS.t) (cs cur : list string) (x : FS.node) :
  Forall valid cs -> FS.lookup root (cur ++ cs) = Some x ->
  FS.follow root cur cs = inr (cur ++ cs)%list.
Proof.
  revert cur. induction cs as [|c cs IH]; intros cur H L.
  - simpl. now rewrite app_nil_r.
  - inversion H as [|? ? Hc Hcs]; subst. rewrite follow_step by exact Hc.
    destruct (FS.lookup root cur) as [[d|es]|] eqn:Lc.
    + rewrite (lookup_below_file _ _ _ _ Lc) in L; discriminate.
    + replace (cur ++ c :: cs)%list with ((cur ++ [c]) ++ cs)%list in *
        by now rewrite <- app_assoc.
      now apply IH.
    + rewrite (lookup_below_none _ _ _ Lc) in L. discriminate.
Qed.

Lemma follow_into (root : FS.t) (cs cur : list string) (n : string)
    (es : list (string * FS.node)) :
  Forall valid cs -> valid n -> FS.lookup root (cur ++ cs) = Some (FS.Dir es) ->
  FS.follow root cur (cs ++ [n]) = inr (cur ++ cs ++ [n])%list.
Proof.
  revert cur. induction cs as [|c cs IH]; intros cur H Hn L.
  - simpl app in *. rewrite app_nil_r in L. rewrite follow_step, L by exact Hn.
    reflexivity.
  - inversion H as [|? ? Hc Hcs]; subst.
    change ((c :: cs) ++ [n])%list with (c :: (cs ++ [n]))%list.
    rewrite follow_step by exact Hc.
    destruct (FS.lookup root cur) as [[d|es1]|] eqn:Lc.
    + rewrite (lookup_below_file _ _ _ _ Lc) in L; discriminate.
    + replace (cur ++ c :: cs)%list with ((cur ++ [c]) ++ cs)%list in L
        by now rewrite <- app_assoc.
      rewrite (IH _ Hcs Hn L). now rewrite <- app_assoc.
    + rewrite (lookup_below_none _ _ _ Lc) in L. discriminate.
Qed.

Lemma resolve_path_of (root : FS.t) (cs : list string) :
  cs <> [] -> Forall valid cs ->
  FS.resolve root (FS.path_of cs) = FS.follow root [] cs.
Proof.
  intros H1 H2. unfold FS.resolve.
  rewrite path_of_nonul by exact H2.
  change (FS.path_of cs =? "") with false. cbv iota.
  now rewrite split_path_of.
Qed.

Lemma stat_found (root : FS.t) (cs : list string) (x : FS.node) :
  cs <> [] -> Forall valid cs -> FS.lookup root cs = Some x ->
  FS.stat root (FS.path_of cs) = inr x.
Proof.
  intros H1 H2 L. unfold FS.stat.
  rewrite resolve_path_of, (follow_found _ _ _ x) by assumption. simpl.
  now rewrite L.
Qed.

Lemma stat_missing (root : FS.t) (cs : list string) :
  cs <> [] -> Forall valid cs -> FS.lookup root cs = None ->
  exists e, FS.stat root (FS.path_of cs) = inl e.
Proof.
  intros H1 H2 L. unfold FS.stat. rewrite resolve_path_of by assumption.
  destruct (FS.follow root [] cs) as [e|p] eqn:E; [eauto|].
  apply follow_inr in E; [|exact H2]. simpl in E. subst p. rewrite L. eauto.
Qed.

(** After [rmtree], whether it succeeds or raises, no directory is left at
    the place and nothing is left below it. *)
Lemma rmtree_gone (root : FS.t) (p : list string) :
  p <> [] -> Forall valid p ->
  let root' := match FS.rmtree root (FS.path_of p) with
               | inr r => r
               | inl _ => root
               end in
  (forall es, FS.lookup root' p <> Some (FS.Dir es)) /\
  (forall q, q <> [] -> FS.lookup root' (p ++ q) = None).
Proof.
  intros H1 H2. unfold FS.rmtree. rewrite resolve_path_of by assumption.
  destruct (FS.follow root [] p) as [e|p'] eqn:E.
  - pose proof (follow_inl _ _ _ [] _ H2 E) as L0. simpl in L0.
    rewrite app_nil_r in L0. split.
    + intros es. simpl. rewrite L0. discriminate.
    + intros q _. simpl. now apply lookup_below_none.
  - apply follow_inr in E; [|exact H2]. simpl in E. subst p'.
    destruct (FS.lookup root p) as [[d|es]|] eqn:L.
    + split; [intros es; simpl; rewrite L; discriminate|].
      intros q Hq. simpl. now apply (lookup_below_file _ _ _ d).
    + destruct p as [|n p]; [congruence|]. split.
      * intros es'. unfold FS.lookup.
        rewrite <- (app_nil_r (n :: p)) at 2. rewrite get_remove; discriminate.
      * intros q _. unfold FS.lookup. apply get_remove. discriminate.
    + split; [intros es; simpl; rewrite L; discriminate|].
      intros q _. simpl. now apply lookup_below_none.
Qed.

(** ** The workspace *)

Lemma choice_char (i : nat) (c : ascii) :
  ~ In c Tempfile.characters -> Tempfile.choice i <> c.
Proof.
  intros H E. apply H. rewrite <- E. unfold Tempfile.choice.
  apply nth_In. apply Nat.mod_upper_bound. discriminate.
Qed.

Lemma name_without (c : ascii) (d : list nat) :
  ~ In c Tempfile.characters -> Str.mem c (Tempfile.name d) = false.
Proof.
  intros H. unfold Tempfile.name. induction d as [|i d IH]; simpl; [reflexivity|].
  rewrite IH, orb_false_r. apply Ascii.eqb_neq. now apply choice_char.
Qed.

Lemma not_in_characters (c : ascii) :
  forallb (fun d => negb (Ascii.eqb d c)) Tempfile.characters = true ->
  ~ In c Tempfile.characters.
Proof.
  intros H Hin. rewrite forallb_forall in H. specialize (H c Hin).
  now rewrite Ascii.eqb_refl in H.
Qed.

Lemma tmp_name_valid (d : list nat) : valid ("tmp" ++ Tempfile.name d).
Proof.
  unfold valid, FS.valid_name.
  rewrite !mem_append, !name_without by (apply not_in_characters; reflexivity).
  reflexivity.
Qed.

Lemma place_valid (d : list nat) : Forall valid (Tempfile.place d).
Proof.
  unfold Tempfile.place.
  constructor; [reflexivity|]. constructor; [apply tmp_name_valid | constructor].
Qed.

Lemma python_valid : valid "python".
Proof. reflexivity. Qed.

Lemma package_valid (d : list nat) : Forall valid (Tempfile.place d ++ ["python"]).
Proof. apply Forall_app. split; [apply place_valid | repeat constructor]. Qed.

Lemma candidate_path (d : list nat) :
  PosixPath.join Tempfile.gettempdir ("tmp" ++ Tempfile.name d) =
  FS.path_of (Tempfile.place d).
Proof. reflexivity. Qed.

Lemma package_path (d : list nat) :
  PosixPath.join (FS.path_of (Tempfile.place d)) "python" =
  FS.path_of (Tempfile.place d ++ ["python"]).
Proof.
  apply path_join_name; [discriminate | apply place_valid | reflexivity].
Qed.

Lemma mkdtemp_cons (d : list nat) (draws : list (list nat)) (w : world) :
  Tempfile.mkdtemp (d :: draws) w =
  match FS.mkdir w.(fs) (FS.path_of (Tempfile.place d)) with
  | inr root =>
      (Ok (PosixPath.abspath "/" (FS.path_of (Tempfile.place d))),
       World root w.(events) w.(zf))
  | inl FS.EEXIST => Tempfile.mkdtemp draws w
  | inl e => (Raise (os_error e (FS.path_of (Tempfile.place d))), w)
  end.
Proof. reflexivity. Qed.

(** What a successful [mkdtemp] has done. *)
Lemma mkdtemp_ok (draws : list (list nat)) (w w1 : world) (t : string) :
  Tempfile.mkdtemp draws w = (Ok t, w1) ->
  exists d,
    In d draws /\ t = FS.path_of (Tempfile.place d) /\
    FS.lookup w.(fs) (Tempfile.place d) = None /\
    FS.put w.(fs) (Tempfile.place d) (FS.Dir []) = Some w1.(fs) /\
    w1.(events) = w.(events) /\ w1.(zf) = w.(zf).
Proof.
  induction draws as [|d draws IH]; [discriminate|]. rewrite mkdtemp_cons.
  unfold FS.mkdir.
  rewrite resolve_path_of by (discriminate || apply place_valid).
  destruct (FS.follow w.(fs) [] (Tempfile.place d)) as [e|p] eqn:E.
  - destruct e; try discriminate. intros H.
    destruct (IH H) as (d' & ? & ?). exists d'. split; [now right | assumption].
  - apply follow_inr in E; [|apply place_valid]. simpl in E. subst p.
    destruct (FS.lookup w.(fs) (Tempfile.place d)) eqn:L.
    + intros H. destruct (IH H) as (d' & ? & ?). exists d'.
      split; [now right | assumption].
    + destruct (FS.put w.(fs) (Tempfile.place d) (FS.Dir [])) as [r|] eqn:P;
        [|discriminate].
      intros H. injection H as <- <-. exists d. simpl.
      unfold PosixPath.abspath. change (PosixPath.isabs _) with true. cbv iota.
      rewrite normpath_path_of by (discriminate || apply place_valid).
      repeat split; try reflexivity; try assumption. now left.
Qed.

(** [os.path.split] of a name in a directory. *)
Lemma rpart_without (n : string) :
  Str.mem PosixPath.sep n = false -> PathSplit.rpart n = ("", n).
Proof.
  induction n as [|c n IH]; [reflexivity|]. simpl. intros H.
  apply orb_false_iff in H as [Hc Hn]. rewrite (IH Hn). simpl. now rewrite Hc.
Qed.

Lemma rpart_cons (c : ascii) (s : string) :
  PathSplit.rpart (String c s) =
  (let (h, t) := PathSplit.rpart s in
   if h =? "" then
     if Ascii.eqb c PosixPath.sep then (String c "", t) else ("", String c t)
   else (String c h, t)).
Proof. reflexivity. Qed.

Lemma rpart_append (a n : string) :
  Str.mem PosixPath.sep n = false ->
  PathSplit.rpart (a ++ "/" ++ n) = (a ++ "/", n).
Proof.
  intros Hn. induction a as [|c a IH].
  - change ("" ++ "/" ++ n) with (String PosixPath.sep n).
    rewrite rpart_cons, (rpart_without n Hn). reflexivity.
  - change (String c a ++ "/" ++ n) with (String c (a ++ "/" ++ n)).
    rewrite rpart_cons, IH.
    assert (E : (a ++ "/" =? "") = false) by (apply String.eqb_neq; now destruct a).
    now rewrite E.
Qed.

Lemma rstrip_slash (a : string) : PathSplit.rstrip (a ++ "/") = PathSplit.rstrip a.
Proof. induction a as [|c a IH]; [reflexivity|]. simpl. now rewrite IH. Qed.

Lemma rstrip_cons (c : ascii) (s : string) :
  PathSplit.rstrip (String c s) =
  (if (PathSplit.rstrip s =? "") && Ascii.eqb c PosixPath.sep then ""
   else String c (PathSplit.rstrip s)).
Proof. reflexivity. Qed.

Lemma rstrip_keeps (a : string) :
  Str.ends PosixPath.sep a = false -> PathSplit.rstrip a = a.
Proof.
  induction a as [|c a IH]; [reflexivity|]. intros H.
  destruct a as [|c' a].
  - simpl in *. now rewrite H.
  - rewrite ends_cons in H by discriminate.
    rewrite rstrip_cons, (IH H). reflexivity.
Qed.

Lemma all_sep_ends (a : string) :
  a <> "" -> PathSplit.all_sep a = true -> Str.ends PosixPath.sep a = true.
Proof.
  induction a as [|c a IH]; [congruence|]. intros _ H. simpl in H.
  apply andb_true_iff in H as [Hc Ha]. destruct a; [exact Hc|].
  rewrite ends_cons by discriminate. apply IH; [discriminate | exact Ha].
Qed.

Lemma all_sep_append (a b : string) :
  PathSplit.all_sep (a ++ b) = PathSplit.all_sep a && PathSplit.all_sep b.
Proof. induction a; simpl; [reflexivity|]. now rewrite IHa, andb_assoc. Qed.

Lemma path_split_name (a n : string) :
  a <> "" -> Str.ends PosixPath.sep a = false -> Str.mem PosixPath.sep n = false ->
  PathSplit.split (a ++ "/" ++ n) = (a, n).
Proof.
  intros Ha He Hn. unfold PathSplit.split. rewrite rpart_append by exact Hn.
  assert (H1 : (a ++ "/" =? "") = false) by (apply String.eqb_neq; now destruct a).
  assert (H2 : PathSplit.all_sep (a ++ "/") = false).
  { rewrite all_sep_append. destruct (PathSplit.all_sep a) eqn:E; [|reflexivity].
    apply all_sep_ends in E; congruence. }
  rewrite H1, H2. simpl. now rewrite rstrip_slash, rstrip_keeps.
Qed.

Lemma makedirs_fuel_S (fuel : nat) (name : string) (w : world) :
  Os.makedirs_fuel (S fuel) name w =
  (let (head, tail) := PathSplit.split name in
   let (head, tail) := if tail =? "" then PathSplit.split head else (head, tail) in
   if negb (head =? "") && negb (tail =? "") && negb (FS.exists_ w.(fs) head) then
     match Os.makedirs_fuel fuel head w with
     | (Raise (OSError FS.EEXIST _), w') | (Ok _, w') =>
         if tail =? "." then (Ok tt, w')
         else fs_write (fun root => FS.mkdir root name) name w'
     | (Raise e, w') => (Raise e, w')
     end
   else fs_write (fun root => FS.mkdir root name) name w).
Proof.
  simpl. destruct (PathSplit.split name) as [h t].
  destruct (if t =? "" then PathSplit.split h else (h, t)). reflexivity.
Qed.

(** [makedirs] of a new name in a directory that exists is [mkdir]. *)
Lemma makedirs_leaf (p : list string) (n : string) (w : world) :
  p <> [] -> Forall valid p -> valid n ->
  (exists es, FS.lookup w.(fs) p = Some (FS.Dir es)) ->
  Os.makedirs (FS.path_of (p ++ [n])) w =
  fs_write (fun root => FS.mkdir root (FS.path_of (p ++ [n]))) (FS.path_of (p ++ [n])) w.
Proof.
  intros Hp Vp Vn [es L]. unfold Os.makedirs.
  assert (Hlen : exists k, String.length (FS.path_of (p ++ [n])) = S k)
    by (unfold FS.path_of; simpl; eauto).
  destruct Hlen as [k ->]. rewrite makedirs_fuel_S.
  rewrite path_of_snoc by exact Hp.
  pose proof Vn as Vn'. apply valid_inv in Vn' as (Hn & _ & _ & Hs & _).
  rewrite path_split_name;
    [| discriminate | now apply path_of_ends | exact Hs].
  apply String.eqb_neq in Hn. rewrite Hn.
  unfold FS.exists_. rewrite (stat_found _ _ _ Hp Vp L).
  now rewrite andb_false_r.
Qed.

Lemma mkdir_leaf (root : FS.t) (p : list string) (n : string) :
  Forall valid p -> valid n -> FS.lookup root p = Some (FS.Dir []) ->
  exists root', FS.put root (p ++ [n]) (FS.Dir []) = Some root' /\
                FS.mkdir root (FS.path_of (p ++ [n])) = inr root'.
Proof.
  intros Vp Vn L.
  destruct (put_parent root p n (FS.Dir []) [] L) as [root' P].
  exists root'. split; [exact P|]. unfold FS.mkdir.
  rewrite resolve_path_of;
    [| now destruct p | apply Forall_app; split; [exact Vp | now constructor]].
  rewrite (follow_into _ _ [] _ _ Vp Vn L). simpl app.
  unfold FS.lookup in *. rewrite get_app, L. simpl. now rewrite P.
Qed.

Section Correctness.

Variable Response : Type.
Variable str : Response -> string.
Variable sh : string -> FS.t -> Z * FS.t.
Variable publish_layer_version :
  string -> string -> string -> FS.fdata -> list string -> string + Response.
Variable draws : list (list nat).

Local Notation "'run_script'" :=
  (create_lambda_layer Response str sh publish_layer_version draws).
Local Notation "'try_body'" := (attempt Response str sh publish_layer_version).

(** The workspace is made whenever [mkdtemp] finds a name: a fresh
    directory that holds the empty directory [python]. *)
Lemma workspace_ok (w w1 : world) (t : string) :
  Tempfile.mkdtemp draws w = (Ok t, w1) ->
  exists d root2,
    In d draws /\ t = FS.path_of (Tempfile.place d) /\
    FS.lookup w.(fs) (Tempfile.place d) = None /\
    FS.put w.(fs) (Tempfile.place d) (FS.Dir []) = Some w1.(fs) /\
    FS.put w1.(fs) (Tempfile.place d ++ ["python"]) (FS.Dir []) = Some root2 /\
    workspace draws w =
      (Ok (t, FS.path_of (Tempfile.place d ++ ["python"])),
       World root2 w.(events) w.(zf)).
Proof.
  intros H. destruct (mkdtemp_ok _ _ _ _ H) as (d & Hd & -> & L & P & Hev & Hzf).
  pose proof (get_put_same _ _ _ _ P) as L1.
  destruct (mkdir_leaf w1.(fs) (Tempfile.place d) "python"
              (place_valid d) python_valid L1) as (root2 & P2 & M2).
  exists d, root2. repeat split; try assumption.
  unfold workspace, bind. rewrite H, package_path.
  rewrite makedirs_leaf; [| discriminate | apply place_valid | reflexivity | eauto].
  unfold fs_write. rewrite M2, Hev, Hzf. reflexivity.
Qed.

Lemma workspace_inv (w w2 : world) (t pkg : string) :
  workspace draws w = (Ok (t, pkg), w2) ->
  exists w1, Tempfile.mkdtemp draws w = (Ok t, w1).
Proof.
  unfold workspace, bind.
  destruct (Tempfile.mkdtemp draws w) as [[t'|e] w1]; [|discriminate].
  destruct (Os.makedirs _ w1) as [[u|e] w']; [|discriminate].
  intros H. injection H as <- _ _. eauto.
Qed.

(** The function, step by step. *)
Lemma run_unfold libs name rt region up req (w : world) :
  run_script libs name rt region up req w =
  match workspace draws w with
  | (Raise e, w1) => (Raise e, w1)
  | (Ok (t, pkg), w2) =>
      let (r, w3) := try_body libs name rt region up req t pkg w2 in
      let w4 := World (match FS.rmtree w3.(fs) t with inr root => root | inl _ => w3.(fs) end)
                      (w3.(events) ++ [EvRmtree t]) w3.(zf) in
      match FS.rmtree w3.(fs) t, r with
      | inl e, _ => (Raise (os_error e t), w4)
      | inr _, Ok _ => (Ok (PyNone Response), w4)
      | inr _, Raise e => (Raise e, w4)
      end
  end.
Proof.
  unfold create_lambda_layer, bind.
  destruct (workspace draws w) as [[[t pkg]|e] w2]; [|reflexivity].
  unfold try_finally, rmtree, bind, emit, fs_write. simpl.
  destruct (attempt _ _ _ _ _ _ _ _ _ _ _ _ w2) as [r w3]. simpl.
  destruct (FS.rmtree (fs w3) t); destruct r; reflexivity.
Qed.

Lemma isdir_path_of (root : FS.t) (cs : list string) :
  cs <> [] -> Forall valid cs ->
  FS.isdir root (FS.path_of cs) =
  match FS.lookup root cs with
  | Some (FS.Dir _) => true
  | _ => false
  end.
Proof.
  intros H1 H2. unfold FS.isdir. destruct (FS.lookup root cs) as [x|] eqn:L.
  - now rewrite (stat_found _ _ _ H1 H2 L).
  - destruct (stat_missing _ _ H1 H2 L) as [e ->]. reflexivity.
Qed.

Lemma exists_path_of (root : FS.t) (cs : list string) :
  cs <> [] -> Forall valid cs ->
  FS.exists_ root (FS.path_of cs) =
  match FS.lookup root cs with
  | Some _ => true
  | None => false
  end.
Proof.
  intros H1 H2. unfold FS.exists_. destruct (FS.lookup root cs) as [x|] eqn:L.
  - now rewrite (stat_found _ _ _ H1 H2 L).
  - destruct (stat_missing _ _ H1 H2 L) as [e ->]. reflexivity.
Qed.

Lemma plain_inv (n : string) :
  plain_name n = true ->
  Str.mem PosixPath.sep n = false /\ Str.mem PosixPath.nul n = false.
Proof.
  unfold plain_name. intros H. apply andb_true_iff in H as [H1 H2].
  now apply negb_true_iff in H1, H2.
Qed.

Lemma zip_name_valid (n : string) : plain_name n = true -> valid (n ++ ".zip").
Proof.
  intros H. apply plain_inv in H as [H1 H2]. unfold valid, FS.valid_name.
  rewrite !mem_append, H1, H2. simpl.
  assert (L : forall s, String.length s < 4 -> (n ++ ".zip" =? s) = false).
  { intros s Hs. apply String.eqb_neq. intros E.
    apply (f_equal String.length) in E. rewrite length_append in E.
    simpl in E. lia. }
  rewrite !L by (simpl; lia). reflexivity.
Qed.

Lemma zip_name_not_python (n : string) : n ++ ".zip" <> "python".
Proof.
  intros E. apply (f_equal (Str.ends "p"%char)) in E.
  rewrite ends_append in E by discriminate. discriminate.
Qed.

Lemma zip_path (cs : list string) (n : string) :
  cs <> [] -> Forall valid cs -> plain_name n = true ->
  PosixPath.join (FS.path_of cs) (n ++ ".zip") = FS.path_of (cs ++ [n ++ ".zip"]).
Proof.
  intros H1 H2 Hn. apply path_join_name; try assumption.
  now apply valid_not_abs, zip_name_valid.
Qed.

(** After the call no directory is at the workspace path and nothing is
    below it. *)
Lemma teardown_leaves_nothing libs name rt region up req (w w1 w' : world)
    (t : string) (r : result (pyval Response)) :
  Tempfile.mkdtemp draws w = (Ok t, w1) ->
  run_script libs name rt region up req w = (r, w') ->
  FS.isdir w'.(fs) t = false /\
  (exists d, t = FS.path_of (Tempfile.place d) /\
             forall q, q <> [] -> FS.lookup w'.(fs) (Tempfile.place d ++ q) = None) /\
  (plain_name name = true ->
   FS.exists_ w'.(fs) (PosixPath.join t (name ++ ".zip")) = false).
Proof.
  intros Hm Hr. rewrite run_unfold in Hr.
  destruct (workspace_ok _ _ _ Hm) as (d & root2 & _ & -> & _ & _ & _ & Hw).
  rewrite Hw in Hr.
  destruct (attempt _ _ _ _ _ _ _ _ _ _ _ _ _) as [r3 w3].
  pose proof (rmtree_gone w3.(fs) (Tempfile.place d) ltac:(discriminate)
                (place_valid d)) as [Hdir Hbelow].
  assert (Hfs : w'.(fs) = match FS.rmtree w3.(fs) (FS.path_of (Tempfile.place d)) with
                         | inr root => root
                         | inl _ => w3.(fs)
                         end).
  { cbv zeta in Hr.
    destruct (FS.rmtree _ _); destruct r3; injection Hr as _ <-; reflexivity. }
  rewrite Hfs. split; [|split].
  - rewrite isdir_path_of by (discriminate || apply place_valid).
    destruct (FS.lookup _ _) as [[?|es]|]; try reflexivity.
    now destruct (Hdir es).
  - exists d. split; [reflexivity | exact Hbelow].
  - intros Hn. rewrite zip_path by (discriminate || apply place_valid || exact Hn).
    rewrite exists_path_of.
    + now rewrite Hbelow by discriminate.
    + now destruct (Tempfile.place d).
    + apply Forall_app. split; [apply place_valid|].
      constructor; [now apply zip_name_valid | constructor].
Qed.

(** ** The claims *)


(** *** The installs *)

Lemma shell_only_ret : shell_only (ret tt).
Proof.
  intros w w' r H. injection H as <- <-. split; [reflexivity|]. split; [|now left].
  exists []. simpl. now rewrite app_nil_r.
Qed.

Lemma shell_only_check_call (cmd : string) : shell_only (check_call sh cmd).
Proof.
  intros w w' r. unfold check_call. destruct (Str.mem PosixPath.nul cmd).
  - intros H. injection H as <- <-. split; [reflexivity|]. split.
    + exists []. simpl. now rewrite app_nil_r.
    + right. eexists. split; [reflexivity | now left].
  - destruct (sh cmd (fs w)) as [code root]. destruct (code =? 0)%Z eqn:E;
      intros H; injection H as <- <-; (split; [reflexivity|]);
      (split; [now exists [cmd]|]); [now left | right].
    eexists. split; [reflexivity|]. right. exists code, cmd.
    split; [now apply Z.eqb_neq | reflexivity].
Qed.

Lemma shell_only_bind (m k : M unit) :
  shell_only m -> shell_only k -> shell_only (m ;; k).
Proof.
  intros Hm Hk w w' r. unfold bind.
  destruct (m w) as [[[]|e] w1] eqn:E; apply Hm in E as (Hz & [c1 Hc] & Hr).
  - intros H. apply Hk in H as (Hz' & [c2 Hc'] & Hr').
    split; [congruence|]. split; [|exact Hr'].
    exists (c1 ++ c2)%list. now rewrite Hc', Hc, map_app, app_assoc.
  - intros H. injection H as <- <-. split; [exact Hz|]. split; [eauto | exact Hr].
Qed.

Lemma shell_only_for_each {A} (l : list A) (f : A -> M unit) :
  (forall x, shell_only (f x)) -> shell_only (for_each l f).
Proof.
  intros Hf. induction l as [|x l IH]; simpl.
  - apply shell_only_ret.
  - now apply shell_only_bind.
Qed.

Lemma install_events libs req (pkg : string) : shell_only (install sh libs req pkg).
Proof.
  unfold install. apply shell_only_bind.
  - destruct (truthy libs); [|apply shell_only_ret].
    apply shell_only_for_each. intros x. apply shell_only_check_call.
  - destruct (truthy_str req); [apply shell_only_check_call | apply shell_only_ret].
Qed.

(** A library whose install always fails makes the loop raise. *)
Lemma install_loop_fails (pkg lib : string) (l : list string) (w w' : world)
    (r : result unit) :
  In lib l ->
  (forall root, fst (sh (pip_install lib pkg) root) <> 0%Z) ->
  for_each l (fun library => check_call sh (pip_install library pkg)) w = (r, w') ->
  exists e, r = Raise e.
Proof.
  intros Hin Hfail. revert w. induction l as [|x l IH]; intros w H; [contradiction|].
  simpl in H. unfold bind in H.
  destruct (check_call sh (pip_install x pkg) w) as [[[]|e] w1] eqn:E.
  - destruct Hin as [->|Hin]; [|now apply (IH Hin w1)].
    unfold check_call in E. destruct (Str.mem _ _); [discriminate|].
    specialize (Hfail (fs w)). destruct (sh _ _) as [code root]. simpl in Hfail.
    apply Z.eqb_neq in Hfail. rewrite Hfail in E. discriminate.
  - injection H as <- _. eauto.
Qed.

Lemma install_fails (pkg lib : string) (l : list string) req (w w' : world)
    (r : result unit) :
  In lib l ->
  (forall root, fst (sh (pip_install lib pkg) root) <> 0%Z) ->
  install sh (Some l) req pkg w = (r, w') ->
  exists e, r = Raise e /\ install_error e.
Proof.
  intros Hin Hfail H.
  destruct (install_events _ _ _ _ _ _ H) as (_ & _ & [->|Hr]); [|exact Hr].
  exfalso. unfold install, bind in H.
  destruct l as [|x l]; [contradiction|].
  change (truthy (Some (x :: l))) with true in H.
  change (items (Some (x :: l))) with (x :: l) in H. cbv iota in H.
  destruct (for_each (x :: l) (fun library => check_call sh (pip_install library pkg)) w)
    as [rl wl] eqn:El.
  apply (install_loop_fails _ _ _ _ _ _ Hin Hfail) in El as [e ->]. discriminate.
Qed.

Lemma attempt_install_raise libs name rt region up req (t pkg : string)
    (w wi : world) (e : exn) :
  install sh libs req pkg w = (Raise e, wi) ->
  try_body libs name rt region up req t pkg w = (Raise e, wi).
Proof. intros H. unfold attempt, bind. now rewrite H. Qed.

(** *** Steps that leave no event *)

Lemma silent_ret {A} (a : A) : harmless (ret a).
Proof. intros w w' r H. now injection H as <- <-. Qed.

Lemma silent_raise {A} (e : exn) : harmless (@raise A e).
Proof. intros w w' r H. now injection H as <- <-. Qed.

Lemma harmless_bind {A B} (m : M A) (k : A -> M B) :
  harmless m -> (forall a, harmless (k a)) -> harmless (x <- m ;; k x).
Proof.
  intros Hm Hk w w' r. unfold bind. destruct (m w) as [[a|e] w1] eqn:E.
  - intros H. apply Hk in H as [H1 H2]. apply Hm in E as [E1 E2].
    split; congruence.
  - intros H. injection H as <- <-. now apply Hm in E.
Qed.

Lemma harmless_for_each {A} (l : list A) (f : A -> M unit) :
  (forall x, harmless (f x)) -> harmless (for_each l f).
Proof.
  intros Hf. induction l as [|x l IH]; simpl; [apply silent_ret|].
  apply harmless_bind; [apply Hf | intros _; exact IH].
Qed.

Lemma harmless_fs_read {A} (op : FS.t -> FS.errno + A) (path : string) :
  harmless (fs_read op path).
Proof.
  intros w w' r. unfold fs_read. destruct (op (fs w)); intros H;
    now injection H as <- <-.
Qed.

Lemma harmless_member_name (a : string) (b : bool) : harmless (Zipfile.member_name a b).
Proof.
  unfold Zipfile.member_name. destruct (_ =? ""); [apply silent_raise | apply silent_ret].
Qed.

Lemma harmless_add_member (a : string) (d : FS.fdata) : harmless (Zipfile.add_member a d).
Proof.
  intros w w' r. unfold Zipfile.add_member. destruct (zf w); intros H;
    now injection H as <- <-.
Qed.

Lemma harmless_write (filename arcname : string) :
  harmless (Zipfile.write filename arcname).
Proof.
  unfold Zipfile.write. apply harmless_bind; [apply harmless_fs_read|].
  intros [d|es]; (apply harmless_bind; [apply harmless_member_name|]); intros a.
  - apply harmless_bind; [apply harmless_fs_read|]. intros. apply harmless_add_member.
  - apply harmless_add_member.
Qed.

Lemma silent_fs_write (op : FS.t -> FS.errno + FS.t) (path : string) :
  silent (fs_write op path).
Proof.
  intros w w' r. unfold fs_write. destruct (op (fs w)); intros H;
    now injection H as <- <-.
Qed.

Lemma silent_mkdtemp (ds : list (list nat)) : silent (Tempfile.mkdtemp ds).
Proof.
  induction ds as [|d ds IH]; intros w w' r; simpl.
  - intros H. now injection H as <- <-.
  - destruct (FS.mkdir _ _) as [[]|root]; try (intros H; now injection H as <- <-).
    apply IH.
Qed.

Lemma silent_makedirs (fuel : nat) (name : string) : silent (Os.makedirs_fuel fuel name).
Proof.
  revert name. induction fuel as [|fuel IH]; intros name w w' r.
  - apply silent_fs_write.
  - rewrite makedirs_fuel_S.
    destruct (PathSplit.split name) as [h t].
    destruct (if t =? "" then PathSplit.split h else (h, t)) as [h' t'].
    destruct (_ && _); [|apply silent_fs_write].
    destruct (Os.makedirs_fuel fuel h' w) as [[u|e] w1] eqn:E; apply IH in E.
    + destruct (t' =? ".").
      * intros H. injection H as <- <-. exact E.
      * intros H. apply silent_fs_write in H. congruence.
    + destruct e as [[] ?| | | | | |];
        try (intros H; injection H as <- <-; exact E).
      destruct (t' =? ".").
      * intros H. injection H as <- <-. exact E.
      * intros H. apply silent_fs_write in H. congruence.
Qed.

Lemma silent_workspace : silent (workspace draws).
Proof.
  intros w w' r. unfold workspace, bind.
  destruct (Tempfile.mkdtemp draws w) as [[t|e] w1] eqn:E1; apply silent_mkdtemp in E1.
  - destruct (Os.makedirs _ w1) as [[u|e] w2] eqn:E2; apply silent_makedirs in E2;
      intros H; injection H as <- <-; congruence.
  - intros H. injection H as <- <-. exact E1.
Qed.

(** *** The events of a call *)

Lemma harmless_write_tree (t pkg : string) : harmless (write_tree t pkg).
Proof.
  unfold write_tree.
  apply harmless_bind; [intros ? ? ? H; now injection H as <- <-|].
  intros tree. apply harmless_for_each. intros [[root' ds] files].
  apply harmless_for_each. intros file. apply harmless_write.
Qed.

(** The archive step: create the file, walk, close. *)
Lemma archive_unfold (t pkg zip : string) (w : world) :
  archive t pkg zip w =
  match FS.create w.(fs) zip with
  | inl e => (Raise (os_error e zip), w)
  | inr (p, root) =>
      let (rb, w2) :=
        write_tree t pkg (World root (w.(events) ++ [EvZipOpen zip]) (Some (Zip p []))) in
      match w2.(zf) with
      | Some z => (rb, World (FS.store w2.(fs) z.(zplace) (FS.ZipData z.(zmembers)))
                             w2.(events) None)
      | None => (rb, w2)
      end
  end.
Proof.
  unfold archive, Zipfile.with_ZipFile, bind, Zipfile.ZipFile.
  destruct (FS.create (fs w) zip) as [e|[p root]]; [reflexivity|].
  unfold try_finally. destruct (write_tree _ _ _) as [rb w2].
  unfold Zipfile.close. destruct (zf w2); reflexivity.
Qed.

Lemma archive_trace (t pkg zip : string) (w w' : world) (r : result unit) :
  archive t pkg zip w = (r, w') ->
  (w'.(events) = w.(events) /\ exists e, r = Raise e) \/
  w'.(events) = (w.(events) ++ [EvZipOpen zip])%list.
Proof.
  rewrite archive_unfold.
  destruct (FS.create (fs w) zip) as [e|[p root]].
  - intros H. injection H as <- <-. left. eauto.
  - destruct (write_tree _ _ _) as [rb w2] eqn:E.
    apply harmless_write_tree in E as [E _]. simpl in E.
    destruct (zf w2); intros H; injection H as <- <-; right; exact E.
Qed.

Lemma deliver_trace libs name rt region up (zip : string) (w w' : world)
    (r : result unit) :
  deliver Response str publish_layer_version libs name rt region up zip w = (r, w') ->
  w'.(fs) = w.(fs) /\
  exists dl, w'.(events) = (w.(events) ++ dl)%list /\
             delivery Response str publish_layer_version libs name rt region zip up r dl.
Proof.
  unfold deliver. destruct up.
  - unfold bind, fs_read, emit, print, emit.
    destruct (FS.read (fs w) zip) as [e|content].
    + intros H. injection H as <- <-. split; [reflexivity|]. exists [].
      rewrite app_nil_r. split; [reflexivity | constructor].
    + simpl. destruct (publish_layer_version _ _ _ _ _) as [msg|resp] eqn:P;
        intros H; injection H as <- <-; (split; [reflexivity|]); simpl.
      * eexists. split; [reflexivity|]. now constructor.
      * eexists. split; [now rewrite <- app_assoc|]. now constructor.
  - intros H. injection H as <- <-. split; [reflexivity|].
    eexists. split; [reflexivity | constructor].
Qed.

Lemma attempt_trace libs name rt region up req (t pkg : string) (w w' : world)
    (r : result unit) :
  try_body libs name rt region up req t pkg w = (r, w') ->
  exists cmds za dl,
    w'.(events) = (w.(events) ++ map EvShell cmds ++ za ++ dl)%list /\
    (za = [] \/ za = [EvZipOpen (PosixPath.join t (name ++ ".zip"))]) /\
    delivery Response str publish_layer_version libs name rt region
      (PosixPath.join t (name ++ ".zip")) up r dl.
Proof.
  unfold attempt, bind.
  destruct (install sh libs req pkg w) as [[[]|e] wi] eqn:Ei;
    apply install_events in Ei as (_ & [cmds Hc] & _).
  - destruct (archive _ _ _ wi) as [[[]|e] wa] eqn:Ea; apply archive_trace in Ea.
    + intros H. apply deliver_trace in H as (_ & dl & Hd & Hdl).
      destruct Ea as [[Ha [e He]]|Ha]; [discriminate|].
      exists cmds, [EvZipOpen (PosixPath.join t (name ++ ".zip"))], dl.
      split; [|split; [now right | exact Hdl]].
      rewrite Hd, Ha, Hc. now rewrite <- !app_assoc.
    + intros H. injection H as <- <-.
      destruct Ea as [[Ha _]|Ha].
      * exists cmds, [], []. split; [|split; [now left | constructor]].
        rewrite Ha, Hc. simpl. now rewrite app_nil_r.
      * exists cmds, [EvZipOpen (PosixPath.join t (name ++ ".zip"))], [].
        split; [|split; [now right | constructor]].
        rewrite Ha, Hc. now rewrite <- !app_assoc.
  - intros H. injection H as <- <-. exists cmds, [], [].
    split; [|split; [now left | constructor]].
    rewrite Hc. simpl. now rewrite app_nil_r.
Qed.

(** The events of a call that got its workspace: shell commands, the
    opening of the archive, the delivery, the teardown. *)
Lemma run_trace libs name rt region up req (w w' : world)
    (r : result (pyval Response)) :
  run_script libs name rt region up req w = (r, w') ->
  (w'.(events) = w.(events) /\ exists e, r = Raise e) \/
  exists t cmds za dl rb,
    w'.(events) = (w.(events) ++ map EvShell cmds ++ za ++ dl ++ [EvRmtree t])%list /\
    (za = [] \/ za = [EvZipOpen (PosixPath.join t (name ++ ".zip"))]) /\
    delivery Response str publish_layer_version libs name rt region
      (PosixPath.join t (name ++ ".zip")) up rb dl /\
    ((exists en, r = Raise (os_error en t)) \/
     r = match rb with Ok _ => Ok (PyNone Response) | Raise e => Raise e end).
Proof.
  rewrite run_unfold.
  destruct (workspace draws w) as [[[t pkg]|e] w2] eqn:Ew; apply silent_workspace in Ew.
  - destruct (attempt _ _ _ _ _ _ _ _ _ _ _ _ w2) as [rb w3] eqn:Eb.
    apply attempt_trace in Eb as (cmds & za & dl & Hev & Hza & Hdl).
    intros H. right. exists t, cmds, za, dl, rb.
    split; [|split; [exact Hza | split; [exact Hdl|]]].
    + cbv zeta in H.
      destruct (FS.rmtree _ _); destruct rb; injection H as _ <-; simpl;
        rewrite Hev, Ew; now rewrite <- !app_assoc.
    + cbv zeta in H.
      destruct (FS.rmtree _ _) as [en|root]; destruct rb; injection H as <- _; eauto.
  - intros H. injection H as <- <-. left. eauto.
Qed.

(** C2.  When some requested library's install always exits non-zero,
    [create_lambda_layer] raises; the only things done are package-manager
    invocations followed by the teardown, so no archive is created and
    nothing is published; and the workspace is gone. *)
Theorem failed_install_aborts (l : list string) (lib : string) name rt region up req
    (w w1 w' : world) (t : string) (r : result (pyval Response)) :
  In lib l ->
  (forall dir root, fst (sh (pip_install lib dir) root) <> 0%Z) ->
  Tempfile.mkdtemp draws w = (Ok t, w1) ->
  run_script (Some l) name rt region up req w = (r, w') ->
  (exists e, r = Raise e /\ (install_error e \/ exists en, e = os_error en t)) /\
  (exists cmds, w'.(events) = (w.(events) ++ map EvShell cmds ++ [EvRmtree t])%list) /\
  FS.isdir w'.(fs) t = false.
Proof.
  intros Hin Hfail Hm Hr.
  assert (Hgone : FS.isdir w'.(fs) t = false)
    by (eapply teardown_leaves_nothing; eassumption).
  rewrite run_unfold in Hr.
  destruct (workspace_ok _ _ _ Hm) as (d & root2 & _ & -> & _ & _ & _ & Hw).
  rewrite Hw in Hr.
  destruct (install sh (Some l) req (FS.path_of (Tempfile.place d ++ ["python"]))
              (World root2 (events w) (zf w))) as [ri wi] eqn:Ei.
  destruct (install_fails _ _ _ _ _ _ _ Hin (Hfail _) Ei) as (e & -> & He).
  destruct (install_events _ _ _ _ _ _ Ei) as (_ & [cmds Hc] & _). simpl in Hc.
  rewrite (attempt_install_raise _ _ _ _ _ _ _ _ _ _ _ Ei) in Hr. cbv zeta in Hr.
  split; [|split; [|exact Hgone]].
  - destruct (FS.rmtree _ _) as [en|root]; injection Hr as <- _; eauto.
  - exists cmds. destruct (FS.rmtree _ _) as [en|root]; injection Hr as _ <-; simpl;
      now rewrite Hc, <- app_assoc.
Qed.

(** *** The publish call *)

Lemma join_in (sep x : string) (l : list string) :
  In x l -> exists a b, Str.join sep l = a ++ x ++ b.
Proof.
  induction l as [|y l IH]; [contradiction|]. intros [->|Hin].
  - destruct l as [|z l].
    + exists "", "". simpl. now rewrite append_nil_r.
    + exists "", (sep ++ Str.join sep (z :: l)). now rewrite join_cons by discriminate.
  - destruct (IH Hin) as (a & b & E). exists (y ++ sep ++ a), b.
    rewrite join_cons by (intros ->; contradiction).
    now rewrite E, !append_assoc.
Qed.

Lemma description_named (l : list string) :
  l <> [] ->
  description (Some l) = "Lambda layer for " ++ Str.join ", " l /\
  forall lib, In lib l -> Str.contains lib (description (Some l)) = true.
Proof.
  intros Hl. assert (E : description (Some l) = "Lambda layer for " ++ Str.join ", " l)
    by (destruct l; [congruence | reflexivity]).
  split; [exact E|]. intros lib Hin. rewrite E.
  destruct (join_in ", " lib l Hin) as (a & b & ->).
  rewrite <- append_assoc. apply contains_append.
Qed.

Lemma shell_not_publish (cmds : list string) rg n desc c rts :
  ~ In (EvPublish rg n desc c rts) (map EvShell cmds).
Proof. intros H. apply in_map_iff in H as (x & Hx & _). discriminate. Qed.

(** The publish events of a call all carry [description libs]. *)
Lemma publish_in_trace libs name rt region up (zip t : string)
    (cmds : list string) (za dl : list event) (rb : result unit) rg n desc c rts :
  (za = [] \/ za = [EvZipOpen zip]) ->
  delivery Response str publish_layer_version libs name rt region zip up rb dl ->
  In (EvPublish rg n desc c rts) (map EvShell cmds ++ za ++ dl ++ [EvRmtree t]) ->
  EvPublish rg n desc c rts = EvPublish region name (description libs) c [rt] /\
  In (EvPublish rg n desc c rts) dl.
Proof.
  intros Hza Hdl Hin. apply in_app_or in Hin as [Hin|Hin];
    [now apply shell_not_publish in Hin|].
  apply in_app_or in Hin as [Hin|Hin];
    [destruct Hza as [->| ->]; [contradiction | now destruct Hin]|].
  apply in_app_or in Hin as [Hin|Hin]; [|now destruct Hin].
  split; [|exact Hin].
  inversion Hdl; subst; simpl in Hin; try contradiction;
    repeat (destruct Hin as [Hin|Hin]; try discriminate; try contradiction);
    now injection Hin as <- <- <- <- <-.
Qed.

(** C6.  With upload enabled every publish call of the run receives the
    description built from the library list: for a non-empty list it is
    the names joined with a comma and a space after a fixed prefix, so
    that it contains each name; with no library it is the fixed generic
    text.  A run that returns has made the call. *)
Theorem publish_description libs name rt region req (w w' : world)
    (r : result (pyval Response)) :
  run_script libs name rt region true req w = (r, w') ->
  (exists new,
     w'.(events) = (w.(events) ++ new)%list /\
     (forall rg n desc c rts,
        In (EvPublish rg n desc c rts) new -> desc = description libs) /\
     (forall v, r = Ok v ->
        exists c, In (EvPublish region name (description libs) c [rt]) new)) /\
  (forall l, libs = Some l -> l <> [] ->
     description libs = "Lambda layer for " ++ Str.join ", " l /\
     forall lib, In lib l -> Str.contains lib (description libs) = true) /\
  (truthy libs = false -> description libs = "Lambda layer for multiple libraries").
Proof.
  intros H. split; [|split].
  - apply run_trace in H as [[Hev [e ->]]|(t & cmds & za & dl & rb & Hev & Hza & Hdl & Hr)].
    + exists []. rewrite app_nil_r. split; [exact Hev|]. split; [contradiction|].
      discriminate.
    + eexists. split; [exact Hev|]. split.
      * intros rg n desc c rts Hin.
        destruct (publish_in_trace _ _ _ _ _ _ _ _ _ _ _ _ _ _ _ _ Hza Hdl Hin) as [E _].
        now injection E.
      * intros v Hv. subst r. destruct Hr as [[en Hr]|Hr];
          [destruct en; discriminate|].
        inversion Hdl; subst; try discriminate.
        eexists. apply in_or_app. right. apply in_or_app. right.
        apply in_or_app. left. now left.
  - intros l -> Hl. now apply description_named.
  - intros Ht. unfold description. now rewrite Ht.
Qed.

(** C4 as amended.  With upload enabled, the response of a publish call
    that succeeds is printed as it is right after the call; what
    [create_lambda_layer] returns is [None], and a run that returns has
    printed the response of its call. *)
Theorem response_printed libs name rt region req (w w' : world)
    (r : result (pyval Response)) :
  run_script libs name rt region true req w = (r, w') ->
  exists new,
    w'.(events) = (w.(events) ++ new)%list /\
    (forall rg n desc c rts resp,
       In (EvPublish rg n desc c rts) new ->
       publish_layer_version rg n desc c rts = inr resp ->
       exists pre post,
         new = (pre ++ [EvPublish rg n desc c rts; EvPrint (str resp)] ++ post)%list) /\
    (forall v, r = Ok v ->
       v = PyNone Response /\
       exists c resp,
         publish_layer_version region name (description libs) c [rt] = inr resp /\
         In (EvPrint (str resp)) new).
Proof.
  intros H.
  apply run_trace in H as [[Hev [e ->]]|(t & cmds & za & dl & rb & Hev & Hza & Hdl & Hr)].
  - exists []. rewrite app_nil_r. split; [exact Hev|]. split; [contradiction|].
    discriminate.
  - eexists. split; [exact Hev|]. split.
    + intros rg n desc c rts resp Hin Hp.
      destruct (publish_in_trace _ _ _ _ _ _ _ _ _ _ _ _ _ _ _ _ Hza Hdl Hin) as [E Hd].
      injection E as -> -> -> ->.
      inversion Hdl as [up e| |c' resp' Hp'|c' msg Hp']; subst; simpl in Hd.
      * contradiction.
      * destruct Hd as [Hd|[Hd|[]]]; [|discriminate]. injection Hd as <-.
        assert (resp' = resp) by congruence. subst resp'.
        exists (map EvShell cmds ++ za)%list, [EvRmtree t].
        now rewrite <- !app_assoc.
      * destruct Hd as [Hd|[]]. injection Hd as <-. congruence.
    + intros v Hv. subst r. destruct Hr as [[en Hr]|Hr]; [destruct en; discriminate|].
      inversion Hdl as [up e| |c' resp' Hp'|c' msg Hp']; subst; try discriminate.
      injection Hr as <-. split; [reflexivity|].
      exists c', resp'. split; [exact Hp'|].
      apply in_or_app. right. apply in_or_app. right.
      apply in_or_app. left. right. now left.
Qed.

End Correctness.

(** ** The walk and the archive *)

Lemma node_induction (P : FS.node -> Prop) :
  (forall d, P (FS.File d)) ->
  (forall es, Forall (fun e => P (snd e)) es -> P (FS.Dir es)) ->
  forall x, P x.
Proof.
  intros HF HD. fix IH 1. intros [d|es]; [apply HF|]. apply HD.
  induction es as [|[n c] es IHes]; constructor; [apply IH | exact IHes].
Qed.

Lemma nodupb_NoDup (l : list string) : FS.nodupb l = true -> NoDup l.
Proof.
  induction l as [|a l IH]; simpl; intros H; constructor.
  - apply andb_true_iff in H as [H _]. apply negb_true_iff in H. intros Hin.
    assert (E : existsb (String.eqb a) l = true)
      by (apply existsb_exists; exists a; split; [exact Hin | apply String.eqb_refl]).
    congruence.
  - apply IH. now apply andb_true_iff in H.
Qed.

Lemma wf_dir (es : list (string * FS.node)) :
  FS.wf (FS.Dir es) = true ->
  Forall valid (map fst es) /\ NoDup (map fst es) /\
  Forall (fun e => FS.wf (snd e) = true) es.
Proof.
  simpl. intros H. apply andb_true_iff in H as [H H3].
  apply andb_true_iff in H as [H1 H2]. split; [|split].
  - apply Forall_forall. rewrite forallb_forall in H1. exact H1.
  - now apply nodupb_NoDup.
  - apply Forall_forall. intros [n c] Hin. rewrite forallb_forall in H3.
    apply (H3 _ Hin).
Qed.

Lemma find_in (es : list (string * FS.node)) (n : string) (c : FS.node) :
  NoDup (map fst es) -> In (n, c) es -> FS.find n es = Some c.
Proof.
  induction es as [|[m c'] es IH]; [contradiction|]. simpl.
  intros H Hin. apply NoDup_cons_iff in H as [Hm H]. destruct Hin as [E|Hin].
  - injection E as -> ->. now rewrite String.eqb_refl.
  - destruct (m =? n) eqn:E; [|now apply IH].
    apply String.eqb_eq in E. subst m. exfalso. apply Hm.
    apply in_map_iff. now exists (n, c).
Qed.

Lemma find_some_in (es : list (string * FS.node)) (n : string) (c : FS.node) :
  FS.find n es = Some c -> In (n, c) es.
Proof.
  induction es as [|[m c'] es IH]; [discriminate|]. simpl.
  destruct (m =? n) eqn:E.
  - apply String.eqb_eq in E. intros H. injection H as ->. left. congruence.
  - intros H. right. now apply IH.
Qed.

Lemma for_each_app {A} (l1 l2 : list A) (f : A -> M unit) (w : world) :
  for_each (l1 ++ l2) f w = (for_each l1 f ;; for_each l2 f)%py w.
Proof.
  revert w. induction l1 as [|x l1 IH]; intros w; [reflexivity|].
  simpl. unfold bind. destruct (f x w) as [[u|e] w1]; [|reflexivity]. apply IH.
Qed.

Section Walk.

(** The workspace and a place [base ++ rel] below it. *)
Variable base : list string.
Hypothesis base_not_root : base <> [].
Hypothesis base_valid : Forall valid base.

Lemma wrote_nil (w : world) (z : zipfile) : w.(zf) = Some z -> wrote w z [] = w.
Proof.
  unfold wrote. destruct w as [f e o], z as [p m]. simpl. intros ->.
  now rewrite app_nil_r.
Qed.

Lemma wrote_wrote (w : world) (z : zipfile) (m1 m2 : list (string * FS.fdata)) :
  wrote (wrote w z m1) (Zip z.(zplace) (z.(zmembers) ++ m1)) m2 = wrote w z (m1 ++ m2).
Proof. unfold wrote. simpl. now rewrite <- app_assoc. Qed.

(** Writing one regular file of the tree. *)
Lemma write_one (rel : list string) (d : FS.fdata) (w : world) (z : zipfile) :
  rel <> [] -> Forall valid rel ->
  FS.lookup w.(fs) (base ++ rel) = Some (FS.File d) -> w.(zf) = Some z ->
  Zipfile.write (FS.path_of (base ++ rel))
    (PosixPath.relpath "/" (FS.path_of (base ++ rel)) (FS.path_of base)) w =
  (Ok tt, wrote w z [(Str.join "/" rel, d)]).
Proof.
  intros Hr Vr L Hz.
  assert (Vall : Forall valid (base ++ rel)) by (apply Forall_app; now split).
  assert (Hall : (base ++ rel)%list <> []) by (destruct base; [congruence | discriminate]).
  unfold Zipfile.write, bind, fs_read.
  rewrite (stat_found _ _ _ Hall Vall L).
  rewrite relpath_below by assumption.
  unfold Zipfile.member_name.
  rewrite normpath_relative, lstrip_keeps by (assumption || now apply join_not_abs).
  pose proof (join_not_empty rel Hr Vr) as Hne. apply String.eqb_neq in Hne.
  rewrite Hne. unfold ret, FS.read. rewrite (stat_found _ _ _ Hall Vall L).
  unfold Zipfile.add_member. now rewrite Hz.
Qed.

(** The inner loop over the regular files of a directory. *)
Lemma write_files (rel : list string) (es l : list (string * FS.node)) :
  Forall valid rel ->
  (forall n c, In (n, c) l -> FS.find n es = Some c) ->
  Forall valid (map fst l) ->
  forall (w : world) (z : zipfile),
    FS.lookup w.(fs) (base ++ rel) = Some (FS.Dir es) -> w.(zf) = Some z ->
    for_each (FS.filenames l)
      (fun file =>
         Zipfile.write (PosixPath.join (FS.path_of (base ++ rel)) file)
           (PosixPath.relpath "/" (PosixPath.join (FS.path_of (base ++ rel)) file)
              (FS.path_of base))) w =
    (Ok tt, wrote w z (map (fun f => (Str.join "/" (rel ++ [fst f]), snd f))
                         (FS.files_of l))).
Proof.
  intros Vr. induction l as [|[n c] l IH]; intros Hfind Vl w z L Hz.
  - simpl. now rewrite wrote_nil.
  - inversion Vl as [|? ? Vn Vl']; subst.
    assert (Hfind' : forall n' c', In (n', c') l -> FS.find n' es = Some c')
      by (intros; apply Hfind; now right).
    destruct c as [d|es'].
    + change (FS.filenames ((n, FS.File d) :: l)) with (n :: FS.filenames l).
      change (FS.files_of ((n, FS.File d) :: l)) with ((n, d) :: FS.files_of l).
      cbn [for_each]. unfold bind at 1.
      assert (Vcs : Forall valid (base ++ rel)) by (apply Forall_app; now split).
      rewrite path_join_name;
        [| destruct base; [congruence | discriminate] | exact Vcs
         | now apply valid_not_abs].
      rewrite <- app_assoc.
      rewrite (write_one (rel ++ [n]) d w z);
        [| now destruct rel
         | apply Forall_app; split; [exact Vr | now constructor]
         | | exact Hz].
      * rewrite (IH Hfind' Vl' _ (Zip z.(zplace) (z.(zmembers) ++ [(Str.join "/" (rel ++ [n]), d)])));
          [| exact L | reflexivity].
        now rewrite wrote_wrote.
      * rewrite app_assoc. unfold FS.lookup in *. rewrite get_app, L. simpl.
        now rewrite (Hfind n (FS.File d)) by now left.
    + change (FS.filenames ((n, FS.Dir es') :: l)) with (FS.filenames l).
      change (FS.files_of ((n, FS.Dir es') :: l)) with (FS.files_of l).
      now apply IH.
Qed.

Lemma walk_node_dir (top : string) (es : list (string * FS.node)) :
  FS.walk_node top (FS.Dir es) =
  (top, FS.dirnames es, FS.filenames es) ::
  flat_map (fun e : string * FS.node =>
              let (n, c) := e in FS.walk_node (PosixPath.join top n) c) es.
Proof. reflexivity. Qed.

Lemma listing_dir (es : list (string * FS.node)) :
  FS.listing (FS.Dir es) =
  (map (fun f => ([fst f], snd f)) (FS.files_of es) ++
   flat_map (fun e : string * FS.node =>
               let (n, c) := e in
               map (fun f => (n :: fst f, snd f)) (FS.listing c)) es)%list.
Proof. reflexivity. Qed.

(** The subdirectories of a directory, one after the other. *)
Lemma write_subdirs (rel : list string) (es l : list (string * FS.node)) :
  Forall valid rel ->
  Forall (fun e => walked base (snd e)) l ->
  (forall n c, In (n, c) l -> FS.find n es = Some c) ->
  Forall valid (map fst l) ->
  Forall (fun e => FS.wf (snd e) = true) l ->
  forall (w : world) (z : zipfile),
    FS.lookup w.(fs) (base ++ rel) = Some (FS.Dir es) -> w.(zf) = Some z ->
    for_each
      (flat_map (fun e : string * FS.node =>
                   let (n, c) := e in
                   FS.walk_node (PosixPath.join (FS.path_of (base ++ rel)) n) c) l)
      (fun '(root, _, files) =>
         for_each files
           (fun file =>
              Zipfile.write (PosixPath.join root file)
                (PosixPath.relpath "/" (PosixPath.join root file) (FS.path_of base)))) w =
    (Ok tt, wrote w z
              (map (fun f => (Str.join "/" (rel ++ fst f), snd f))
                 (flat_map (fun e : string * FS.node =>
                              let (n, c) := e in
                              map (fun f => (n :: fst f, snd f)) (FS.listing c)) l))).
Proof.
  intros Vr. induction l as [|[n c] l IH]; intros HP Hfind Vl Hwf w z L Hz.
  - simpl. now rewrite wrote_nil.
  - inversion HP as [|? ? Hc HP']; subst. inversion Vl as [|? ? Vn Vl']; subst.
    inversion Hwf as [|? ? Hwc Hwf']; subst. simpl in Hc, Hwc, Vn.
    assert (Hfind' : forall n' c', In (n', c') l -> FS.find n' es = Some c')
      by (intros; apply Hfind; now right).
    assert (Vcs : Forall valid (base ++ rel)) by (apply Forall_app; now split).
    cbn [flat_map]. rewrite for_each_app. unfold bind.
    rewrite path_join_name;
      [| destruct base; [congruence | discriminate] | exact Vcs
       | now apply valid_not_abs].
    rewrite <- app_assoc.
    rewrite (Hc (rel ++ [n])%list w z);
      [| now destruct rel
       | apply Forall_app; split; [exact Vr | now constructor]
       | exact Hwc
       |
       | exact Hz].
    + rewrite (IH HP' Hfind' Vl' Hwf' _
                 (Zip z.(zplace)
                    (z.(zmembers) ++
                     map (fun f => (Str.join "/" ((rel ++ [n]) ++ fst f), snd f))
                       (FS.listing c)))); [| exact L | reflexivity].
      rewrite wrote_wrote, map_app, map_map. do 3 f_equal.
      apply map_ext. intros [q dq]. simpl. now rewrite <- app_assoc.
    + rewrite app_assoc. unfold FS.lookup in *. rewrite get_app, L. simpl.
      now rewrite (Hfind n c) by now left.
Qed.

(** The two loops over the walk of a well-formed tree write its regular
    files, in walk order, under their paths from the workspace. *)
Lemma write_walk (x : FS.node) : walked base x.
Proof.
  induction x as [d|es IH] using node_induction; intros rel w z Hr Vr Hwf L Hz.
  - simpl. now rewrite wrote_nil.
  - apply wf_dir in Hwf as (Vn & Hnd & Hwfs).
    rewrite walk_node_dir, listing_dir, map_app, map_map. cbn [for_each].
    unfold bind at 1.
    rewrite (write_files rel es es Vr (fun n c => find_in es n c Hnd) Vn w z L Hz).
    rewrite <- wrote_wrote.
    apply (write_subdirs rel es es Vr IH (fun n c => find_in es n c Hnd) Vn Hwfs);
      [exact L | reflexivity].
Qed.

End Walk.

(** *** What the listing of a tree holds *)

Lemma files_of_in (es : list (string * FS.node)) (n : string) (d : FS.fdata) :
  In (n, d) (FS.files_of es) <-> In (n, FS.File d) es.
Proof.
  unfold FS.files_of. rewrite in_flat_map. split.
  - intros ([m [d'|es']] & Hin & H); simpl in H; [|contradiction].
    destruct H as [H|[]]. now injection H as <- <-.
  - intros H. exists (n, FS.File d). split; [exact H | now left].
Qed.

Lemma files_of_names (es : list (string * FS.node)) (n : string) :
  In n (map fst (FS.files_of es)) -> In n (map fst es).
Proof.
  intros H. apply in_map_iff in H as ([m d] & <- & H).
  apply files_of_in in H. apply in_map_iff. now exists (m, FS.File d).
Qed.

Lemma files_of_nodup (es : list (string * FS.node)) :
  NoDup (map fst es) -> NoDup (map fst (FS.files_of es)).
Proof.
  induction es as [|[n c] es IH]; [constructor|]. simpl.
  intros H. apply NoDup_cons_iff in H as [Hn H].
  change (FS.files_of ((n, c) :: es))
    with ((match c with FS.File d => [(n, d)] | FS.Dir _ => [] end) ++ FS.files_of es)%list.
  destruct c as [d|es']; simpl; [|now apply IH].
  constructor; [|now apply IH]. intros Hin. now apply Hn, files_of_names.
Qed.

Lemma listing_get (x : FS.node) :
  FS.wf x = true ->
  forall p d, In (p, d) (FS.listing x) <-> p <> [] /\ FS.get x p = Some (FS.File d).
Proof.
  induction x as [d0|es IH] using node_induction; intros Hwf p d.
  - simpl. split; [contradiction|]. intros [Hp H]. destruct p; [congruence | discriminate].
  - apply wf_dir in Hwf as (Vn & Hnd & Hwfs). rewrite listing_dir, in_app_iff.
    rewrite Forall_forall in IH, Hwfs. split.
    + intros [H|H].
      * apply in_map_iff in H as ([n d'] & E & H). simpl in E. injection E as <- <-.
        apply files_of_in in H. split; [discriminate|].
        simpl. now rewrite (find_in es n _ Hnd H).
      * apply in_flat_map in H as ([n c] & Hin & H).
        apply in_map_iff in H as ([q d'] & E & H). simpl in E. injection E as <- <-.
        apply (IH _ Hin (Hwfs _ Hin)) in H as [Hq H]. split; [discriminate|].
        rewrite get_cons. now rewrite (find_in es n _ Hnd Hin).
    + intros [Hp H]. destruct p as [|n q]; [congruence|]. rewrite get_cons in H.
      destruct (FS.find n es) as [c|] eqn:E; [|discriminate].
      apply find_some_in in E. destruct q as [|m q].
      * simpl in H. injection H as ->. left. apply in_map_iff.
        exists (n, d). split; [reflexivity | now apply files_of_in].
      * right. apply in_flat_map. exists (n, c). split; [exact E|].
        apply in_map_iff. exists (m :: q, d). split; [reflexivity|].
        apply (IH _ E (Hwfs _ E)). split; [discriminate | exact H].
Qed.

Lemma listing_valid (x : FS.node) :
  FS.wf x = true -> forall p d, In (p, d) (FS.listing x) -> Forall valid p.
Proof.
  induction x as [d0|es IH] using node_induction; intros Hwf p d; [contradiction|].
  apply wf_dir in Hwf as (Vn & Hnd & Hwfs). rewrite listing_dir, in_app_iff.
  rewrite Forall_forall in IH, Hwfs, Vn. intros [H|H].
  - apply in_map_iff in H as ([n d'] & E & H). simpl in E. injection E as <- <-.
    constructor; [|constructor]. apply Vn, files_of_names, in_map_iff.
    eexists. split; [|exact H]. reflexivity.
  - apply in_flat_map in H as ([n c] & Hin & H).
    apply in_map_iff in H as ([q d'] & E & H). simpl in E. injection E as <- <-.
    constructor; [|now apply (IH _ Hin (Hwfs _ Hin) q d')].
    apply Vn, in_map_iff. now exists (n, c).
Qed.

Lemma subdirs_nodup (l : list (string * FS.node)) :
  NoDup (map fst l) ->
  Forall (fun e => NoDup (map fst (FS.listing (snd e)))) l ->
  NoDup (map fst (flat_map (fun e : string * FS.node =>
                              let (n, c) := e in
                              map (fun f => (n :: fst f, snd f)) (FS.listing c)) l)).
Proof.
  induction l as [|[n c] l IH]; [constructor|]. simpl.
  intros H HP. apply NoDup_cons_iff in H as [Hn H].
  inversion HP as [|? ? Hc HP']; subst. simpl in Hc.
  rewrite map_app, map_map. simpl. apply NoDup_app.
  - rewrite <- (map_map fst (cons n)).
    apply NoDup_map_NoDup_ForallPairs; [|exact Hc]. intros a b _ _ E. congruence.
  - now apply IH.
  - intros p Hp Hq. apply in_map_iff in Hp as (f & <- & _).
    apply in_map_iff in Hq as ([q d] & E & Hq). simpl in E. subst q.
    apply in_flat_map in Hq as ([m c'] & Hin & Hq).
    apply in_map_iff in Hq as (g & E & _). injection E as Em _ _. subst m.
    apply Hn, in_map_iff. now exists (n, c').
Qed.

Lemma listing_nodup (x : FS.node) :
  FS.wf x = true -> NoDup (map fst (FS.listing x)).
Proof.
  induction x as [d0|es IH] using node_induction; intros Hwf; [constructor|].
  pose proof (listing_get _ Hwf) as Hget.
  apply wf_dir in Hwf as (Vn & Hnd & Hwfs).
  rewrite listing_dir, map_app, map_map. simpl. apply NoDup_app.
  - rewrite <- (map_map fst (fun n => [n])).
    apply NoDup_map_NoDup_ForallPairs; [|now apply files_of_nodup].
    intros a b _ _ E. congruence.
  - apply subdirs_nodup; [exact Hnd|]. rewrite Forall_forall in *.
    intros e Hin. apply (IH _ Hin), (Hwfs _ Hin).
  - intros p Hp Hq. apply in_map_iff in Hp as (f & <- & _).
    apply in_map_iff in Hq as ([q d] & E & Hq). simpl in E. subst q.
    apply in_flat_map in Hq as ([m c'] & Hin & Hq).
    apply in_map_iff in Hq as ([q d'] & E & Hq). simpl in E. injection E as _ E _.
    rewrite Forall_forall in Hwfs.
    apply (listing_get _ (Hwfs _ Hin)) in Hq as [Hq _]. congruence.
Qed.

(** Member names tell the files apart. *)
Lemma member_names_nodup (rel : list string) (x : FS.node) :
  rel <> [] -> Forall valid rel -> FS.wf x = true ->
  NoDup (map fst (map (fun f => (Str.join "/" (rel ++ fst f), snd f)) (FS.listing x))).
Proof.
  intros Hr Vr Hwf. rewrite map_map. simpl.
  rewrite <- (map_map fst (fun p => Str.join "/" (rel ++ p))).
  apply NoDup_map_NoDup_ForallPairs; [|now apply listing_nodup].
  intros p q Hp Hq E.
  apply in_map_iff in Hp as ([p' dp] & <- & Hp).
  apply in_map_iff in Hq as ([q' dq] & <- & Hq). simpl in *.
  apply (listing_valid _ Hwf) in Hp, Hq.
  apply (f_equal (Str.split PosixPath.sep)) in E.
  rewrite !split_join in E;
    try (apply valid_nosep, Forall_app; now split);
    try (destruct rel; [congruence | discriminate]).
  now apply app_inv_head in E.
Qed.

(** The walk of lines 30-34 over a well-formed [python] directory. *)
Lemma write_tree_spec (base : list string) (w : world) (z : zipfile) :
  base <> [] -> Forall valid base -> w.(zf) = Some z ->
  (forall x, FS.lookup w.(fs) (base ++ ["python"]) = Some x -> FS.wf x = true) ->
  exists members,
    write_tree (FS.path_of base) (FS.path_of (base ++ ["python"])) w =
      (Ok tt, wrote w z members) /\
    NoDup (map fst members) /\
    forall a dt,
      In (a, dt) members <->
      exists q, q <> [] /\ a = Str.join "/" ("python" :: q) /\
                FS.lookup w.(fs) (base ++ "python" :: q) = Some (FS.File dt).
Proof.
  intros Hb Vb Hz Hwf.
  assert (Vp : Forall valid (base ++ ["python"]))
    by (apply Forall_app; split; [exact Vb | now constructor]).
  assert (Hp : (base ++ ["python"])%list <> []) by now destruct base.
  unfold write_tree, bind, os_walk, FS.walk.
  destruct (FS.lookup w.(fs) (base ++ ["python"])) as [x|] eqn:L.
  - specialize (Hwf x eq_refl).
    rewrite (stat_found _ _ _ Hp Vp L).
    exists (map (fun f => (Str.join "/" (["python"] ++ fst f), snd f)) (FS.listing x)).
    split; [|split].
    + apply (write_walk base Hb Vb x ["python"] w z); try assumption;
        [discriminate | now constructor].
    + apply member_names_nodup; [discriminate | now constructor | exact Hwf].
    + intros a dt. rewrite in_map_iff. split.
      * intros ([q dq] & E & Hin). simpl in E. injection E as <- <-.
        apply (listing_get _ Hwf) in Hin as [Hq Hg]. exists q.
        split; [exact Hq|]. split; [reflexivity|].
        change (base ++ "python" :: q)%list with (base ++ ["python"] ++ q)%list.
        rewrite app_assoc. unfold FS.lookup in *. now rewrite get_app, L.
      * intros (q & Hq & -> & Hl). exists (q, dt). split; [reflexivity|].
        apply (listing_get _ Hwf). split; [exact Hq|].
        change (base ++ "python" :: q)%list with (base ++ ["python"] ++ q)%list in Hl.
        rewrite app_assoc in Hl. unfold FS.lookup in *. now rewrite get_app, L in Hl.
  - destruct (stat_missing _ _ Hp Vp L) as [e ->]. exists []. split; [|split].
    + simpl. now rewrite wrote_nil.
    + constructor.
    + intros a dt. split; [contradiction|]. intros (q & _ & _ & Hl).
      change (base ++ "python" :: q)%list with (base ++ ["python"] ++ q)%list in Hl.
      rewrite app_assoc, (lookup_below_none _ _ _ L) in Hl. discriminate.
Qed.


(** ** The archive of a layer name without slash *)

Lemma appending_same {A} (m : M A) :
  (forall w r w', m w = (r, w') -> w' = w) -> appending m.
Proof.
  intros H w w' z r Hz E. apply H in E. subst w'. exists []. now rewrite wrote_nil.
Qed.

Lemma appending_bind {A B} (m : M A) (k : A -> M B) :
  appending m -> (forall a, appending (k a)) -> appending (x <- m ;; k x).
Proof.
  intros Hm Hk w w' z r Hz. unfold bind. destruct (m w) as [[a|e] w1] eqn:E;
    destruct (Hm _ _ _ _ Hz E) as [m1 ->].
  - intros H. apply (Hk a _ _ (Zip z.(zplace) (z.(zmembers) ++ m1))) in H as [m2 ->];
      [|reflexivity].
    exists (m1 ++ m2)%list. apply wrote_wrote.
  - intros H. injection H as <- <-. eauto.
Qed.

Lemma appending_for_each {A} (l : list A) (f : A -> M unit) :
  (forall x, appending (f x)) -> appending (for_each l f).
Proof.
  intros Hf. induction l as [|x l IH]; simpl.
  - apply appending_same. intros w r w' H. now injection H.
  - apply appending_bind; [apply Hf | intros _; exact IH].
Qed.

Lemma appending_fs_read {A} (op : FS.t -> FS.errno + A) (path : string) :
  appending (fs_read op path).
Proof.
  apply appending_same. intros w r w'. unfold fs_read.
  destruct (op (fs w)); intros H; now injection H.
Qed.

Lemma appending_write (filename arcname : string) :
  appending (Zipfile.write filename arcname).
Proof.
  assert (Hn : forall a b, appending (Zipfile.member_name a b)).
  { intros a b. apply appending_same. intros w r w'.
    unfold Zipfile.member_name, raise, ret.
    destruct (_ =? ""); intros H; now injection H. }
  assert (Ha : forall a d, appending (Zipfile.add_member a d)).
  { intros a d w w' z r Hz. unfold Zipfile.add_member. rewrite Hz.
    intros H. injection H as <- <-. eexists. reflexivity. }
  unfold Zipfile.write. apply appending_bind; [apply appending_fs_read|].
  intros [d|es]; (apply appending_bind; [apply Hn|]); intros a.
  - apply appending_bind; [apply appending_fs_read|]. intros. apply Ha.
  - apply Ha.
Qed.

Lemma appending_write_tree (t pkg : string) : appending (write_tree t pkg).
Proof.
  unfold write_tree. apply appending_bind.
  - apply appending_same. intros w r w' H. now injection H.
  - intros tree. apply appending_for_each. intros [[root ds] files].
    apply appending_for_each. intros file. apply appending_write.
Qed.

(** Once the archive file is created, the archive step leaves a zip
    archive there, whatever the walk meets. *)
Lemma archive_created (t pkg zip : string) (w : world) (p : list string) (root : FS.t) :
  FS.create w.(fs) zip = inr (p, root) ->
  exists rb members,
    archive t pkg zip w =
    (rb, World (FS.store root p (FS.ZipData members))
               (w.(events) ++ [EvZipOpen zip]) None) /\
    write_tree t pkg (World root (w.(events) ++ [EvZipOpen zip]) (Some (Zip p []))) =
    (rb, wrote (World root (w.(events) ++ [EvZipOpen zip]) (Some (Zip p [])))
           (Zip p []) members).
Proof.
  intros Hc. rewrite archive_unfold, Hc.
  destruct (write_tree t pkg _) as [rb w2] eqn:E.
  destruct (appending_write_tree t pkg
              (World root (events w ++ [EvZipOpen zip]) (Some (Zip p [])))
              _ (Zip p []) _ eq_refl E) as [members ->].
  exists rb, members. split; reflexivity.
Qed.

Lemma get_put_parent (es es' : list (string * FS.node)) (c : list string) (n : string)
    (x : FS.node) (e0 : list (string * FS.node)) :
  FS.put es (c ++ [n]) x = Some es' -> FS.get (FS.Dir es) c = Some (FS.Dir e0) ->
  FS.get (FS.Dir es') c = Some (FS.Dir (FS.set n x e0)).
Proof.
  revert es es' e0. induction c as [|m c IH]; intros es es' e0 H L.
  - simpl in *. injection L as <-. now injection H as <-.
  - change ((m :: c) ++ [n])%list with (m :: (c ++ [n]))%list in H.
    rewrite put_cons in H by now destruct c.
    rewrite get_cons in L.
    destruct (FS.find m es) as [[d|e1]|] eqn:Em; try discriminate.
    destruct (FS.put e1 (c ++ [n]) x) as [e2|] eqn:E; [|discriminate].
    injection H as <-. rewrite get_cons, find_set_same. now apply (IH e1).
Qed.

Lemma lookup_store_same (root : FS.t) (p : list string) (d0 d : FS.fdata) :
  FS.lookup root p = Some (FS.File d0) ->
  FS.lookup (FS.store root p d) p = Some (FS.File d).
Proof.
  intros L. unfold FS.store. rewrite L.
  destruct p as [|n p] using rev_ind; [discriminate|].
  destruct (lookup_parent_dir _ _ _ _ L) as [es Lp].
  destruct (put_parent root p n (FS.File d) es Lp) as [root' P].
  rewrite P. now apply get_put_same in P.
Qed.

Lemma lookup_store_aside (root : FS.t) (c p q : list string) (a b : string)
    (d : FS.fdata) :
  a <> b ->
  FS.lookup (FS.store root (c ++ a :: p) d) (c ++ b :: q) = FS.lookup root (c ++ b :: q).
Proof.
  intros Hab. unfold FS.store.
  destruct (FS.lookup root (c ++ a :: p)) as [[d0|es]|]; try reflexivity.
  destruct (FS.put root (c ++ a :: p) (FS.File d)) as [root'|] eqn:P; [|reflexivity].
  now apply (get_put_aside _ _ _ _ q _ b) in P.
Qed.

(** Creating a file named [n] in the directory at [p]. *)
Lemma create_in_dir (root root' : FS.t) (p q : list string) (n : string) :
  p <> [] -> Forall valid p -> valid n ->
  FS.create root (FS.path_of (p ++ [n])) = inr (q, root') ->
  q = (p ++ [n])%list /\
  FS.put root (p ++ [n]) (FS.File (FS.Blob "")) = Some root' /\
  FS.lookup root' (p ++ [n]) = Some (FS.File (FS.Blob "")).
Proof.
  intros Hp Vp Vn. unfold FS.create.
  assert (Vall : Forall valid (p ++ [n]))
    by (apply Forall_app; split; [exact Vp | now constructor]).
  rewrite resolve_path_of by (assumption || now destruct p).
  destruct (FS.follow root [] (p ++ [n])) as [e|q'] eqn:E; [discriminate|].
  apply follow_inr in E; [|exact Vall]. simpl in E. subst q'.
  destruct (FS.lookup root (p ++ [n])) as [[d|es]|]; try discriminate;
    destruct (FS.put root (p ++ [n]) (FS.File (FS.Blob ""))) as [r|] eqn:P;
    try discriminate; intros H; injection H as <- <-;
    (split; [reflexivity|]); (split; [reflexivity|]);
    now apply get_put_same in P.
Qed.

Lemma create_new (root : FS.t) (p : list string) (n : string)
    (es : list (string * FS.node)) :
  p <> [] -> Forall valid p -> valid n ->
  FS.lookup root p = Some (FS.Dir es) ->
  (forall es', FS.find n es <> Some (FS.Dir es')) ->
  exists root', FS.create root (FS.path_of (p ++ [n])) = inr ((p ++ [n])%list, root').
Proof.
  intros Hp Vp Vn L Hn. unfold FS.create.
  assert (Vall : Forall valid (p ++ [n]))
    by (apply Forall_app; split; [exact Vp | now constructor]).
  rewrite resolve_path_of by (assumption || now destruct p).
  rewrite (follow_into _ _ [] _ _ Vp Vn L). simpl app.
  destruct (put_parent root p n (FS.File (FS.Blob "")) es L) as [root' P].
  assert (Hl : FS.lookup root (p ++ [n]) = FS.find n es).
  { unfold FS.lookup in *. rewrite get_app, L. simpl. now destruct (FS.find n es). }
  rewrite Hl, P. destruct (FS.find n es) as [[d|es']|] eqn:E; eauto.
  now destruct (Hn es').
Qed.

Lemma read_found (root : FS.t) (cs : list string) (d : FS.fdata) :
  cs <> [] -> Forall valid cs -> FS.lookup root cs = Some (FS.File d) ->
  FS.read root (FS.path_of cs) = inr d.
Proof. intros H1 H2 L. unfold FS.read. now rewrite (stat_found _ _ _ H1 H2 L). Qed.

(** The archive step for a layer name without slash, once the archive
    file is created: the file lies in the workspace and holds a zip
    archive when the step ends; the [python] directory is left as it is;
    and when that directory is well formed the step ends well, with
    exactly its regular files as members. *)
Lemma archive_plain (d : list nat) (name : string) (wi : world)
    (p : list string) (root : FS.t) :
  plain_name name = true ->
  FS.create wi.(fs) (FS.path_of (Tempfile.place d ++ [(name ++ ".zip")%string])) = inr (p, root) ->
  p = (Tempfile.place d ++ [(name ++ ".zip")%string])%list /\
  exists rb members,
    archive (FS.path_of (Tempfile.place d)) (FS.path_of (Tempfile.place d ++ ["python"]))
      (FS.path_of (Tempfile.place d ++ [(name ++ ".zip")%string])) wi =
    (rb, World (FS.store root p (FS.ZipData members))
               (wi.(events) ++ [EvZipOpen (FS.path_of (Tempfile.place d ++ [(name ++ ".zip")%string]))])
               None) /\
    FS.read (FS.store root p (FS.ZipData members))
      (FS.path_of (Tempfile.place d ++ [(name ++ ".zip")%string])) = inr (FS.ZipData members) /\
    (forall q, FS.lookup (FS.store root p (FS.ZipData members))
                 (Tempfile.place d ++ "python" :: q) =
               FS.lookup root (Tempfile.place d ++ "python" :: q)) /\
    ((forall x, FS.lookup root (Tempfile.place d ++ ["python"]) = Some x ->
                FS.wf x = true) ->
     rb = Ok tt /\
     forall a dt,
       In (a, dt) members <->
       exists q, q <> [] /\ a = Str.join "/" ("python" :: q) /\
                 FS.lookup root (Tempfile.place d ++ "python" :: q) = Some (FS.File dt)).
Proof.
  intros Hn Hc.
  pose proof (zip_name_valid _ Hn) as Vz.
  destruct (create_in_dir _ _ (Tempfile.place d) _ _ ltac:(discriminate)
              (place_valid d) Vz Hc) as (-> & _ & Lz).
  split; [reflexivity|].
  destruct (archive_created (FS.path_of (Tempfile.place d))
              (FS.path_of (Tempfile.place d ++ ["python"])) _ _ _ _ Hc)
    as (rb & members & Ha & Hw).
  exists rb, members. split; [exact Ha|]. split; [|split].
  - apply read_found.
    + now destruct (Tempfile.place d).
    + apply Forall_app. split; [apply place_valid | now constructor].
    + now apply (lookup_store_same _ _ (FS.Blob "")).
  - intros q. apply (lookup_store_aside _ _ [] q). apply zip_name_not_python.
  - intros Hwf.
    destruct (write_tree_spec (Tempfile.place d)
                (World root (events wi ++ [EvZipOpen (FS.path_of (Tempfile.place d ++ [(name ++ ".zip")%string]))])
                   (Some (Zip (Tempfile.place d ++ [(name ++ ".zip")%string]) [])))
                (Zip (Tempfile.place d ++ [(name ++ ".zip")%string]) [])
                ltac:(discriminate) (place_valid d) eq_refl Hwf)
      as (members' & Hw' & _ & Hmem).
    rewrite Hw in Hw'. injection Hw' as -> E. subst members'.
    split; [reflexivity | exact Hmem].
Qed.

(** *** The archive file, read back *)







Section Outcomes.

Variable Response : Type.
Variable str : Response -> string.
Variable sh : string -> FS.t -> Z * FS.t.
Variable publish_layer_version :
  string -> string -> string -> FS.fdata -> list string -> string + Response.
Variable draws : list (list nat).
Variable stdin : option string.

Local Notation "'run_script'" :=
  (create_lambda_layer Response str sh publish_layer_version draws).
Local Notation "'try_body'" := (attempt Response str sh publish_layer_version).

(** A body that ends well with upload disabled has installed, archived
    and reported. *)
Lemma attempt_report libs name rt region req (t pkg : string) (w wr : world) :
  try_body libs name rt region false req t pkg w = (Ok tt, wr) ->
  exists wi wa,
    install sh libs req pkg w = (Ok tt, wi) /\
    archive t pkg (PosixPath.join t (name ++ ".zip")) wi = (Ok tt, wa) /\
    wr = World wa.(fs)
           (wa.(events) ++
            [EvPrint ("Lambda layer package created at: " ++
                      PosixPath.join t (name ++ ".zip"))])
           wa.(zf).
Proof.
  unfold attempt, bind.
  destruct (install sh libs req pkg w) as [[[]|e] wi]; [|discriminate].
  destruct (archive t pkg (PosixPath.join t (name ++ ".zip")) wi) as [[[]|e] wa] eqn:Ea;
    [|discriminate].
  unfold deliver, print, emit. intros H. injection H as <-.
  exists wi, wa. split; [reflexivity|]. split; [exact Ea | reflexivity].
Qed.

(** A call that returns has made its workspace, run the body to its end
    and torn the workspace down. *)
Lemma run_returns libs name rt region up req (w w' : world) (v : pyval Response) :
  run_script libs name rt region up req w = (Ok v, w') ->
  exists d w2 wr,
    workspace draws w =
      (Ok (FS.path_of (Tempfile.place d), FS.path_of (Tempfile.place d ++ ["python"])), w2) /\
    w2.(events) = w.(events) /\
    try_body libs name rt region up req (FS.path_of (Tempfile.place d))
      (FS.path_of (Tempfile.place d ++ ["python"])) w2 = (Ok tt, wr) /\
    v = PyNone Response.
Proof.
  intros H. pose proof H as H0. rewrite run_unfold in H.
  destruct (workspace draws w) as [[[t pkg]|e] w2] eqn:Ew; [|discriminate].
  destruct (workspace_inv _ _ _ _ _ Ew) as [w1 Hm].
  destruct (workspace_ok _ _ _ _ Hm) as (d & root2 & _ & -> & _ & _ & _ & Hw).
  rewrite Ew in Hw. injection Hw as -> ->.
  destruct (attempt _ _ _ _ _ _ _ _ _ _ _ _ _) as [rb w3] eqn:Eb.
  cbv zeta in H.
  destruct (FS.rmtree _ _); destruct rb as [[]|e']; try discriminate.
  injection H as <- _. exists d. eexists. exists w3.
  split; [reflexivity|]. split; [reflexivity|]. split; [exact Eb | reflexivity].
Qed.

(** C5 as amended.  A run with upload disabled and a layer name without
    slash that returns has reported the path of an archive that exists
    at that moment; when the [python] directory is then well formed, the
    members of the archive are exactly its regular files, each under a
    name that begins with [python/]; and once the function has returned
    the reported path does not exist. *)
Theorem reported_archive libs name rt region req (w w' : world) (v : pyval Response) :
  plain_name name = true ->
  run_script libs name rt region false req w = (Ok v, w') ->
  exists d w2 wr members,
    workspace draws w =
      (Ok (FS.path_of (Tempfile.place d), FS.path_of (Tempfile.place d ++ ["python"])), w2) /\
    try_body libs name rt region false req (FS.path_of (Tempfile.place d))
      (FS.path_of (Tempfile.place d ++ ["python"])) w2 = (Ok tt, wr) /\
    (exists pre,
       wr.(events) =
       (pre ++ [EvPrint ("Lambda layer package created at: " ++
                         PosixPath.join (FS.path_of (Tempfile.place d)) (name ++ ".zip"))])%list) /\
    FS.read wr.(fs) (PosixPath.join (FS.path_of (Tempfile.place d)) (name ++ ".zip")) =
      inr (FS.ZipData members) /\
    ((forall x, FS.lookup wr.(fs) (Tempfile.place d ++ ["python"]) = Some x ->
                FS.wf x = true) ->
     (forall a dt,
        In (a, dt) members <->
        exists q, q <> [] /\ a = Str.join "/" ("python" :: q) /\
                  FS.lookup wr.(fs) (Tempfile.place d ++ "python" :: q) =
                  Some (FS.File dt)) /\
     (forall a dt, In (a, dt) members -> String.prefix "python/" a = true)) /\
    FS.exists_ w'.(fs) (PosixPath.join (FS.path_of (Tempfile.place d)) (name ++ ".zip")) =
      false.
Proof.
  intros Hn H.
  destruct (run_returns _ _ _ _ _ _ _ _ _ H) as (d & w2 & wr & Hw & _ & Hb & _).
  destruct (attempt_report _ _ _ _ _ _ _ _ _ Hb) as (wi & wa & _ & Ha & Hwr).
  exists d, w2, wr.
  rewrite zip_path in * by (discriminate || apply place_valid || exact Hn).
  destruct (FS.create wi.(fs) (FS.path_of (Tempfile.place d ++ [(name ++ ".zip")%string])))
    as [e|[p root]] eqn:Hc.
  { rewrite archive_unfold, Hc in Ha. discriminate. }
  destruct (archive_plain d name wi p root Hn Hc)
    as (-> & rb & members & Ha' & Hread & Hside & Hwf).
  rewrite Ha in Ha'. injection Ha' as <- ->. subst wr. cbn [fs events zf].
  exists members.
  split; [exact Hw|]. split; [exact Hb|].
  split; [eauto|]. split; [exact Hread|]. split.
  - intros Hx.
    assert (Hx' : forall x, FS.lookup root (Tempfile.place d ++ ["python"]) = Some x ->
                            FS.wf x = true)
      by (intros x Lx; apply Hx; now rewrite Hside).
    destruct (Hwf Hx') as [_ Hmem].
    split.
    + intros a dt. rewrite Hmem. split; intros (q & Hq & Ea & Hl); exists q;
        (split; [exact Hq|]); (split; [exact Ea|]);
        [now rewrite Hside | now rewrite Hside in Hl].
    + intros a dt Hin. apply Hmem in Hin as (q & Hq & -> & _).
      rewrite join_cons by exact Hq. apply (prefix_append "python/").
  - destruct (workspace_inv _ _ _ _ _ Hw) as [w1 Hm].
    destruct (teardown_leaves_nothing Response str sh publish_layer_version draws
                libs name rt region false req w w1 w' _ _ Hm H) as (_ & _ & Hz).
    rewrite <- (zip_path (Tempfile.place d) name)
      by (discriminate || apply place_valid || exact Hn).
    now apply Hz.
Qed.

(** *** A run without installs *)

Lemma install_nothing libs req (pkg : string) (w : world) :
  truthy libs = false -> truthy_str req = false ->
  install sh libs req pkg w = (Ok tt, w).
Proof. intros H1 H2. unfold install, bind. now rewrite H1, H2. Qed.

Lemma lookup_store_parent (root : FS.t) (c : list string) (n : string) (d : FS.fdata)
    (es : list (string * FS.node)) :
  FS.lookup root c = Some (FS.Dir es) ->
  exists es', FS.lookup (FS.store root (c ++ [n]) d) c = Some (FS.Dir es').
Proof.
  intros L. unfold FS.store.
  destruct (FS.lookup root (c ++ [n])) as [[d0|es0]|]; eauto.
  destruct (FS.put root (c ++ [n]) (FS.File d)) as [root'|] eqn:P; eauto.
  eexists. apply (get_put_parent _ _ _ _ _ _ P L).
Qed.

Lemma deliver_upload libs name rt region (zip : string) (w : world) (content : FS.fdata) :
  FS.read w.(fs) zip = inr content ->
  deliver Response str publish_layer_version libs name rt region true zip w =
  match publish_layer_version region name (description libs) content [rt] with
  | inr response =>
      (Ok tt, World w.(fs)
                (w.(events) ++
                 [EvPublish region name (description libs) content [rt];
                  EvPrint (str response)])
                w.(zf))
  | inl msg =>
      (Raise (ClientError msg),
       World w.(fs)
         (w.(events) ++ [EvPublish region name (description libs) content [rt]])
         w.(zf))
  end.
Proof.
  intros Hr. unfold deliver, bind, fs_read, print, emit. rewrite Hr. simpl.
  destruct (publish_layer_version _ _ _ _ _); simpl;
    first [reflexivity | now rewrite <- app_assoc].
Qed.

(** With no library and no manifest, a layer name without slash and a
    workspace: the body goes straight to the archive, which is created
    in the workspace and holds no member, and on to the delivery. *)
Lemma empty_run libs name rt region up req (w w1 : world) (t : string) :
  truthy libs = false -> truthy_str req = false -> plain_name name = true ->
  Tempfile.mkdtemp draws w = (Ok t, w1) ->
  exists d w2 fsA,
    t = FS.path_of (Tempfile.place d) /\
    workspace draws w = (Ok (t, FS.path_of (Tempfile.place d ++ ["python"])), w2) /\
    try_body libs name rt region up req t (FS.path_of (Tempfile.place d ++ ["python"])) w2 =
      deliver Response str publish_layer_version libs name rt region up
        (FS.path_of (Tempfile.place d ++ [(name ++ ".zip")%string]))
        (World fsA
           (w.(events) ++ [EvZipOpen (FS.path_of (Tempfile.place d ++ [(name ++ ".zip")%string]))])
           None) /\
    FS.read fsA (FS.path_of (Tempfile.place d ++ [(name ++ ".zip")%string])) =
      inr (FS.ZipData []) /\
    exists es, FS.lookup fsA (Tempfile.place d) = Some (FS.Dir es).
Proof.
  intros Hl Hq Hn Hm.
  destruct (workspace_ok _ _ _ _ Hm) as (d & root2 & _ & -> & _ & P1 & P2 & Hw).
  pose proof (get_put_same _ _ _ _ P1) as L1.
  pose proof (get_put_parent _ _ _ _ _ _ P2 L1) as L2. simpl FS.set in L2.
  pose proof (zip_name_valid _ Hn) as Vz.
  assert (Hfree : forall es', FS.find (name ++ ".zip") [("python", FS.Dir [])]
                               <> Some (FS.Dir es')).
  { intros es'. cbn [FS.find].
    destruct ("python" =? name ++ ".zip") eqn:E; [|discriminate].
    apply String.eqb_eq in E. symmetry in E. now apply zip_name_not_python in E. }
  destruct (create_new root2 (Tempfile.place d) (name ++ ".zip") _
              ltac:(discriminate) (place_valid d) Vz L2 Hfree) as [root3 Hc].
  destruct (create_in_dir _ _ (Tempfile.place d) _ _ ltac:(discriminate)
              (place_valid d) Vz Hc) as (_ & P3 & _).
  destruct (archive_plain d name (World root2 (events w) (zf w)) _ root3 Hn Hc)
    as (_ & rb & members & Ha & Hread & Hside & Hwf).
  assert (Lp : forall q, FS.lookup root3 (Tempfile.place d ++ "python" :: q)
                         = FS.get (FS.Dir []) q).
  { intros q. unfold FS.lookup.
    rewrite (get_put_aside _ _ (Tempfile.place d) [] q _ "python" _ P3)
      by apply zip_name_not_python.
    change (Tempfile.place d ++ "python" :: q)%list
      with (Tempfile.place d ++ ["python"] ++ q)%list.
    rewrite app_assoc, get_app. fold (FS.lookup root2 (Tempfile.place d ++ ["python"])).
    unfold FS.lookup. rewrite get_app.
    unfold FS.lookup in L2. now rewrite L2. }
  destruct Hwf as [-> Hmem].
  { intros x. rewrite (Lp []). intros E. now injection E as <-. }
  assert (members = []) as ->.
  { destruct members as [|[a dt] m]; [reflexivity|]. exfalso.
    destruct (proj1 (Hmem a dt) (or_introl eq_refl)) as (q & Hq' & _ & L).
    rewrite Lp in L. destruct q; [congruence | discriminate]. }
  exists d. eexists. eexists.
  split; [reflexivity|]. split; [exact Hw|]. split; [|split].
  - unfold attempt, bind. rewrite (install_nothing _ _ _ _ Hl Hq).
    rewrite zip_path by (discriminate || apply place_valid || exact Hn).
    now rewrite Ha.
  - exact Hread.
  - apply (lookup_store_parent _ _ _ _ (FS.set (name ++ ".zip") (FS.File (FS.Blob ""))
                                          [("python", FS.Dir [])])).
    apply (get_put_parent _ _ _ _ _ _ P3 L2).
Qed.

Lemma rmtree_dir (root : FS.t) (p : list string) (es : list (string * FS.node)) :
  p <> [] -> Forall valid p -> FS.lookup root p = Some (FS.Dir es) ->
  FS.rmtree root (FS.path_of p) = inr (FS.remove root p).
Proof.
  intros H1 H2 L. unfold FS.rmtree.
  rewrite resolve_path_of, (follow_found root p [] _ H2 L) by assumption.
  simpl app. rewrite L. now destruct p.
Qed.

(** What a run without installs comes to. *)
Lemma empty_outcome libs name rt region up req (w w1 : world) (t : string) :
  truthy libs = false -> truthy_str req = false -> plain_name name = true ->
  Tempfile.mkdtemp draws w = (Ok t, w1) ->
  exists w2 rb wr dl,
    workspace draws w = (Ok (t, PosixPath.join t "python"), w2) /\
    try_body libs name rt region up req t (PosixPath.join t "python") w2 = (rb, wr) /\
    wr.(events) = (w.(events) ++ EvZipOpen (PosixPath.join t (name ++ ".zip")) :: dl)%list /\
    (if up then
       exists rest,
         dl = EvPublish region name (description libs) (FS.ZipData []) [rt] :: rest /\
         (rest = [] \/ exists response, rest = [EvPrint (str response)])
     else
       dl = [EvPrint ("Lambda layer package created at: " ++
                      PosixPath.join t (name ++ ".zip"))] /\
       rb = Ok tt) /\
    FS.read wr.(fs) (PosixPath.join t (name ++ ".zip")) = inr (FS.ZipData []) /\
    (up = false ->
     exists w', run_script libs name rt region up req w = (Ok (PyNone Response), w')).
Proof.
  intros Hl Hq Hn Hm.
  destruct (empty_run libs name rt region up req _ _ _ Hl Hq Hn Hm)
    as (d & w2 & fsA & -> & Hw & Hb & Hread & [es Ldir]).
  rewrite package_path.
  rewrite zip_path by (discriminate || apply place_valid || exact Hn).
  exists w2. destruct up.
  - rewrite (deliver_upload libs name rt region _ (World fsA _ None) _ Hread) in Hb.
    destruct (publish_layer_version _ _ _ _ _) as [msg|resp]; do 3 eexists;
      (split; [exact Hw|]); (split; [exact Hb|]); cbn [fs events];
      (split; [now rewrite <- app_assoc|]);
      (split; [|split; [exact Hread | intros E; discriminate E]]).
    + exists []. split; [reflexivity | now left].
    + exists [EvPrint (str resp)]. split; [reflexivity | right; now exists resp].
  - unfold deliver, print, emit in Hb. cbn [fs events zf] in Hb.
    do 3 eexists. split; [exact Hw|]. split; [exact Hb|]. cbn [fs events].
    split; [now rewrite <- app_assoc|]. split; [split; reflexivity|].
    split; [exact Hread|]. intros _.
    rewrite run_unfold, Hw, Hb. cbv zeta. cbn [fs events zf].
    rewrite (rmtree_dir fsA (Tempfile.place d) es ltac:(discriminate) (place_valid d) Ldir).
    eauto.
Qed.

(** The whole call without installs, for a layer name without slash: the
    archive is opened, delivered and torn down with the workspace; the
    call returns unless the provider rejects the layer. *)
Lemma empty_call libs name rt region up req (w w1 : world) (t : string) :
  truthy libs = false -> truthy_str req = false -> plain_name name = true ->
  Tempfile.mkdtemp draws w = (Ok t, w1) ->
  exists r w' dl,
    run_script libs name rt region up req w = (r, w') /\
    w'.(events) =
      (w.(events) ++
       EvZipOpen (PosixPath.join t (name ++ ".zip")) :: dl ++ [EvRmtree t])%list /\
    (if up then
       match publish_layer_version region name (description libs) (FS.ZipData []) [rt] with
       | inr response =>
           r = Ok (PyNone Response) /\
           dl = [EvPublish region name (description libs) (FS.ZipData []) [rt];
                 EvPrint (str response)]
       | inl msg =>
           r = Raise (ClientError msg) /\
           dl = [EvPublish region name (description libs) (FS.ZipData []) [rt]]
       end
     else
       r = Ok (PyNone Response) /\
       dl = [EvPrint ("Lambda layer package created at: " ++
                      PosixPath.join t (name ++ ".zip"))]).
Proof.
  intros Hl Hq Hn Hm.
  destruct (empty_run libs name rt region up req _ _ _ Hl Hq Hn Hm)
    as (d & w2 & fsA & -> & Hw & Hb & Hread & [es Ldir]).
  rewrite zip_path by (discriminate || apply place_valid || exact Hn).
  pose proof (rmtree_dir fsA (Tempfile.place d) es ltac:(discriminate) (place_valid d) Ldir)
    as Hrm.
  rewrite run_unfold, Hw, Hb. destruct up.
  - rewrite (deliver_upload libs name rt region _ (World fsA _ None) _ Hread).
    destruct (publish_layer_version _ _ _ _ _) as [msg|resp]; cbv zeta; cbn [fs events zf];
      rewrite Hrm; do 3 eexists; (split; [reflexivity|]); cbn [events];
      (split; [|split; reflexivity]); now rewrite <- !app_assoc.
  - unfold deliver, print, emit. cbv zeta. cbn [fs events zf]. rewrite Hrm.
    do 3 eexists. split; [reflexivity|]. cbn [events].
    split; [|split; reflexivity]. now rewrite <- !app_assoc.
Qed.


(** *** The empty layer name *)

Lemma parser_requires_layer_name (c : cmdline) (w : world) :
  c.(opt_layer_name) = None ->
  main Response str sh publish_layer_version draws stdin c w = (Raise (SystemExit 2), w).
Proof.
  intros H. unfold main, bind, parse_args. rewrite H.
  now destruct (opt_libraries c) as [[|x l]|].
Qed.

Lemma dot_zip_path (d : list nat) :
  PosixPath.join (FS.path_of (Tempfile.place d)) ("" ++ ".zip") =
  FS.path_of (Tempfile.place d) ++ "/.zip".
Proof.
  rewrite zip_path by (discriminate || apply place_valid || reflexivity).
  now rewrite path_of_snoc.
Qed.

(** C9.  [create_lambda_layer] does not look at the layer name.  Called
    with the empty name in a workspace [t], its archive path is [t/.zip];
    a call that returns has opened that archive after its installs and
    has published its content under the empty layer name, or reported
    its path; a call without library and manifest, as by default, always
    gets there, and returns unless the provider rejects the layer.  It is
    the parser alone that asks for a layer name: without [--layer-name]
    on the command line [main] exits before the function is called. *)
Theorem empty_layer_name_accepted libs rt region up req (w w1 w' : world) (t : string)
    (r : result (pyval Response)) :
  Tempfile.mkdtemp draws w = (Ok t, w1) ->
  run_script libs "" rt region up req w = (r, w') ->
  PosixPath.join t ("" ++ ".zip") = t ++ "/.zip" /\
  ((exists v, r = Ok v) ->
   exists cmds out,
     w'.(events) =
       (w.(events) ++ map EvShell cmds ++
        EvZipOpen (t ++ "/.zip") :: out ++ [EvRmtree t])%list /\
     if up then
       exists members response,
         publish_layer_version region "" (description libs) (FS.ZipData members) [rt] =
           inr response /\
         out = [EvPublish region "" (description libs) (FS.ZipData members) [rt];
                EvPrint (str response)]
     else out = [EvPrint ("Lambda layer package created at: " ++ t ++ "/.zip")]) /\
  (truthy libs = false -> truthy_str req = false ->
   exists dl,
     w'.(events) = (w.(events) ++ EvZipOpen (t ++ "/.zip") :: dl ++ [EvRmtree t])%list /\
     if up then
       match publish_layer_version region "" (description libs) (FS.ZipData []) [rt] with
       | inr response =>
           r = Ok (PyNone Response) /\
           dl = [EvPublish region "" (description libs) (FS.ZipData []) [rt];
                 EvPrint (str response)]
       | inl msg =>
           r = Raise (ClientError msg) /\
           dl = [EvPublish region "" (description libs) (FS.ZipData []) [rt]]
       end
     else
       r = Ok (PyNone Response) /\
       dl = [EvPrint ("Lambda layer package created at: " ++ t ++ "/.zip")]) /\
  (forall c w0, c.(opt_layer_name) = None ->
     exists code,
       main Response str sh publish_layer_version draws stdin c w0 =
       (Raise (SystemExit code), w0)).
Proof.
  intros Hm Hr.
  destruct (workspace_ok _ _ _ _ Hm)
    as (d & root2 & _ & Ht & _ & _ & _ & Hw).
  assert (Hz : PosixPath.join t ("" ++ ".zip") = t ++ "/.zip")
    by (subst t; apply dot_zip_path).
  split; [exact Hz|]. split; [|split].
  - intros [v ->]. rewrite run_unfold, Hw in Hr.
    destruct (attempt _ _ _ _ _ _ _ _ _ _ _ _ _) as [rb w3] eqn:Eb. cbv zeta in Hr.
    assert (Hlast : events w' = (events w3 ++ [EvRmtree t])%list /\ rb = Ok tt).
    { destruct (FS.rmtree _ _); [discriminate|]. destruct rb as [[]|e]; [|discriminate].
      split; [now injection Hr as _ <- | reflexivity]. }
    destruct Hlast as [Hlast ->]. clear Hr.
    unfold attempt, bind in Eb.
    destruct (install sh libs req _ _) as [[[]|e] wi] eqn:Ei; [|discriminate].
    apply install_events in Ei as (_ & [cmds Hc] & _). cbn [events] in Hc.
    rewrite Hz in Eb.
    destruct (archive _ _ _ wi) as [[[]|e] wa] eqn:Ea; [|discriminate].
    rewrite <- Hz in Ea. rewrite Ht in Ea, Hz.
    rewrite zip_path in Ea, Hz by (discriminate || apply place_valid || reflexivity).
    rewrite <- Ht in Hz.
    destruct (FS.create wi.(fs) (FS.path_of (Tempfile.place d ++ [("" ++ ".zip")%string])))
      as [en|[p root]] eqn:Hc'.
    { rewrite archive_unfold, Hc' in Ea. discriminate. }
    destruct (archive_plain d "" wi p root eq_refl Hc')
      as (-> & rb & members & Ha & Hread & _).
    rewrite Ea in Ha. apply (f_equal snd) in Ha. cbn [snd] in Ha.
    assert (Hread' : FS.read wa.(fs) (t ++ "/.zip") = inr (FS.ZipData members))
      by (rewrite Ha, <- Hz; exact Hread).
    assert (Hza : events wa = (events wi ++ [EvZipOpen (t ++ "/.zip")])%list)
      by (rewrite Ha, <- Hz; reflexivity).
    exists cmds. destruct up.
    + rewrite (deliver_upload libs "" rt region _ wa _ Hread') in Eb.
      destruct (publish_layer_version _ _ _ _ _) as [msg|resp] eqn:P; [discriminate|].
      exists [EvPublish region "" (description libs) (FS.ZipData members) [rt];
              EvPrint (str resp)].
      split; [|now exists members, resp].
      assert (Hev3 : events w3 =
                (events wa ++ [EvPublish region "" (description libs)
                                 (FS.ZipData members) [rt]; EvPrint (str resp)])%list)
        by (now injection Eb as <-).
      rewrite Hlast, Hev3, Hza, Hc. now rewrite <- !app_assoc.
    + eexists. split; [|reflexivity].
      unfold deliver, print, emit in Eb.
      assert (Hev3 : events w3 =
                (events wa ++ [EvPrint ("Lambda layer package created at: " ++
                                        t ++ "/.zip")])%list)
        by (now injection Eb as <-).
      rewrite Hlast, Hev3, Hza, Hc. now rewrite <- !app_assoc.
  - intros Hl Hq.
    destruct (empty_call libs "" rt region up req w w1 t Hl Hq eq_refl Hm)
      as (r0 & w0 & dl & Hr0 & Hev & Hout).
    rewrite Hr in Hr0. injection Hr0 as <- <-. rewrite Hz in Hev, Hout.
    exists dl. split; [exact Hev | exact Hout].
  - intros c w0 Hc. exists 2%Z. now apply parser_requires_layer_name.
Qed.

(** *** The region *)

(** C10.  With upload disabled the region is not consulted: two calls of
    [create_lambda_layer] that differ in [region_name] only are the same
    computation (same result, file system, events and output from every
    state), and so are two runs of [main] with [--no-upload] whose
    command lines differ in [--region] only. *)
Theorem region_unused :
  (forall libs name rt region1 region2 req (w : world),
     run_script libs name rt region1 false req w =
     run_script libs name rt region2 false req w) /\
  (forall (c : cmdline) (region1 region2 : option string) (w : world),
     c.(opt_no_upload) = true ->
     main Response str sh publish_layer_version draws stdin (with_region region1 c) w =
     main Response str sh publish_layer_version draws stdin (with_region region2 c) w).
Proof.
  split.
  - intros libs name rt region1 region2 req w.
    unfold create_lambda_layer, attempt, deliver. reflexivity.
  - intros c region1 region2 w Hno. unfold main, parse_args, with_region.
    cbn [opt_libraries opt_layer_name opt_runtime opt_region opt_no_upload
         opt_requirements_file].
    rewrite Hno.
    destruct (opt_libraries c) as [[|x l]|]; destruct (opt_layer_name c) as [n|];
      try reflexivity; unfold bind, ret; cbn [libraries layer_name runtime region
                                               no_upload requirements_file negb];
      try reflexivity.
    all: destruct (truthy_str (opt_requirements_file c)); cbn [negb truthy];
      try reflexivity.
    all: destruct (input stdin _ w) as [[line|e] w1]; reflexivity.
Qed.

End Outcomes.

(** ** The order of the libraries *)












Section Order.

Variable Response : Type.
Variable str : Response -> string.
Variable sh : string -> FS.t -> Z * FS.t.
Variable publish_layer_version :
  string -> string -> string -> FS.fdata -> list string -> string + Response.
Variable draws : list (list nat).

Local Notation "'run_script'" :=
  (create_lambda_layer Response str sh publish_layer_version draws).














End Order.

(** ** The script on the sample machine *)

Example sample_report :
  Sample.run (Some ["requests"]) "test-layer" false None =
  (Ok (PyNone string),
   World [("tmp", FS.Dir []); ("srv", FS.Dir [])]
     [EvShell "pip install requests -t /tmp/tmpabcdefgh/python";
      EvZipOpen "/tmp/tmpabcdefgh/test-layer.zip";
      EvPrint "Lambda layer package created at: /tmp/tmpabcdefgh/test-layer.zip";
      EvRmtree "/tmp/tmpabcdefgh"]
     None).
Proof. reflexivity. Qed.

Example sample_upload :
  (snd (Sample.run (Some ["requests"; "six"]) "test-layer" true None)).(events) =
  [EvShell "pip install requests -t /tmp/tmpabcdefgh/python";
   EvShell "pip install six -t /tmp/tmpabcdefgh/python";
   EvZipOpen "/tmp/tmpabcdefgh/test-layer.zip";
   EvPublish "us-east-1" "test-layer" "Lambda layer for requests, six"
     (FS.ZipData [("python/requests/__init__.py", FS.Blob "# requests");
                  ("python/six/__init__.py", FS.Blob "# six")])
     ["python3.10"];
   EvPrint "{'LayerArn': 'arn:aws:lambda:us-east-1:layer:test-layer', 'Version': 1}";
   EvRmtree "/tmp/tmpabcdefgh"].
Proof. reflexivity. Qed.

Example sample_failure :
  Sample.run (Some ["requests"; "no-such-package"; "six"]) "test-layer" true None =
  (Raise (CalledProcessError 1 ["pip install no-such-package -t /tmp/tmpabcdefgh/python"]),
   World [("tmp", FS.Dir []); ("srv", FS.Dir [])]
     [EvShell "pip install requests -t /tmp/tmpabcdefgh/python";
      EvShell "pip install no-such-package -t /tmp/tmpabcdefgh/python";
      EvRmtree "/tmp/tmpabcdefgh"]
     None).
Proof. reflexivity. Qed.

Example join_absolute : PosixPath.join "/tmp/tmpab" "/srv/out.zip" = "/srv/out.zip".
Proof. reflexivity. Qed.

Example relpath_side :
  PosixPath.relpath "/" "/tmp/x/a.py" "/tmp/tmpab" = "../x/a.py".
Proof. reflexivity. Qed.

Example normpath_dots : PosixPath.normpath "/a/./b//../c/" = "/a/c".
Proof. reflexivity. Qed.

Example split_trailing : PathSplit.split "/tmp/tmpab/" = ("/tmp/tmpab", "").
Proof. reflexivity. Qed.

Example words_of_input : Str.words (Str.strip "  requests   six ") = ["requests"; "six"].
Proof. reflexivity. Qed.

(** ** The claims on the sample machine *)


(** C2 on the sample machine: [no-such-package] is not known. *)
Lemma failed_install_aborts_witness :
  exists e, fst (Sample.run (Some ["requests"; "no-such-package"; "six"]) "test-layer"
                   true None) = Raise e.
Proof.
  destruct (failed_install_aborts string (fun r => r) Sample.pip Sample.provider
              Sample.draws ["requests"; "no-such-package"; "six"] "no-such-package"
              "test-layer" "python3.10" "us-east-1" true None Sample.machine
              (snd (Tempfile.mkdtemp Sample.draws Sample.machine))
              (snd (Sample.run (Some ["requests"; "no-such-package"; "six"]) "test-layer"
                      true None))
              Sample.temp_dir
              (fst (Sample.run (Some ["requests"; "no-such-package"; "six"]) "test-layer"
                      true None)))
    as [[e [He _]] _].
  - right. left. reflexivity.
  - intros dir root. simpl. discriminate.
  - reflexivity.
  - reflexivity.
  - exists e. exact He.
Defined.


(** C4: on the sample machine the provider's response is printed, and
    what the function returns is [None], not the response. *)
Lemma response_not_returned :
  let out := Sample.run (Some ["requests"]) "test-layer" true None in
  let response := "{'LayerArn': 'arn:aws:lambda:us-east-1:layer:test-layer', 'Version': 1}" in
  Sample.provider "us-east-1" "test-layer" "Lambda layer for requests"
    (FS.ZipData [("python/requests/__init__.py", FS.Blob "# requests")])
    ["python3.10"] = inr response /\
  In (EvPublish "us-east-1" "test-layer" "Lambda layer for requests"
        (FS.ZipData [("python/requests/__init__.py", FS.Blob "# requests")])
        ["python3.10"]) (snd out).(events) /\
  In (EvPrint response) (snd out).(events) /\
  fst out = Ok (PyNone string) /\
  fst out <> Ok (PyResponse string response).
Proof.
  split; [reflexivity|]. split; [vm_compute; tauto|]. split; [vm_compute; tauto|].
  split; [reflexivity | discriminate].
Qed.

(** C4 as amended, on the sample machine. *)
Lemma response_printed_witness :
  exists new,
    (snd (Sample.run (Some ["requests"]) "test-layer" true None)).(events) =
    (Sample.machine.(events) ++ new)%list.
Proof.
  destruct (response_printed string (fun r => r) Sample.pip Sample.provider Sample.draws
              (Some ["requests"]) "test-layer" "python3.10" "us-east-1" None
              Sample.machine
              (snd (Sample.run (Some ["requests"]) "test-layer" true None))
              (fst (Sample.run (Some ["requests"]) "test-layer" true None)))
    as (new & Hev & _).
  - reflexivity.
  - exists new. exact Hev.
Defined.

(** C5: two runs with upload disabled and one library that return.  With
    the layer name [/srv/layer] the archive is made outside the
    workspace, at the path that is reported, and is still there once the
    function has returned.  With the library [--help] the package manager
    succeeds and installs nothing, and the reported archive has no
    member. *)
Lemma reported_archive_survives :
  (let out := Sample.run (Some ["requests"]) "/srv/layer" false None in
   fst out = Ok (PyNone string) /\
   In (EvPrint "Lambda layer package created at: /srv/layer.zip") (snd out).(events) /\
   FS.exists_ (snd out).(fs) "/srv/layer.zip" = true) /\
  (let w2 := snd (workspace Sample.draws Sample.machine) in
   let body := attempt string (fun r => r) Sample.pip Sample.provider (Some ["--help"])
                 "layer" "python3.10" "us-east-1" false None
                 Sample.temp_dir "/tmp/tmpabcdefgh/python" w2 in
   fst body = Ok tt /\
   In (EvPrint "Lambda layer package created at: /tmp/tmpabcdefgh/layer.zip")
      (snd body).(events) /\
   FS.read (snd body).(fs) "/tmp/tmpabcdefgh/layer.zip" = inr (FS.ZipData [])).
Proof.
  split.
  - split; [reflexivity|]. split; [vm_compute; tauto | reflexivity].
  - split; [reflexivity|]. split; [vm_compute; tauto | reflexivity].
Qed.

(** C5 as amended, on the sample machine. *)
Lemma reported_archive_witness :
  exists d,
    FS.exists_ (snd (Sample.run (Some ["requests"]) "test-layer" false None)).(fs)
      (PosixPath.join (FS.path_of (Tempfile.place d)) ("test-layer" ++ ".zip")) = false.
Proof.
  destruct (reported_archive string (fun r => r) Sample.pip Sample.provider Sample.draws
              (Some ["requests"]) "test-layer" "python3.10" "us-east-1" None
              Sample.machine
              (snd (Sample.run (Some ["requests"]) "test-layer" false None))
              (PyNone string))
    as (d & _ & _ & _ & _ & _ & _ & _ & _ & Hgone).
  - reflexivity.
  - reflexivity.
  - exists d. exact Hgone.
Defined.

(** C6 on the sample machine. *)
Lemma publish_description_witness :
  description (Some ["requests"; "six"]) = "Lambda layer for requests, six".
Proof.
  destruct (publish_description string (fun r => r) Sample.pip Sample.provider
              Sample.draws (Some ["requests"; "six"]) "test-layer" "python3.10"
              "us-east-1" None Sample.machine
              (snd (Sample.run (Some ["requests"; "six"]) "test-layer" true None))
              (fst (Sample.run (Some ["requests"; "six"]) "test-layer" true None)))
    as (_ & Hd & _).
  - reflexivity.
  - exact (proj1 (Hd ["requests"; "six"] eq_refl ltac:(discriminate))).
Defined.





(** C9 on the sample machine: the default call with upload enabled
    publishes the archive [.zip] under the empty layer name. *)
Lemma empty_layer_name_accepted_witness :
  (snd (Sample.run None "" true None)).(events) =
  [EvZipOpen "/tmp/tmpabcdefgh/.zip";
   EvPublish "us-east-1" "" "Lambda layer for multiple libraries" (FS.ZipData [])
     ["python3.10"];
   EvPrint "{'LayerArn': 'arn:aws:lambda:us-east-1:layer:', 'Version': 1}";
   EvRmtree "/tmp/tmpabcdefgh"].
Proof.
  destruct (empty_layer_name_accepted string (fun r => r) Sample.pip Sample.provider
              Sample.draws None None "python3.10" "us-east-1" true None Sample.machine
              (snd (Tempfile.mkdtemp Sample.draws Sample.machine))
              (snd (Sample.run None "" true None))
              Sample.temp_dir
              (fst (Sample.run None "" true None)))
    as (_ & _ & Hdef & _).
  - reflexivity.
  - reflexivity.
  - destruct (Hdef eq_refl eq_refl) as (dl & Hev & _ & Hdl).
    rewrite Hev, Hdl. reflexivity.
Defined.

(** * Further properties *)

(** ** The installs, step by step *)

Lemma for_each_map {A B} (g : A -> B) (l : list A) (f : B -> M unit) (w : world) :
  for_each (map g l) f w = for_each l (fun x => f (g x)) w.
Proof.
  revert w. induction l as [|x l IH]; intros w; [reflexivity|].
  simpl. unfold bind. destruct (f (g x) w) as [[u|e] w1]; [apply IH | reflexivity].
Qed.

(** The installs are the loop of [check_call] over the commands. *)
Lemma install_as_commands (sh : string -> FS.t -> Z * FS.t) libs req (pkg : string)
    (w : world) :
  install sh libs req pkg w = for_each (commands libs req pkg) (check_call sh) w.
Proof.
  unfold install, commands. rewrite for_each_app. unfold bind.
  assert (HA : forall w0,
             (if truthy libs
              then for_each (items libs)
                     (fun library => check_call sh (pip_install library pkg))
              else ret tt) w0 =
             for_each (map (fun library => pip_install library pkg) (items libs))
               (check_call sh) w0).
  { intros w0. rewrite for_each_map. destruct libs as [[|x l]|]; reflexivity. }
  rewrite HA. destruct (for_each _ _ w) as [[u|e] w1]; [|reflexivity].
  destruct (truthy_str req); [|reflexivity].
  simpl. unfold bind. destruct (check_call sh _ w1) as [[[]|e] w2]; reflexivity.
Qed.

(** A loop of [check_call]: the commands run are an initial part of the
    list, all of it when the loop ends well; when it raises, either the
    next command holds a NUL or the last command run exited non-zero. *)
Lemma check_calls (sh : string -> FS.t -> Z * FS.t) (cmds : list string)
    (w w' : world) (r : result unit) :
  for_each cmds (check_call sh) w = (r, w') ->
  w'.(zf) = w.(zf) /\
  exists k,
    w'.(events) = (w.(events) ++ map EvShell (firstn k cmds))%list /\
    match r with
    | Ok _ => firstn k cmds = cmds
    | Raise e =>
        e = ValueError "embedded null byte" \/
        exists code c pre,
          firstn k cmds = (pre ++ [c])%list /\ code <> 0%Z /\
          e = CalledProcessError code [c]
    end.
Proof.
  revert w. induction cmds as [|c cmds IH]; intros w.
  - intros H. injection H as <- <-. split; [reflexivity|]. exists 0.
    simpl. now rewrite app_nil_r.
  - cbn [for_each]. unfold bind, check_call at 1.
    destruct (Str.mem PosixPath.nul c).
    + intros H. injection H as <- <-. split; [reflexivity|]. exists 0.
      simpl. rewrite app_nil_r. split; [reflexivity | now left].
    + destruct (sh c (fs w)) as [code root]. destruct (code =? 0)%Z eqn:E.
      * intros H. apply IH in H as [Hz (k & Hev & Hr)]. cbn [fs events zf] in *.
        split; [exact Hz|]. exists (S k). split.
        -- rewrite Hev, <- app_assoc. reflexivity.
        -- destruct r as [u|e]; cbn [firstn]; [now rewrite Hr|].
           destruct Hr as [Hr|(code' & c' & pre & Hf & Hc & He)]; [now left|].
           right. exists code', c', (c :: pre). rewrite Hf. repeat split; assumption.
      * intros H. injection H as <- <-. split; [reflexivity|]. exists 1.
        cbn [firstn events map]. split; [reflexivity|]. right.
        exists code, c, []. repeat split. now apply Z.eqb_neq.
Qed.

(** *** Exceptions *)

Lemma file_error_os (en : FS.errno) (path : string) : file_error (os_error en path) = true.
Proof. now destruct en. Qed.

Lemma raises_ret {A} (P : exn -> Prop) (a : A) : raises P (ret a).
Proof. intros w w' e H. discriminate H. Qed.

Lemma raises_raise {A} (P : exn -> Prop) (e : exn) : P e -> raises P (@raise A e).
Proof. intros He w w' e' H. injection H as <- _. exact He. Qed.

Lemma raises_bind {A B} (P : exn -> Prop) (m : M A) (k : A -> M B) :
  raises P m -> (forall a, raises P (k a)) -> raises P (x <- m ;; k x).
Proof.
  intros Hm Hk w w' e. unfold bind. destruct (m w) as [[a|e1] w1] eqn:E.
  - apply Hk.
  - intros H. injection H as <- _. now apply Hm in E.
Qed.

Lemma raises_for_each {A} (P : exn -> Prop) (l : list A) (f : A -> M unit) :
  (forall x, raises P (f x)) -> raises P (for_each l f).
Proof.
  intros Hf. induction l as [|x l IH]; simpl; [apply raises_ret|].
  apply raises_bind; [apply Hf | intros _; exact IH].
Qed.

Lemma raises_try_finally {A} (P : exn -> Prop) (m : M A) (fin : M unit) :
  raises P m -> raises P fin -> raises P (try_finally m fin).
Proof.
  intros Hm Hf w w' e. unfold try_finally. destruct (m w) as [r w1] eqn:E.
  destruct (fin w1) as [[u|e2] w2] eqn:E2.
  - intros H. injection H as -> _. now apply Hm in E.
  - intros H. injection H as <- _. now apply Hf in E2.
Qed.

Lemma raises_fs_read {A} (op : FS.t -> FS.errno + A) (path : string) :
  raises (fun e => file_error e = true) (fs_read op path).
Proof.
  intros w w' e. unfold fs_read. destruct (op (fs w)); [|discriminate].
  intros H. injection H as <- _. apply file_error_os.
Qed.

Lemma raises_write (filename arcname : string) :
  raises (fun e => file_error e = true) (Zipfile.write filename arcname).
Proof.
  assert (Hn : forall a b, raises (fun e => file_error e = true) (Zipfile.member_name a b)).
  { intros a b. unfold Zipfile.member_name.
    destruct (_ =? ""); [now apply raises_raise | apply raises_ret]. }
  assert (Ha : forall a d, raises (fun e => file_error e = true) (Zipfile.add_member a d)).
  { intros a d w w' e. unfold Zipfile.add_member. destruct (zf w); [discriminate|].
    intros H. now injection H as <- _. }
  unfold Zipfile.write. apply raises_bind; [apply raises_fs_read|].
  intros [d|es]; (apply raises_bind; [apply Hn|]); intros a.
  - apply raises_bind; [apply raises_fs_read|]. intros. apply Ha.
  - apply Ha.
Qed.

Lemma raises_archive (t pkg zip : string) :
  raises (fun e => file_error e = true) (archive t pkg zip).
Proof.
  unfold archive, Zipfile.with_ZipFile. apply raises_bind.
  - intros w w' e. unfold Zipfile.ZipFile.
    destruct (FS.create (fs w) zip) as [en|[p root]]; [|discriminate].
    intros H. injection H as <- _. apply file_error_os.
  - intros _. apply raises_try_finally.
    + unfold write_tree. apply raises_bind; [intros w w' e H; discriminate H|].
      intros tree. apply raises_for_each. intros [[root ds] files].
      apply raises_for_each. intros file. apply raises_write.
    + intros w w' e. unfold Zipfile.close. destruct (zf w); discriminate.
Qed.

Lemma delivery_raise (Response : Type) (str : Response -> string)
    (publish : string -> string -> string -> FS.fdata -> list string -> string + Response)
    libs name rt region (zip : string) (w w' : world) (e : exn) up :
  deliver Response str publish libs name rt region up zip w = (Raise e, w') ->
  file_error e = true \/ exists msg, e = ClientError msg.
Proof.
  unfold deliver. destruct up; [|discriminate].
  unfold bind, fs_read, emit, print, emit.
  destruct (FS.read (fs w) zip) as [en|content].
  - intros H. injection H as <- _. left. apply file_error_os.
  - simpl. destruct (publish _ _ _ _ _) as [msg|resp]; [|discriminate].
    intros H. injection H as <- _. right. eauto.
Qed.

Lemma mkdtemp_raise (draws : list (list nat)) (w w1 : world) (e : exn) :
  Tempfile.mkdtemp draws w = (Raise e, w1) -> w1 = w /\ file_error e = true.
Proof.
  induction draws as [|d draws IH]; simpl.
  - intros H. injection H as <- <-. split; reflexivity.
  - destruct (FS.mkdir _ _) as [en|root]; [|discriminate].
    destruct en; try (intros H; injection H as <- <-; split; reflexivity).
    exact IH.
Qed.

(** The workspace is made whenever [mkdtemp] finds a name, and not
    touched otherwise. *)
Lemma workspace_raise (draws : list (list nat)) (w w1 : world) (e : exn) :
  workspace draws w = (Raise e, w1) ->
  Tempfile.mkdtemp draws w = (Raise e, w) /\ w1 = w /\ file_error e = true.
Proof.
  intros H. destruct (Tempfile.mkdtemp draws w) as [[t|e1] w0] eqn:Em.
  - destruct (workspace_ok _ _ _ _ Em) as (d & root2 & _ & _ & _ & _ & _ & Hw).
    rewrite Hw in H. discriminate.
  - unfold workspace, bind in H. rewrite Em in H. injection H as <- <-.
    apply mkdtemp_raise in Em as [-> He]. repeat split. exact He.
Qed.

Lemma shell_not_print (cmds : list string) : filter is_print (map EvShell cmds) = [].
Proof. induction cmds as [|c cmds IH]; [reflexivity | exact IH]. Qed.

Lemma in_firstn {A} (x : A) (k : nat) (l : list A) : In x (firstn k l) -> In x l.
Proof.
  revert k. induction l as [|y l IH]; intros [|k] K; simpl in K; try contradiction.
  destruct K as [K|K]; [now left | right; eauto].
Qed.

Section Installs.

Variable Response : Type.
Variable str : Response -> string.
Variable sh : string -> FS.t -> Z * FS.t.
Variable publish_layer_version :
  string -> string -> string -> FS.fdata -> list string -> string + Response.
Variable draws : list (list nat).

Local Notation "'run_script'" :=
  (create_lambda_layer Response str sh publish_layer_version draws).
Local Notation "'try_body'" := (attempt Response str sh publish_layer_version).

Lemma delivery_events libs name rt region (zip : string) up (rb : result unit)
    (dl : list event) :
  delivery Response str publish_layer_version libs name rt region zip up rb dl ->
  (forall cmd, ~ In (EvShell cmd) dl) /\
  (forall t, ~ In (EvRmtree t) dl) /\
  (forall z, ~ In (EvZipOpen z) dl) /\
  (forall p, ~ In (EvInput p) dl) /\
  (dl <> [] -> up = false -> rb = Ok tt) /\
  (up = false ->
   dl = [] \/ dl = [EvPrint ("Lambda layer package created at: " ++ zip)] /\ rb = Ok tt).
Proof.
  intros H. inversion H; subst; repeat split; try (intros ? K; simpl in K);
    try (intros K; simpl in K);
    repeat match goal with
           | K : _ \/ _ |- _ => destruct K as [K|K]
           end;
    try discriminate; try contradiction; try congruence; auto.
Qed.

(** The events of the body of the [try]: an initial part of the
    commands, then whatever the archive and the delivery add, which comes
    only once every command has run. *)
Lemma attempt_commands libs name rt region up req (t pkg : string) (w w' : world)
    (r : result unit) :
  try_body libs name rt region up req t pkg w = (r, w') ->
  exists k rest,
    w'.(events) =
      (w.(events) ++ map EvShell (firstn k (commands libs req pkg)) ++ rest)%list /\
    (forall cmd, ~ In (EvShell cmd) rest) /\
    (forall t', ~ In (EvRmtree t') rest) /\
    (r = Ok tt \/ rest <> [] ->
     firstn k (commands libs req pkg) = commands libs req pkg) /\
    (forall code cmd, r = Raise (CalledProcessError code cmd) ->
       rest = [] /\ code <> 0%Z /\
       exists c pre, cmd = [c] /\ firstn k (commands libs req pkg) = (pre ++ [c])%list).
Proof.
  unfold attempt, bind. rewrite install_as_commands.
  destruct (for_each (commands libs req pkg) (check_call sh) w) as [[[]|e] wi] eqn:Ei;
    apply check_calls in Ei as (_ & k & Hev & Hk).
  - destruct (archive _ _ _ wi) as [[[]|e] wa] eqn:Ea.
    + pose proof (archive_trace _ _ _ _ _ _ Ea) as [[_ [e He]]|Ha]; [discriminate|].
      intros H. pose proof H as H0. apply deliver_trace in H as (_ & dl & Hd & Hdl).
      pose proof (delivery_events _ _ _ _ _ _ _ _ Hdl) as (D1 & D2 & _).
      exists k, (EvZipOpen (PosixPath.join t (name ++ ".zip")) :: dl).
      split; [|split; [|split; [|split]]].
      * rewrite Hd, Ha, Hev, <- !app_assoc. reflexivity.
      * intros cmd [K|K]; [discriminate | now apply D1 in K].
      * intros t' [K|K]; [discriminate | now apply D2 in K].
      * intros _. exact Hk.
      * intros code cmd ->. apply delivery_raise in H0 as [K|[msg K]]; discriminate.
    + pose proof (raises_archive _ _ _ _ _ _ Ea) as Hf.
      apply archive_trace in Ea. intros H. injection H as <- <-.
      destruct Ea as [[Ha _]|Ha].
      * exists k, []. rewrite Ha, Hev, app_nil_r. split; [reflexivity|].
        split; [intros ? []|]. split; [intros ? []|]. split; [intros _; exact Hk|].
        intros code cmd K. injection K as ->. discriminate.
      * exists k, [EvZipOpen (PosixPath.join t (name ++ ".zip"))].
        rewrite Ha, Hev, <- app_assoc. split; [reflexivity|].
        split; [intros ? [K|[]]; discriminate|].
        split; [intros ? [K|[]]; discriminate|]. split; [intros _; exact Hk|].
        intros code cmd K. injection K as ->. discriminate.
  - intros H. injection H as <- <-. exists k, []. rewrite Hev, app_nil_r.
    split; [reflexivity|]. split; [intros ? []|]. split; [intros ? []|].
    split; [intros [K|K]; [discriminate | congruence]|].
    intros code cmd K. injection K as ->. split; [reflexivity|].
    destruct Hk as [Hk|(code' & c & pre & Hf & Hc & He)]; [discriminate|].
    injection He as -> ->. split; [exact Hc|]. eauto.
Qed.

(** X1.  The package manager is invoked through the shell once per
    library, in list order, with [pip install <library> -t <workspace>/python],
    then once for the manifest if one is given; the invocations made are an
    initial part of that list and come before everything else the run
    does; a run that returns or that opens the archive has made them
    all. *)
Theorem installs_in_order libs name rt region up req (w w1 w' : world) (t : string)
    (r : result (pyval Response)) :
  Tempfile.mkdtemp draws w = (Ok t, w1) ->
  run_script libs name rt region up req w = (r, w') ->
  exists k rest,
    w'.(events) =
      (w.(events) ++
       map EvShell (firstn k (commands libs req (PosixPath.join t "python"))) ++
       rest)%list /\
    (forall cmd, ~ In (EvShell cmd) rest) /\
    ((exists v, r = Ok v) \/ (exists zip, In (EvZipOpen zip) rest) ->
     firstn k (commands libs req (PosixPath.join t "python")) =
     commands libs req (PosixPath.join t "python")).
Proof.
  intros Hm Hr. rewrite run_unfold in Hr.
  destruct (workspace_ok _ _ _ _ Hm) as (d & root2 & _ & -> & _ & _ & _ & Hw).
  rewrite Hw in Hr. rewrite package_path.
  destruct (attempt _ _ _ _ _ _ _ _ _ _ _ _ _) as [rb w3] eqn:Eb.
  apply attempt_commands in Eb as (k & rest & Hev & Hsh & _ & Hall & _).
  cbn [events] in Hev. cbv zeta in Hr.
  exists k, (rest ++ [EvRmtree (FS.path_of (Tempfile.place d))])%list.
  split; [|split].
  - destruct (FS.rmtree _ _); destruct rb; injection Hr as _ <-; cbn [events];
      rewrite Hev, <- !app_assoc; reflexivity.
  - intros cmd K. apply in_app_or in K as [K|[K|[]]]; [now apply Hsh in K | discriminate].
  - intros [[v Hv]|[zip Hz]]; apply Hall.
    + left. subst r. destruct (FS.rmtree _ _); destruct rb as [[]|?];
        try discriminate. reflexivity.
    + right. intros ->. destruct Hz as [K|[]]. discriminate.
Qed.

(** X2.  When [create_lambda_layer] raises [CalledProcessError], the
    error is that of one of its package-manager commands, which exited
    non-zero and is the last command run; the run has opened no archive,
    published nothing and printed nothing, and has removed the
    workspace. *)
Theorem install_error_stops_the_run libs name rt region up req (w w' : world)
    (code : Z) (cmd : list string) :
  run_script libs name rt region up req w = (Raise (CalledProcessError code cmd), w') ->
  exists t c pre,
    cmd = [c] /\ code <> 0%Z /\
    In c (commands libs req (PosixPath.join t "python")) /\
    w'.(events) = (w.(events) ++ map EvShell (pre ++ [c]) ++ [EvRmtree t])%list /\
    FS.isdir w'.(fs) t = false.
Proof.
  intros Hr. pose proof Hr as Hr0.
  destruct (workspace draws w) as [[[t pkg]|e] w2] eqn:Ew.
  2: { rewrite run_unfold, Ew in Hr. injection Hr as -> _.
       apply workspace_raise in Ew as (_ & _ & K). discriminate. }
  destruct (workspace_inv _ _ _ _ _ Ew) as [w1 Hm].
  destruct (workspace_ok _ _ _ _ Hm) as (d & root2 & _ & -> & _ & _ & _ & Hw).
  rewrite run_unfold, Hw in Hr.
  destruct (attempt _ _ _ _ _ _ _ _ _ _ _ _ _) as [rb w3] eqn:Eb.
  apply attempt_commands in Eb as (k & rest & Hev & _ & _ & _ & Hcpe).
  cbv zeta in Hr.
  destruct (FS.rmtree _ _) as [en|root] eqn:Er.
  { injection Hr as K _. destruct en; discriminate. }
  destruct rb as [[]|e]; [discriminate|]. injection Hr as -> <-.
  destruct (Hcpe code cmd eq_refl) as (-> & Hc & c & pre & -> & Hf).
  exists (FS.path_of (Tempfile.place d)), c, pre. rewrite package_path.
  split; [reflexivity|]. split; [exact Hc|]. split; [|split].
  - assert (K : In c (firstn k (commands libs req
                                   (FS.path_of (Tempfile.place d ++ ["python"])))))
      by (rewrite Hf; apply in_or_app; right; now left).
    now apply in_firstn in K.
  - cbn [events]. rewrite Hev, Hf. cbn [events]. now rewrite app_nil_r, <- app_assoc.
  - eapply teardown_leaves_nothing; eassumption.
Qed.

(** X3.  With upload disabled the provider is never called, and the run
    prints one line at most, the report of the archive path; a run that
    returns has printed it. *)
Theorem report_only_without_upload libs name rt region req (w w' : world)
    (r : result (pyval Response)) :
  run_script libs name rt region false req w = (r, w') ->
  exists new,
    w'.(events) = (w.(events) ++ new)%list /\
    (forall rg n desc c rts, ~ In (EvPublish rg n desc c rts) new) /\
    (forall line, In (EvPrint line) new ->
       exists t, In (EvRmtree t) new /\
                 line = "Lambda layer package created at: " ++
                        PosixPath.join t (name ++ ".zip")) /\
    List.length (filter is_print new) <= 1 /\
    ((exists v, r = Ok v) -> List.length (filter is_print new) = 1).
Proof.
  intros H.
  apply run_trace in H as [[Hev [e ->]]|(t & cmds & za & dl & rb & Hev & Hza & Hdl & Hr)].
  - exists []. rewrite app_nil_r. split; [exact Hev|]. split; [intros ? ? ? ? ? []|].
    split; [intros ? []|]. split; [simpl; lia|]. intros [v K]. discriminate.
  - exists (map EvShell cmds ++ za ++ dl ++ [EvRmtree t])%list. split; [exact Hev|].
    pose proof (delivery_events _ _ _ _ _ _ _ _ Hdl) as (_ & _ & _ & _ & _ & Hd).
    specialize (Hd eq_refl).
    assert (Hza' : filter is_print za = [] /\
                   forall e, In e za -> is_print e = false /\ is_publish e = false).
    { destruct Hza as [->| ->]; (split; [reflexivity|]); intros e K;
        [contradiction | destruct K as [<-|[]]; split; reflexivity]. }
    destruct Hza' as [Fza Kza].
    split; [|split; [|split]].
    + intros rg n desc c rts K. apply in_app_or in K as [K|K];
        [now apply shell_not_publish in K|].
      apply in_app_or in K as [K|K]; [now apply Kza in K|].
      apply in_app_or in K as [K|[K|[]]]; [|discriminate].
      destruct Hd as [->|[-> _]]; [contradiction | destruct K as [K|[]]; discriminate].
    + intros line K. exists t. split; [repeat (apply in_or_app; right); now left|].
      apply in_app_or in K as [K|K];
        [apply in_map_iff in K as (x & Hx & _); discriminate|].
      apply in_app_or in K as [K|K]; [now apply Kza in K|].
      apply in_app_or in K as [K|[K|[]]]; [|discriminate].
      destruct Hd as [->|[-> _]]; [contradiction|]. destruct K as [K|[]].
      now injection K as <-.
    + rewrite !filter_app, shell_not_print, Fza. simpl.
      destruct Hd as [->|[-> _]]; simpl; lia.
    + intros [v ->]. rewrite !filter_app, shell_not_print, Fza. simpl.
      destruct Hr as [[en K]|K]; [destruct en; discriminate|].
      destruct rb as [[]|e]; [|discriminate].
      destruct Hd as [->|[-> _]]; [|reflexivity].
      exfalso. inversion Hdl.
Qed.


End Installs.

(** ** Removing what was added *)

Lemma unlink_set (n : string) (x : FS.node) (es : list (string * FS.node)) :
  FS.unlink n (FS.set n x es) = FS.unlink n es.
Proof.
  unfold FS.unlink. induction es as [|[m c] es IH]; simpl.
  - now rewrite String.eqb_refl.
  - destruct (m =? n) eqn:E; simpl.
    + now rewrite String.eqb_refl.
    + now rewrite E, IH.
Qed.

Lemma unlink_absent (n : string) (es : list (string * FS.node)) :
  FS.find n es = None -> FS.unlink n es = es.
Proof.
  unfold FS.unlink. induction es as [|[m c] es IH]; simpl; [reflexivity|].
  destruct (m =? n); [discriminate|]. intros H. simpl. now rewrite IH.
Qed.

Lemma set_set (n : string) (x y : FS.node) (es : list (string * FS.node)) :
  FS.set n x (FS.set n y es) = FS.set n x es.
Proof.
  induction es as [|[m c] es IH]; simpl.
  - now rewrite String.eqb_refl.
  - destruct (m =? n) eqn:E; simpl.
    + now rewrite String.eqb_refl.
    + now rewrite E, IH.
Qed.

Lemma set_same (n : string) (x : FS.node) (es : list (string * FS.node)) :
  FS.find n es = Some x -> FS.set n x es = es.
Proof.
  induction es as [|[m c] es IH]; simpl; [discriminate|].
  destruct (m =? n) eqn:E.
  - apply String.eqb_eq in E. intros H. injection H as ->. now subst m.
  - intros H. now rewrite IH.
Qed.

(** Storing below [p] does not show once the tree at [p] is removed. *)
Lemma remove_put_below (es es' : list (string * FS.node)) (p q : list string)
    (x : FS.node) :
  p <> [] -> q <> [] -> FS.put es (p ++ q) x = Some es' ->
  FS.remove es' p = FS.remove es p.
Proof.
  revert es es'. induction p as [|n p IH]; intros es es' Hp Hq H; [congruence|].
  change ((n :: p) ++ q)%list with (n :: (p ++ q))%list in H.
  rewrite put_cons in H by (destruct p; [exact Hq | discriminate]).
  destruct (FS.find n es) as [[d|e1]|] eqn:En; try discriminate.
  destruct (FS.put e1 (p ++ q) x) as [e2|] eqn:E; [|discriminate].
  injection H as <-. destruct p as [|m p].
  - simpl. apply unlink_set.
  - rewrite !remove_cons by discriminate. rewrite find_set_same, En, set_set.
    now rewrite (IH e1 e2) by (discriminate || assumption).
Qed.

(** Removing the tree just stored at a place where nothing was gives the
    directory back as it was. *)
Lemma remove_put_fresh (es es' : list (string * FS.node)) (p : list string)
    (x : FS.node) :
  FS.get (FS.Dir es) p = None -> FS.put es p x = Some es' -> FS.remove es' p = es.
Proof.
  revert es es'. induction p as [|n p IH]; intros es es' L H; [discriminate|].
  destruct p as [|m p].
  - simpl in *. injection H as <-. rewrite unlink_set. apply unlink_absent.
    now destruct (FS.find n es).
  - rewrite put_cons in H by discriminate. rewrite get_cons in L.
    destruct (FS.find n es) as [[d|e1]|] eqn:En; try discriminate.
    destruct (FS.put e1 (m :: p) x) as [e2|] eqn:E; [|discriminate].
    injection H as <-. rewrite remove_cons by discriminate.
    rewrite find_set_same, set_set, (IH e1 e2 L E). now apply set_same.
Qed.



(** ** Path resolution, continued *)



(** A path with a NUL character resolves to nothing. *)
Lemma create_nul (root : FS.t) (s : string) :
  Str.mem PosixPath.nul s = true -> FS.create root s = inl FS.EINVAL.
Proof. intros H. unfold FS.create, FS.resolve. now rewrite H. Qed.

Lemma join_nul (a b : string) :
  Str.mem PosixPath.nul b = true -> Str.mem PosixPath.nul (PosixPath.join a b) = true.
Proof.
  intros H. unfold PosixPath.join. destruct (PosixPath.isabs b); [exact H|].
  destruct ((a =? "") || Str.ends PosixPath.sep a);
    rewrite !mem_append, H; now rewrite !orb_true_r.
Qed.



Section Leftovers.

Variable Response : Type.
Variable str : Response -> string.
Variable sh : string -> FS.t -> Z * FS.t.
Variable publish_layer_version :
  string -> string -> string -> FS.fdata -> list string -> string + Response.
Variable draws : list (list nat).

Local Notation "'run_script'" :=
  (create_lambda_layer Response str sh publish_layer_version draws).
Local Notation "'try_body'" := (attempt Response str sh publish_layer_version).

(** *** A layer name that cannot name a file *)

Lemma attempt_nul libs name rt region up req (t pkg : string) (w w' : world)
    (r : result unit) :
  Str.mem PosixPath.nul name = true ->
  try_body libs name rt region up req t pkg w = (r, w') ->
  (exists e, r = Raise e /\ install_error e) /\
  exists cmds, w'.(events) = (w.(events) ++ map EvShell cmds)%list.
Proof.
  intros Hn. unfold attempt, bind.
  destruct (install sh libs req pkg w) as [[[]|e] wi] eqn:Ei;
    apply install_events in Ei as (_ & [cmds Hc] & Hr).
  - rewrite archive_unfold, create_nul
      by (apply join_nul; rewrite mem_append, Hn; reflexivity).
    intros H. injection H as <- <-. split; [|eauto].
    eexists. split; [reflexivity | now left].
  - intros H. injection H as <- <-. split; [|eauto].
    destruct Hr as [K|(e' & K & He)]; [discriminate|]. injection K as <-. eauto.
Qed.

(** X7.  A layer name that holds a NUL character cannot name the
    archive: every run that got its workspace raises, [ValueError] from
    the opening of the archive unless an install or the teardown failed;
    what it has done are package-manager invocations and the teardown, so
    that no archive is opened, nothing is published and nothing is
    printed. *)
Theorem nul_layer_name_rejected libs name rt region up req (w w1 w' : world)
    (t : string) (r : result (pyval Response)) :
  Str.mem PosixPath.nul name = true ->
  Tempfile.mkdtemp draws w = (Ok t, w1) ->
  run_script libs name rt region up req w = (r, w') ->
  (exists e, r = Raise e /\
             (e = ValueError "embedded null byte" \/
              (exists code c, code <> 0%Z /\ e = CalledProcessError code [c]) \/
              exists en, e = os_error en t)) /\
  exists cmds, w'.(events) = (w.(events) ++ map EvShell cmds ++ [EvRmtree t])%list.
Proof.
  intros Hn Hm Hr. rewrite run_unfold in Hr.
  destruct (workspace_ok _ _ _ _ Hm) as (d & root2 & _ & -> & _ & _ & _ & Hw).
  rewrite Hw in Hr.
  destruct (attempt _ _ _ _ _ _ _ _ _ _ _ _ _) as [rb w3] eqn:Eb.
  apply (attempt_nul _ _ _ _ _ _ _ _ _ _ _ Hn) in Eb as [(e & -> & He) [cmds Hc]].
  cbn [events] in Hc. cbv zeta in Hr. split.
  - destruct (FS.rmtree _ _) as [en|root]; injection Hr as <- _.
    + eexists. split; [reflexivity|]. right. right. eauto.
    + eexists. split; [reflexivity|]. destruct He as [He|He]; [now left | right; now left].
  - exists cmds. destruct (FS.rmtree _ _) as [en|root]; injection Hr as _ <-;
      cbn [events]; now rewrite Hc, <- app_assoc.
Qed.


(** *** What a run leaves behind *)





End Leftovers.

(** ** White space *)

Lemma lstrip_blank (s : string) : blank (Str.lstrip_space s) = blank s.
Proof.
  induction s as [|c s IH]; [reflexivity|]. simpl.
  destruct (Str.is_space c) eqn:E; [exact IH|]. simpl. now rewrite E.
Qed.

Lemma lstrip_of_blank (s : string) : blank s = true -> Str.lstrip_space s = "".
Proof.
  induction s as [|c s IH]; [reflexivity|]. simpl.
  destruct (Str.is_space c); [exact IH | discriminate].
Qed.

Lemma rstrip_empty (s : string) : Str.rstrip_space s = "" -> blank s = true.
Proof.
  induction s as [|c s IH]; [reflexivity|]. simpl.
  destruct (Str.rstrip_space s =? "") eqn:E.
  - apply String.eqb_eq in E. destruct (Str.is_space c); [|discriminate].
    intros _. now apply IH.
  - discriminate.
Qed.

Lemma strip_blank (s : string) : blank s = true <-> Str.strip s = "".
Proof.
  unfold Str.strip. split.
  - intros H. now rewrite lstrip_of_blank.
  - intros H. apply rstrip_empty in H. now rewrite lstrip_blank in H.
Qed.

Lemma words_blank (s : string) : blank s = true -> Str.words s = [].
Proof.
  induction s as [|c s IH]; [reflexivity|]. simpl.
  destruct (Str.is_space c); [exact IH | discriminate].
Qed.

Lemma words_cons (c : ascii) (s : string) :
  Str.words (String c s) =
  if Str.is_space c then Str.words s
  else match s with
       | EmptyString => [String c ""]
       | String c' _ =>
           if Str.is_space c' then String c "" :: Str.words s
           else match Str.words s with
                | h :: t => String c h :: t
                | [] => [String c ""]
                end
       end.
Proof. reflexivity. Qed.

Lemma words_lstrip (s : string) : Str.words (Str.lstrip_space s) = Str.words s.
Proof.
  induction s as [|c s IH]; [reflexivity|]. simpl Str.lstrip_space.
  destruct (Str.is_space c) eqn:E; [|reflexivity].
  now rewrite IH, words_cons, E.
Qed.

Lemma rstrip_cons_space (c : ascii) (s : string) :
  Str.rstrip_space (String c s) =
  if (Str.rstrip_space s =? "") && Str.is_space c then ""
  else String c (Str.rstrip_space s).
Proof. reflexivity. Qed.

Lemma words_rstrip (s : string) : Str.words (Str.rstrip_space s) = Str.words s.
Proof.
  induction s as [|c s IH]; [reflexivity|]. rewrite rstrip_cons_space.
  destruct (Str.rstrip_space s =? "") eqn:E.
  - apply String.eqb_eq in E. pose proof (rstrip_empty _ E) as Hb.
    rewrite E in *. rewrite words_cons.
    destruct (Str.is_space c) eqn:Ec; simpl andb; cbv iota.
    + now rewrite words_blank.
    + rewrite words_cons, Ec. destruct s as [|c' s']; [reflexivity|].
      simpl in Hb. apply andb_true_iff in Hb as [Hc' Hb'].
      rewrite Hc'. rewrite (words_blank (String c' s')); [reflexivity|].
      simpl. now rewrite Hc', Hb'.
  - simpl andb. cbv iota. rewrite !(words_cons c). rewrite IH.
    destruct (Str.is_space c); [reflexivity|].
    destruct s as [|c' s']; [discriminate|].
    rewrite rstrip_cons_space in *.
    destruct ((Str.rstrip_space s' =? "") && Str.is_space c'); [discriminate|].
    reflexivity.
Qed.

Lemma words_strip (s : string) : Str.words (Str.strip s) = Str.words s.
Proof. unfold Str.strip. now rewrite words_rstrip, words_lstrip. Qed.

Lemma words_not_blank (s : string) : blank s = false -> Str.words s <> [].
Proof.
  induction s as [|c s IH]; [discriminate|]. rewrite words_cons. simpl.
  destruct (Str.is_space c); [exact IH|]. intros _.
  destruct s as [|c' s']; [discriminate|].
  destruct (Str.is_space c'); [discriminate|].
  destruct (Str.words (String c' s')); discriminate.
Qed.

Lemma words_wordlike (s : string) : Forall (fun l => wordlike l = true) (Str.words s).
Proof.
  induction s as [|c s IH]; [constructor|]. rewrite words_cons.
  destruct (Str.is_space c) eqn:Ec; [exact IH|].
  assert (H1 : wordlike (String c "") = true) by (unfold wordlike; simpl; now rewrite Ec).
  destruct s as [|c' s']; [now constructor|].
  destruct (Str.is_space c'); [now constructor|].
  destruct (Str.words (String c' s')) as [|h t]; [now constructor|].
  inversion IH as [|? ? Hh Ht]; subst. constructor; [|exact Ht].
  unfold wordlike in *. simpl. rewrite Ec. simpl.
  now apply andb_true_iff in Hh as [_ Hh].
Qed.

Lemma wordlike_inv (x : string) :
  wordlike x = true ->
  exists c x', x = String c x' /\ Str.is_space c = false /\ spaceless x' = true.
Proof.
  unfold wordlike. destruct x as [|c x']; [discriminate|]. simpl.
  intros H. apply andb_true_iff in H as [Hc Hx]. apply negb_true_iff in Hc. eauto.
Qed.

(** A name followed by white space is the first word. *)
Lemma words_word (x rest : string) :
  wordlike x = true ->
  blank rest = true \/ (exists c r, rest = String c r /\ Str.is_space c = true) ->
  Str.words (x ++ rest) = x :: Str.words rest.
Proof.
  intros Hx Hr. apply wordlike_inv in Hx as (c & x' & -> & Hc & Hx').
  revert c Hc. induction x' as [|c' x' IH]; intros c Hc.
  - simpl append. rewrite words_cons, Hc.
    destruct rest as [|c0 r]; [reflexivity|].
    assert (H0 : Str.is_space c0 = true).
    { destruct Hr as [Hr|(c1 & r1 & E & H1)].
      - simpl in Hr. now apply andb_true_iff in Hr.
      - now injection E as -> ->. }
    now rewrite H0.
  - simpl in Hx'. apply andb_true_iff in Hx' as [Hc' Hx']. apply negb_true_iff in Hc'.
    change (String c (String c' x') ++ rest) with (String c (String c' x' ++ rest)).
    rewrite words_cons, Hc.
    change (String c' x' ++ rest) with (String c' (x' ++ rest)) at 1.
    cbv iota. rewrite Hc'. now rewrite (IH Hx' c' Hc').
Qed.

(** Names typed with single spaces between them, and any white space
    around them, are the words of the line. *)
Lemma words_join (l : list string) (pad : string) :
  Forall (fun x => wordlike x = true) l -> blank pad = true ->
  Str.words (Str.join " " l ++ pad) = l.
Proof.
  intros Hl Hp. induction Hl as [|x l Hx Hl IH]; [now apply words_blank|].
  destruct l as [|y l].
  - simpl Str.join. rewrite words_word by (assumption || now left).
    now rewrite words_blank.
  - rewrite join_cons by discriminate. rewrite !append_assoc.
    rewrite words_word; [|exact Hx | right; now exists " "%char, (Str.join " " (y :: l) ++ pad)].
    change (" " ++ Str.join " " (y :: l) ++ pad)
      with (String " " (Str.join " " (y :: l) ++ pad)).
    rewrite words_cons. change (Str.is_space " ") with true. cbv iota.
    now rewrite IH.
Qed.

Lemma words_pad (pad s : string) : blank pad = true -> Str.words (pad ++ s) = Str.words s.
Proof.
  induction pad as [|c pad IH]; [reflexivity|]. intros H. cbn [blank] in H.
  apply andb_true_iff in H as [Hc Hp].
  change (String c pad ++ s) with (String c (pad ++ s)).
  rewrite words_cons, Hc. now apply IH.
Qed.

Lemma answer_blank (line : string) : blank line = true -> answer line = None.
Proof. intros H. unfold answer. apply strip_blank in H. now rewrite H. Qed.

Lemma answer_words (line : string) :
  blank line = false -> answer line = Some (Str.words line).
Proof.
  intros H. unfold answer. rewrite words_strip.
  destruct (Str.strip line =? "") eqn:E; [|reflexivity].
  apply String.eqb_eq, strip_blank in E. congruence.
Qed.

(** ** Exceptions of the function *)

Lemma raises_weaken {A} (P Q : exn -> Prop) (m : M A) :
  (forall e, P e -> Q e) -> raises P m -> raises Q m.
Proof. intros H Hm w w' e E. apply H. now apply Hm in E. Qed.

Lemma file_script (e : exn) : file_error e = true -> script_error e = true.
Proof. now destruct e. Qed.

Lemma create_lookup (root root' : FS.t) (s : string) (p : list string) :
  FS.create root s = inr (p, root') ->
  FS.lookup root' p = Some (FS.File (FS.Blob "")).
Proof.
  unfold FS.create. destruct (FS.resolve root s) as [e|q]; [discriminate|].
  destruct (FS.lookup root q) as [[d|es]|]; try discriminate;
    destruct (FS.put root q (FS.File (FS.Blob ""))) as [r|] eqn:P; try discriminate;
    intros H; injection H as <- <-; now apply get_put_same in P.
Qed.

Section Delivery.

Variable Response : Type.
Variable str : Response -> string.
Variable sh : string -> FS.t -> Z * FS.t.
Variable publish_layer_version :
  string -> string -> string -> FS.fdata -> list string -> string + Response.
Variable draws : list (list nat).

Local Notation "'run_script'" :=
  (create_lambda_layer Response str sh publish_layer_version draws).
Local Notation "'try_body'" := (attempt Response str sh publish_layer_version).

Lemma raises_install libs req (pkg : string) :
  raises (fun e => script_error e = true) (install sh libs req pkg).
Proof.
  intros w w' e H. apply install_events in H as (_ & _ & [K|(e' & K & He)]);
    [discriminate|]. injection K as <-.
  destruct He as [->|(code & cmd & _ & ->)]; reflexivity.
Qed.

Lemma raises_attempt libs name rt region up req (t pkg : string) :
  raises (fun e => script_error e = true) (try_body libs name rt region up req t pkg).
Proof.
  unfold attempt. apply raises_bind; [apply raises_install|]. intros _.
  apply raises_bind.
  - apply (raises_weaken _ _ _ file_script), raises_archive.
  - intros _ w w' e H. apply delivery_raise in H as [H|[msg ->]];
      [now apply file_script | reflexivity].
Qed.

(** [create_lambda_layer] raises neither [SystemExit] nor [EOFError]. *)
Lemma raises_run libs name rt region up req :
  raises (fun e => script_error e = true) (run_script libs name rt region up req).
Proof.
  intros w w' e. rewrite run_unfold.
  destruct (workspace draws w) as [[[t pkg]|e0] w2] eqn:Ew.
  - destruct (attempt _ _ _ _ _ _ _ _ _ _ _ _ w2) as [rb w3] eqn:Eb. cbv zeta.
    destruct (FS.rmtree _ _) as [en|root].
    + intros H. injection H as <- _. apply file_script, file_error_os.
    + destruct rb as [u|e1]; [discriminate|]. intros H. injection H as <- _.
      now apply raises_attempt in Eb.
  - intros H. injection H as <- _. apply workspace_raise in Ew as (_ & _ & He).
    now apply file_script.
Qed.

(** The events of a call: no prompt, and publish calls, made only with
    upload enabled, for the layer name, region and runtime given. *)
Lemma run_events libs name rt region up req (w w' : world)
    (r : result (pyval Response)) :
  run_script libs name rt region up req w = (r, w') ->
  exists new,
    w'.(events) = (w.(events) ++ new)%list /\
    (forall p, ~ In (EvInput p) new) /\
    (forall rg n desc c rts,
       In (EvPublish rg n desc c rts) new ->
       up = true /\ rg = region /\ n = name /\ desc = description libs /\ rts = [rt]) /\
    ((exists v, r = Ok v) -> up = true ->
     exists c, In (EvPublish region name (description libs) c [rt]) new).
Proof.
  intros H.
  apply run_trace in H as [[Hev [e ->]]|(t & cmds & za & dl & rb & Hev & Hza & Hdl & Hr)].
  - exists []. rewrite app_nil_r. split; [exact Hev|]. split; [intros ? []|].
    split; [intros ? ? ? ? ? []|]. intros [v K]. discriminate.
  - exists (map EvShell cmds ++ za ++ dl ++ [EvRmtree t])%list. split; [exact Hev|].
    pose proof (delivery_events _ _ _ _ _ _ _ _ _ _ _ Hdl) as (_ & _ & _ & Di & _ & Dn).
    split; [|split].
    + intros p K. apply in_app_or in K as [K|K];
        [apply in_map_iff in K as (x & Hx & _); discriminate|].
      apply in_app_or in K as [K|K];
        [destruct Hza as [->| ->]; [contradiction | destruct K as [K|[]]; discriminate]|].
      apply in_app_or in K as [K|[K|[]]]; [now apply Di in K | discriminate].
    + intros rg n desc c rts K.
      destruct (publish_in_trace _ _ _ _ _ _ _ _ _ _ _ _ _ _ _ _ _ _ _ Hza Hdl K)
        as [E Hin].
      injection E as -> -> -> ->. repeat split.
      destruct up; [reflexivity|]. exfalso.
      destruct (Dn eq_refl) as [->|[-> _]]; [contradiction|].
      destruct Hin as [Hin|[]]. discriminate.
    + intros [v ->] ->. destruct Hr as [[en K]|K]; [destruct en; discriminate|].
      inversion Hdl; subst; try discriminate.
      eexists. apply in_or_app. right. apply in_or_app. right.
      apply in_or_app. left. now left.
Qed.

(** *** The with statement *)

Lemma deliver_zf libs name rt region up (zip : string) (w w' : world) (r : result unit) :
  deliver Response str publish_layer_version libs name rt region up zip w = (r, w') ->
  w'.(zf) = w.(zf).
Proof.
  unfold deliver. destruct up.
  - unfold bind, fs_read, emit, print, emit. destruct (FS.read (fs w) zip) as [e|c].
    + intros H. now injection H as _ <-.
    + simpl. destruct (publish_layer_version _ _ _ _ _); intros H;
        now injection H as _ <-.
  - intros H. now injection H as _ <-.
Qed.

Lemma archive_zf (t pkg zip : string) (w w' : world) (r : result unit) :
  archive t pkg zip w = (r, w') -> w.(zf) = None -> w'.(zf) = None.
Proof.
  destruct (FS.create w.(fs) zip) as [e|[p root]] eqn:Hc.
  - rewrite archive_unfold, Hc. intros H. now injection H as _ <-.
  - destruct (archive_created t pkg _ _ _ _ Hc) as (rb & members & Ha & _).
    rewrite Ha. intros H. now injection H as _ <-.
Qed.

(** X14.  The archive is closed however the walk ends: once the archive
    file is created, the walk, whether it ends well or raises, has written
    some members to the open archive and nothing to the file system; the
    archive step ends as the walk did, leaves at the place of the file a
    zip archive made of those members, and leaves no archive open; and a
    call of [create_lambda_layer] that starts with no archive open ends
    with none open. *)
Theorem archive_always_closed :
  (forall (t pkg zip : string) (w : world) (p : list string) (root : FS.t),
     FS.create w.(fs) zip = inr (p, root) ->
     exists rb members,
       write_tree t pkg (World root (w.(events) ++ [EvZipOpen zip]) (Some (Zip p []))) =
         (rb, World root (w.(events) ++ [EvZipOpen zip]) (Some (Zip p members))) /\
       archive t pkg zip w =
         (rb, World (FS.store root p (FS.ZipData members))
                (w.(events) ++ [EvZipOpen zip]) None) /\
       FS.lookup (FS.store root p (FS.ZipData members)) p =
         Some (FS.File (FS.ZipData members))) /\
  (forall libs name rt region up req (w w' : world) (r : result (pyval Response)),
     w.(zf) = None ->
     run_script libs name rt region up req w = (r, w') ->
     w'.(zf) = None).
Proof.
  split.
  - intros t pkg zip w p root Hc. rewrite archive_unfold, Hc.
    destruct (write_tree t pkg _) as [rb w2] eqn:E.
    destruct (appending_write_tree t pkg
                (World root (events w ++ [EvZipOpen zip]) (Some (Zip p [])))
                _ (Zip p []) _ eq_refl E) as [members ->].
    exists rb, members. split; [reflexivity|]. split; [reflexivity|].
    apply (lookup_store_same _ _ (FS.Blob "")). now apply create_lookup in Hc.
  - intros libs name rt region up req w w' r Hz. rewrite run_unfold.
    destruct (workspace draws w) as [[[t pkg]|e] w2] eqn:Ew.
    + destruct (workspace_inv _ _ _ _ _ Ew) as [w1 Hm].
      destruct (workspace_ok _ _ _ _ Hm) as (d & root2 & _ & _ & _ & _ & _ & Hw).
      rewrite Ew in Hw. assert (Hz2 : zf w2 = None)
        by (apply (f_equal snd) in Hw; simpl in Hw; rewrite Hw; exact Hz).
      clear Hw. unfold attempt, bind.
      destruct (install sh libs req pkg w2) as [[[]|e] wi] eqn:Ei;
        apply install_events in Ei as (Hzi & _).
      * destruct (archive _ _ _ wi) as [[[]|e] wa] eqn:Ea;
          apply archive_zf in Ea; try congruence.
        -- destruct (deliver _ _ _ _ _ _ _ _ _ wa) as [rd wd] eqn:Ed.
           apply deliver_zf in Ed. cbv zeta.
           destruct (FS.rmtree _ _); destruct rd; intros H; injection H as _ <-;
             cbn [zf]; congruence.
        -- cbv zeta. destruct (FS.rmtree _ _); intros H; injection H as _ <-;
             cbn [zf]; congruence.
      * cbv zeta. destruct (FS.rmtree _ _); intros H; injection H as _ <-;
          cbn [zf]; congruence.
    + intros H. injection H as _ <-. apply workspace_raise in Ew as (_ & -> & _).
      exact Hz.
Qed.

(** *** What is published *)

Lemma attempt_upload_plain (d : list nat) libs name rt region req (w2 wr : world)
    (rb : result unit) :
  plain_name name = true ->
  try_body libs name rt region true req (FS.path_of (Tempfile.place d))
    (FS.path_of (Tempfile.place d ++ ["python"])) w2 = (rb, wr) ->
  exists pre dl,
    wr.(events) = (w2.(events) ++ pre ++ dl)%list /\
    (forall e, In e pre -> is_publish e = false) /\
    (dl = [] \/
     exists members tail,
       dl = EvPublish region name (description libs) (FS.ZipData members) [rt] :: tail /\
       (forall e, In e tail -> is_publish e = false) /\
       FS.read wr.(fs) (PosixPath.join (FS.path_of (Tempfile.place d)) (name ++ ".zip")) =
         inr (FS.ZipData members) /\
       ((forall x, FS.lookup wr.(fs) (Tempfile.place d ++ ["python"]) = Some x ->
                   FS.wf x = true) ->
        forall a dt,
          In (a, dt) members <->
          exists q, q <> [] /\ a = Str.join "/" ("python" :: q) /\
                    FS.lookup wr.(fs) (Tempfile.place d ++ "python" :: q) =
                    Some (FS.File dt))).
Proof.
  intros Hn. unfold attempt, bind.
  assert (Hsh : forall cmds e, In e (map EvShell cmds) -> is_publish e = false)
    by (intros cmds e K; apply in_map_iff in K as (x & <- & _); reflexivity).
  destruct (install sh libs req _ w2) as [[[]|e] wi] eqn:Ei;
    apply install_events in Ei as (_ & [cmds Hc] & _).
  2: { intros H. injection H as <- <-. exists (map EvShell cmds), [].
       rewrite app_nil_r. split; [exact Hc|]. split; [apply Hsh | now left]. }
  rewrite zip_path by (discriminate || apply place_valid || exact Hn).
  destruct (FS.create wi.(fs) (FS.path_of (Tempfile.place d ++ [(name ++ ".zip")%string])))
    as [en|[p root]] eqn:Hcr.
  { rewrite archive_unfold, Hcr. intros H. injection H as <- <-.
    exists (map EvShell cmds), []. rewrite app_nil_r.
    split; [exact Hc|]. split; [apply Hsh | now left]. }
  destruct (archive_plain d name wi p root Hn Hcr)
    as (-> & ra & members & Ha & Hread & Hside & Hwf).
  rewrite Ha.
  assert (Hpre : forall e, In e (map EvShell cmds ++
                   [EvZipOpen (FS.path_of (Tempfile.place d ++ [(name ++ ".zip")%string]))])%list ->
                 is_publish e = false).
  { intros e K. apply in_app_or in K as [K|[<-|[]]]; [now apply (Hsh cmds) | reflexivity]. }
  destruct ra as [[]|e].
  2: { intros H. injection H as <- <-. eexists. exists []. cbn [events].
       rewrite app_nil_r, Hc, <- app_assoc. split; [reflexivity|].
       split; [exact Hpre | now left]. }
  rewrite (deliver_upload Response str publish_layer_version libs name rt region _
             (World _ _ None) _ Hread).
  assert (Hmem : (forall x, FS.lookup (FS.store root (Tempfile.place d ++ [(name ++ ".zip")%string])
                                          (FS.ZipData members))
                               (Tempfile.place d ++ ["python"]) = Some x ->
                            FS.wf x = true) ->
                 forall a dt,
                   In (a, dt) members <->
                   exists q, q <> [] /\ a = Str.join "/" ("python" :: q) /\
                             FS.lookup (FS.store root (Tempfile.place d ++ [(name ++ ".zip")%string])
                                          (FS.ZipData members))
                               (Tempfile.place d ++ "python" :: q) = Some (FS.File dt)).
  { intros Hx.
    assert (Hx' : forall x, FS.lookup root (Tempfile.place d ++ ["python"]) = Some x ->
                            FS.wf x = true)
      by (intros x Lx; apply Hx; now rewrite Hside).
    destruct (Hwf Hx') as [_ Hm]. intros a dt. rewrite Hm.
    split; intros (q & Hq & Ea & Hl); exists q;
      (split; [exact Hq|]); (split; [exact Ea|]);
      [now rewrite Hside | now rewrite Hside in Hl]. }
  cbn [fs events zf].
  destruct (publish_layer_version _ _ _ _ _) as [msg|resp]; intros H;
    injection H as <- <-; cbn [fs events];
    exists (map EvShell cmds ++
            [EvZipOpen (FS.path_of (Tempfile.place d ++ [(name ++ ".zip")%string]))])%list.
  - exists [EvPublish region name (description libs) (FS.ZipData members) [rt]].
    split; [now rewrite Hc, <- !app_assoc|]. split; [exact Hpre|]. right.
    exists members, []. split; [reflexivity|]. split; [intros ? []|].
    split; [exact Hread | exact Hmem].
  - exists [EvPublish region name (description libs) (FS.ZipData members) [rt];
            EvPrint (str resp)].
    split; [now rewrite Hc, <- !app_assoc|]. split; [exact Hpre|]. right.
    exists members, [EvPrint (str resp)]. split; [reflexivity|].
    split; [intros ? [<-|[]]; reflexivity|]. split; [exact Hread | exact Hmem].
Qed.

(** X4.  With upload enabled and a layer name without slash, the run
    calls the provider once at most, for the layer name, the region and
    the one runtime given, and what it sends as content is the archive
    as it stands in the workspace when the body of the [try] ends: a zip
    archive whose members, when the [python] directory is well formed,
    are exactly the regular files of that directory. *)
Theorem published_archive libs name rt region req (w w' : world)
    (r : result (pyval Response)) :
  plain_name name = true ->
  run_script libs name rt region true req w = (r, w') ->
  exists new,
    w'.(events) = (w.(events) ++ new)%list /\
    List.length (filter is_publish new) <= 1 /\
    forall rg n desc c rts,
      In (EvPublish rg n desc c rts) new ->
      rg = region /\ n = name /\ rts = [rt] /\
      exists d w2 rb wr members,
        workspace draws w =
          (Ok (FS.path_of (Tempfile.place d), FS.path_of (Tempfile.place d ++ ["python"])),
           w2) /\
        try_body libs name rt region true req (FS.path_of (Tempfile.place d))
          (FS.path_of (Tempfile.place d ++ ["python"])) w2 = (rb, wr) /\
        c = FS.ZipData members /\
        FS.read wr.(fs) (PosixPath.join (FS.path_of (Tempfile.place d)) (name ++ ".zip")) =
          inr (FS.ZipData members) /\
        ((forall x, FS.lookup wr.(fs) (Tempfile.place d ++ ["python"]) = Some x ->
                    FS.wf x = true) ->
         forall a dt,
           In (a, dt) members <->
           exists q, q <> [] /\ a = Str.join "/" ("python" :: q) /\
                     FS.lookup wr.(fs) (Tempfile.place d ++ "python" :: q) =
                     Some (FS.File dt)).
Proof.
  intros Hn Hr.
  destruct (workspace draws w) as [[[t pkg]|e] w2] eqn:Ew.
  2: { rewrite run_unfold, Ew in Hr. injection Hr as _ <-.
       apply workspace_raise in Ew as (_ & -> & _). exists [].
       rewrite app_nil_r. split; [reflexivity|]. split; [simpl; lia|].
       intros ? ? ? ? ? []. }
  destruct (workspace_inv _ _ _ _ _ Ew) as [w1 Hm].
  destruct (workspace_ok _ _ _ _ Hm) as (d & root2 & _ & -> & _ & _ & _ & Hw).
  rewrite run_unfold, Hw in Hr.
  destruct (attempt _ _ _ _ _ _ _ _ _ _ _ _ _) as [rb wr] eqn:Eb.
  pose proof Eb as Eb0.
  apply (attempt_upload_plain d) in Eb as (pre & dl & Hev & Hpre & Hdl); [|exact Hn].
  cbn [events] in Hev. cbv zeta in Hr.
  assert (Hfp : filter is_publish pre = []).
  { clear - Hpre. induction pre as [|e pre IH]; [reflexivity|]. simpl.
    rewrite (Hpre e) by now left. apply IH. intros e' K. apply Hpre. now right. }
  exists (pre ++ dl ++ [EvRmtree (FS.path_of (Tempfile.place d))])%list.
  split; [|split].
  - destruct (FS.rmtree _ _); destruct rb; injection Hr as _ <-; cbn [events];
      rewrite Hev, <- !app_assoc; reflexivity.
  - rewrite !filter_app, Hfp. destruct Hdl as [->|(members & tail & -> & Ht & _)];
      [simpl; lia|].
    assert (Hft : filter is_publish tail = []).
    { clear - Ht. induction tail as [|e tail IH]; [reflexivity|]. simpl.
      rewrite (Ht e) by now left. apply IH. intros e' K. apply Ht. now right. }
    simpl. rewrite Hft. simpl. lia.
  - intros rg n desc c rts K.
    apply in_app_or in K as [K|K]; [apply Hpre in K; discriminate|].
    apply in_app_or in K as [K|[K|[]]]; [|discriminate].
    destruct Hdl as [->|(members & tail & -> & Ht & Hread & Hmem)]; [contradiction|].
    destruct K as [K|K]; [|apply Ht in K; discriminate].
    injection K as E1 E2 _ E4 E5. subst rg n c rts. repeat split.
    exists d. eexists. exists rb, wr, members.
    split; [rewrite <- Ew; exact Hw|]. split; [exact Eb0|]. split; [reflexivity|].
    split; [exact Hread | exact Hmem].
Qed.

End Delivery.

(** ** The command line *)

Section CommandLine.

Variable Response : Type.
Variable str : Response -> string.
Variable sh : string -> FS.t -> Z * FS.t.
Variable publish_layer_version :
  string -> string -> string -> FS.fdata -> list string -> string + Response.
Variable draws : list (list nat).
Variable stdin : option string.

Local Notation "'run_script'" :=
  (create_lambda_layer Response str sh publish_layer_version draws).
Local Notation "'run_main'" :=
  (main Response str sh publish_layer_version draws stdin).
Local Notation "'call'" := (call_of Response str sh publish_layer_version draws).

(** [main], case by case: the parser rejects the command line; or the
    user is asked for the libraries; or the call is made at once. *)
Lemma main_unfold (c : cmdline) (w : world) :
  run_main c w =
  match c.(opt_layer_name) with
  | None => (Raise (SystemExit 2), w)
  | Some name =>
      match c.(opt_libraries) with
      | Some [] => (Raise (SystemExit 2), w)
      | Some (x :: l) => call c name (Some (x :: l)) w
      | None =>
          if truthy_str c.(opt_requirements_file) then call c name None w
          else
            let w1 := World w.(fs) (w.(events) ++ [EvInput prompt]) w.(zf) in
            match stdin with
            | Some line => call c name (answer line) w1
            | None => (Raise EOFError, w1)
            end
      end
  end.
Proof.
  assert (Hret : forall libs name w0,
             (create_lambda_layer Response str sh publish_layer_version draws libs name
                (default "python3.10" c.(opt_runtime))
                (default "us-east-1" c.(opt_region))
                (negb c.(opt_no_upload)) c.(opt_requirements_file) ;;
              ret (PyNone Response)) w0 = call c name libs w0).
  { intros libs name w0. unfold call_of, bind.
    destruct (create_lambda_layer _ _ _ _ _ _ _ _ _ _ _ w0) as [[v|e] w'] eqn:E;
      [|reflexivity].
    apply run_returns in E as (_ & _ & _ & _ & _ & _ & ->). reflexivity. }
  unfold main, parse_args.
  destruct (opt_layer_name c) as [name|]; [|now destruct (opt_libraries c) as [[|x l]|]].
  destruct (opt_libraries c) as [[|x l]|]; [reflexivity| |].
  - unfold bind at 1 2. unfold ret at 1 2.
    cbn [libraries layer_name runtime region no_upload requirements_file truthy negb].
    apply Hret.
  - unfold bind at 1 2. unfold ret at 1.
    cbn [libraries layer_name runtime region no_upload requirements_file truthy negb].
    destruct (truthy_str (opt_requirements_file c)); cbn [negb].
    + unfold ret at 1. apply Hret.
    + unfold input, bind at 1 2 3, emit. destruct stdin as [line|]; [|reflexivity].
      unfold ret at 1 2. apply Hret.
Qed.

(** X9.  [main] asks for the libraries exactly when the command line
    is accepted and gives neither a library nor a manifest; it asks once,
    before anything else is done; and at end of input it raises
    [EOFError] without making a workspace. *)
Theorem prompt_only_when_needed (c : cmdline) (w w' : world)
    (r : result (pyval Response)) :
  run_main c w = (r, w') ->
  exists new,
    w'.(events) = (w.(events) ++ new)%list /\
    (forall p, In (EvInput p) new ->
       p = prompt /\ c.(opt_layer_name) <> None /\ c.(opt_libraries) = None /\
       truthy_str c.(opt_requirements_file) = false) /\
    (c.(opt_layer_name) <> None -> c.(opt_libraries) = None ->
     truthy_str c.(opt_requirements_file) = false ->
     exists rest,
       new = EvInput prompt :: rest /\ (forall p, ~ In (EvInput p) rest) /\
       (stdin = None -> rest = [] /\ r = Raise EOFError /\ w'.(fs) = w.(fs))).
Proof.
  rewrite main_unfold.
  destruct (opt_layer_name c) as [name|] eqn:En.
  2: { intros H. exists []. injection H as _ <-. rewrite app_nil_r.
       split; [reflexivity|]. split; [intros ? []|]. congruence. }
  destruct (opt_libraries c) as [[|x l]|] eqn:El.
  - intros H. exists []. injection H as _ <-. rewrite app_nil_r.
    split; [reflexivity|]. split; [intros ? []|]. congruence.
  - intros H. apply run_events in H as (new & Hev & Hin & _).
    exists new. split; [exact Hev|]. split; [intros p K; now apply Hin in K|].
    congruence.
  - destruct (truthy_str (opt_requirements_file c)) eqn:Eq.
    + intros H. apply run_events in H as (new & Hev & Hin & _).
      exists new. split; [exact Hev|]. split; [intros p K; now apply Hin in K|].
      congruence.
    + cbv zeta. destruct stdin as [line|].
      * intros H. apply run_events in H as (new & Hev & Hin & _). cbn [events] in Hev.
        exists (EvInput prompt :: new). split; [now rewrite Hev, <- app_assoc|].
        split.
        -- intros p [K|K]; [|now apply Hin in K]. injection K as <-.
           repeat split. discriminate.
        -- intros _ _ _. exists new. split; [reflexivity|]. split; [exact Hin|].
           discriminate.
      * intros H. injection H as <- <-. exists [EvInput prompt].
        split; [reflexivity|]. split.
        -- intros p [K|[]]. injection K as <-. repeat split. discriminate.
        -- intros _ _ _. exists []. split; [reflexivity|]. split; [intros ? []|].
           intros _. repeat split.
Qed.

(** X12.  A [SystemExit] of [main] is its parser's: [main] exits exactly
    when [parse_args] does, with the parser's status and in the state the
    parser left, so before any prompt, workspace or command.  Neither the
    prompt nor [create_lambda_layer] ever raises [SystemExit]. *)
Theorem exit_only_from_the_parser (c : cmdline) (w w' : world) (code : Z) :
  run_main c w = (Raise (SystemExit code), w') <->
  parse_args c w = (Raise (SystemExit code), w').
Proof.
  rewrite main_unfold. unfold parse_args.
  assert (Hrun : forall name libs w0,
            call c name libs w0 <> (Raise (SystemExit code), w')).
  { intros name libs w0 K. now apply raises_run in K. }
  assert (Hexit : forall A B (w0 : world),
            (@Raise A (SystemExit 2), w0) = (Raise (SystemExit code), w') <->
            (@Raise B (SystemExit 2), w0) = (Raise (SystemExit code), w')).
  { intros A B w0. split; intros K; injection K as <- <-; reflexivity. }
  destruct (opt_layer_name c) as [name|].
  2: { destruct (opt_libraries c) as [[|x l]|]; apply Hexit. }
  destruct (opt_libraries c) as [[|x l]|]; [apply Hexit | |].
  - split; [intros K; now apply Hrun in K | discriminate].
  - destruct (truthy_str (opt_requirements_file c)).
    + split; [intros K; now apply Hrun in K | discriminate].
    + cbv zeta. destruct stdin as [line|]; (split; [|discriminate]).
      * intros K. now apply Hrun in K.
      * discriminate.
Qed.

(** X13.  [main] hands the flags over in the right places: every call
    of the provider made by a run of [main] is for the layer name of the
    command line, in its region and for its one runtime, [us-east-1] and
    [python3.10] when the flags are absent; with [--no-upload] no call is
    made, and without it a run that returns has made one. *)
Theorem main_passes_the_flags (c : cmdline) (w w' : world)
    (r : result (pyval Response)) :
  run_main c w = (r, w') ->
  exists new,
    w'.(events) = (w.(events) ++ new)%list /\
    (forall rg n desc cnt rts,
       In (EvPublish rg n desc cnt rts) new ->
       c.(opt_no_upload) = false /\ c.(opt_layer_name) = Some n /\
       rg = default "us-east-1" c.(opt_region) /\
       rts = [default "python3.10" c.(opt_runtime)]) /\
    ((exists v, r = Ok v) -> c.(opt_no_upload) = false ->
     exists n desc cnt,
       c.(opt_layer_name) = Some n /\
       In (EvPublish (default "us-east-1" c.(opt_region)) n desc cnt
             [default "python3.10" c.(opt_runtime)]) new).
Proof.
  rewrite main_unfold.
  assert (Hcall : forall name libs pre w0,
            c.(opt_layer_name) = Some name ->
            w0.(events) = (w.(events) ++ pre)%list ->
            (forall e, In e pre -> is_publish e = false) ->
            call c name libs w0 = (r, w') ->
            exists new,
              w'.(events) = (w.(events) ++ new)%list /\
              (forall rg n desc cnt rts,
                 In (EvPublish rg n desc cnt rts) new ->
                 c.(opt_no_upload) = false /\ c.(opt_layer_name) = Some n /\
                 rg = default "us-east-1" c.(opt_region) /\
                 rts = [default "python3.10" c.(opt_runtime)]) /\
              ((exists v, r = Ok v) -> c.(opt_no_upload) = false ->
               exists n desc cnt,
                 c.(opt_layer_name) = Some n /\
                 In (EvPublish (default "us-east-1" c.(opt_region)) n desc cnt
                       [default "python3.10" c.(opt_runtime)]) new)).
  { intros name libs pre w0 En Hw0 Hpre H. unfold call_of in H.
    apply run_events in H as (new & Hev & _ & Hpub & Hret).
    exists (pre ++ new)%list. split; [now rewrite Hev, Hw0, <- app_assoc|]. split.
    - intros rg n desc cnt rts K. apply in_app_or in K as [K|K];
        [apply Hpre in K; discriminate|].
      apply Hpub in K as (Hup & -> & -> & _ & ->). apply negb_true_iff in Hup.
      now rewrite En.
    - intros Hv Hup. destruct (Hret Hv) as [cnt Hc]; [now rewrite Hup|].
      exists name, (description libs), cnt. split; [exact En|].
      apply in_or_app. now right. }
  assert (Hexit : forall e w0, w0 = w \/ w0.(events) = (w.(events) ++ [EvInput prompt])%list ->
            (Raise e, w0) = (r, w') ->
            exists new,
              w'.(events) = (w.(events) ++ new)%list /\
              (forall rg n desc cnt rts,
                 In (EvPublish rg n desc cnt rts) new ->
                 c.(opt_no_upload) = false /\ c.(opt_layer_name) = Some n /\
                 rg = default "us-east-1" c.(opt_region) /\
                 rts = [default "python3.10" c.(opt_runtime)]) /\
              ((exists v, r = Ok v) -> c.(opt_no_upload) = false ->
               exists n desc cnt,
                 c.(opt_layer_name) = Some n /\
                 In (EvPublish (default "us-east-1" c.(opt_region)) n desc cnt
                       [default "python3.10" c.(opt_runtime)]) new)).
  { intros e w0 Hw0 H. injection H as <- <-. destruct Hw0 as [->|Hw0].
    - exists []. rewrite app_nil_r. split; [reflexivity|].
      split; [intros ? ? ? ? ? []|]. intros [v K]. discriminate.
    - exists [EvInput prompt]. split; [exact Hw0|].
      split; [intros ? ? ? ? ? [K|[]]; discriminate|]. intros [v K]. discriminate. }
  destruct (opt_layer_name c) as [name|] eqn:En; [|apply Hexit; now left].
  destruct (opt_libraries c) as [[|x l]|]; [apply Hexit; now left | |].
  - apply (Hcall name _ []); [reflexivity | now rewrite app_nil_r | intros ? []].
  - destruct (truthy_str (opt_requirements_file c)).
    + apply (Hcall name _ []); [reflexivity | now rewrite app_nil_r | intros ? []].
    + cbv zeta. destruct stdin as [line|]; [|apply Hexit; now right].
      apply (Hcall name _ [EvInput prompt]); [reflexivity | reflexivity |].
      intros e [<-|[]]. reflexivity.
Qed.

End CommandLine.

(** ** The answer to the prompt *)

Lemma commands_none (req : option string) (pkg : string) :
  truthy_str req = false -> commands None req pkg = [].
Proof. intros H. unfold commands. now rewrite H. Qed.

Section Prompt.

Variable Response : Type.
Variable str : Response -> string.
Variable sh : string -> FS.t -> Z * FS.t.
Variable publish_layer_version :
  string -> string -> string -> FS.fdata -> list string -> string + Response.
Variable draws : list (list nat).
Variable stdin : option string.

Local Notation "'run_script'" :=
  (create_lambda_layer Response str sh publish_layer_version draws).
Local Notation "'try_body'" := (attempt Response str sh publish_layer_version).
Local Notation "'run_main'" :=
  (main Response str sh publish_layer_version draws stdin).

(** A call without library and without manifest runs no command. *)
Lemma run_without_commands name rt region up req (w w' : world)
    (r : result (pyval Response)) :
  truthy_str req = false ->
  run_script None name rt region up req w = (r, w') ->
  exists new, w'.(events) = (w.(events) ++ new)%list /\ forall cmd, ~ In (EvShell cmd) new.
Proof.
  intros Hq. rewrite run_unfold.
  destruct (workspace draws w) as [[[t pkg]|e] w2] eqn:Ew.
  - pose proof (silent_workspace _ _ _ _ Ew) as Hs.
    destruct (attempt _ _ _ _ _ _ _ _ _ _ _ _ w2) as [rb w3] eqn:Eb.
    apply attempt_commands in Eb as (k & rest & Hev & Hsh & _).
    rewrite (commands_none _ _ Hq), firstn_nil in Hev. simpl in Hev. cbv zeta.
    intros H. exists (rest ++ [EvRmtree t])%list. split.
    + destruct (FS.rmtree _ _); destruct rb; injection H as _ <-; cbn [events];
        now rewrite Hev, Hs, <- app_assoc.
    + intros cmd K. apply in_app_or in K as [K|[K|[]]];
        [now apply Hsh in K | discriminate].
  - intros H. injection H as _ <-. apply workspace_raise in Ew as (_ & -> & _).
    exists []. now rewrite app_nil_r.
Qed.

(** X10.  A blank answer to the prompt, white space only, stands for no
    library at all: [main] then runs no package-manager command, and if
    it goes on to publish, it publishes under the generic description
    and, for a layer name without slash, an archive without members. *)
Theorem blank_answer_builds_an_empty_layer (c : cmdline) (line name : string)
    (w w' : world) (r : result (pyval Response)) :
  stdin = Some line -> blank line = true ->
  c.(opt_layer_name) = Some name -> c.(opt_libraries) = None ->
  truthy_str c.(opt_requirements_file) = false ->
  run_main c w = (r, w') ->
  exists new,
    w'.(events) = (w.(events) ++ EvInput prompt :: new)%list /\
    (forall cmd, ~ In (EvShell cmd) new) /\
    (forall rg n desc cnt rts,
       In (EvPublish rg n desc cnt rts) new ->
       desc = "Lambda layer for multiple libraries" /\
       (plain_name name = true -> cnt = FS.ZipData [])).
Proof.
  intros Hs Hb En El Eq. rewrite main_unfold, En, El, Eq, Hs. cbv zeta.
  rewrite (answer_blank _ Hb). unfold call_of. intros H.
  set (w1 := World (fs w) (events w ++ [EvInput prompt]) (zf w)) in *.
  destruct (run_without_commands _ _ _ _ _ _ _ _ Eq H) as (new & Hev & Hsh).
  exists new. split; [rewrite Hev; subst w1; cbn [events]; now rewrite <- app_assoc|].
  split; [exact Hsh|]. intros rg n desc cnt rts K. split.
  - pose proof H as H1. apply run_events in H1 as (new1 & Hev1 & _ & Hpub & _).
    rewrite Hev in Hev1. apply app_inv_head in Hev1. subst new1.
    now apply Hpub in K as (_ & _ & _ & -> & _).
  - intros Hn.
    destruct (Tempfile.mkdtemp draws w1) as [[t|e] w0] eqn:Em.
    + destruct (empty_outcome Response str sh publish_layer_version draws None name
                  (default "python3.10" c.(opt_runtime))
                  (default "us-east-1" c.(opt_region)) (negb c.(opt_no_upload))
                  c.(opt_requirements_file) w1 w0 t eq_refl Eq Hn Em)
        as (w2 & rb & wr & dl & Hw & Hbody & Hevb & Hdl & _).
      rewrite run_unfold, Hw, Hbody in H. cbv zeta in H.
      assert (Hev2 : events w' = (events wr ++ [EvRmtree t])%list)
        by (destruct (FS.rmtree _ _); destruct rb; now injection H as _ <-).
      rewrite Hevb, Hev, <- app_assoc in Hev2. apply app_inv_head in Hev2.
      subst new. simpl in K. destruct K as [K|K]; [discriminate|].
      apply in_app_or in K as [K|[K|[]]]; [|discriminate].
      destruct (negb (opt_no_upload c)).
      * destruct Hdl as (rest & -> & Hrest). destruct K as [K|K]; [now injection K|].
        destruct Hrest as [->|[resp ->]]; [contradiction|].
        destruct K as [K|[]]. discriminate.
      * destruct Hdl as [-> _]. destruct K as [K|[]]. discriminate.
    + rewrite run_unfold in H. unfold workspace, bind in H. rewrite Em in H.
      injection H as _ <-. apply mkdtemp_raise in Em as [-> _].
      rewrite <- (app_nil_r (events w1)) in Hev at 1. apply app_inv_head in Hev.
      subst new. contradiction.
Qed.

(** X11.  An answer to the prompt that is not blank gives the library
    list.  For a line of ASCII characters, the words of the line, of
    which there is one at least, each not empty and free of white space,
    are what [create_lambda_layer] is called with; and names typed with
    one space between them, whatever white space comes before and after,
    are those words. *)
Theorem answer_names (c : cmdline) (line name : string) (w : world) :
  stdin = Some line -> ascii_text line = true -> blank line = false ->
  c.(opt_layer_name) = Some name -> c.(opt_libraries) = None ->
  truthy_str c.(opt_requirements_file) = false ->
  run_main c w =
    run_script (Some (Str.words line)) name
      (default "python3.10" c.(opt_runtime)) (default "us-east-1" c.(opt_region))
      (negb c.(opt_no_upload)) c.(opt_requirements_file)
      (World w.(fs) (w.(events) ++ [EvInput prompt]) w.(zf)) /\
  Str.words line <> [] /\
  Forall (fun l => wordlike l = true) (Str.words line) /\
  (forall l pad1 pad2,
     Forall (fun x => wordlike x = true) l ->
     blank pad1 = true -> blank pad2 = true ->
     line = pad1 ++ Str.join " " l ++ pad2 -> Str.words line = l).
Proof.
  intros Hs _ Hb En El Eq. split; [|split; [|split]].
  - rewrite main_unfold, En, El, Eq, Hs. cbv zeta.
    now rewrite (answer_words _ Hb).
  - now apply words_not_blank.
  - apply words_wordlike.
  - intros l pad1 pad2 Hl H1 H2 ->. rewrite words_pad by exact H1.
    now apply words_join.
Qed.

End Prompt.

(** ** The workspace, the provider and the run that returns *)

Section Outcome.

Variable Response : Type.
Variable str : Response -> string.
Variable sh : string -> FS.t -> Z * FS.t.
Variable publish_layer_version :
  string -> string -> string -> FS.fdata -> list string -> string + Response.
Variable draws : list (list nat).

Local Notation "'run_script'" :=
  (create_lambda_layer Response str sh publish_layer_version draws).
Local Notation "'try_body'" := (attempt Response str sh publish_layer_version).

(** X15.  The workspace of lines 11-15 is fresh: nothing existed at its
    path, which lies in the directory for temporary files; once made it
    holds the empty directory [python] and nothing else, [package_dir]
    is its path, and the rest of the file system, the events and the
    archive object are as they were. *)
Theorem workspace_is_fresh (w w1 : world) (t : string) :
  Tempfile.mkdtemp draws w = (Ok t, w1) ->
  exists d w2,
    In d draws /\ t = Tempfile.gettempdir ++ "/tmp" ++ Tempfile.name d /\
    workspace draws w = (Ok (t, t ++ "/python"), w2) /\
    FS.exists_ w.(fs) t = false /\
    FS.lookup w2.(fs) (Tempfile.place d) = Some (FS.Dir [("python", FS.Dir [])]) /\
    FS.isdir w2.(fs) (t ++ "/python") = true /\
    FS.remove w2.(fs) (Tempfile.place d) = w.(fs) /\
    w2.(events) = w.(events) /\ w2.(zf) = w.(zf).
Proof.
  intros Hm.
  destruct (workspace_ok _ _ _ _ Hm) as (d & root2 & Hd & -> & L0 & P1 & P2 & Hw).
  pose proof (get_put_same _ _ _ _ P1) as L1.
  pose proof (get_put_parent _ _ _ _ _ _ P2 L1) as L2. simpl FS.set in L2.
  assert (Ep : FS.path_of (Tempfile.place d) ++ "/python" =
               FS.path_of (Tempfile.place d ++ ["python"]))
    by (now rewrite path_of_snoc).
  exists d. eexists. split; [exact Hd|]. split; [reflexivity|].
  split; [rewrite Ep; exact Hw|]. cbn [fs events zf].
  split; [|split; [exact L2 | split; [|split; [|split; reflexivity]]]].
  - rewrite exists_path_of by (discriminate || apply place_valid).
    now rewrite L0.
  - rewrite Ep, isdir_path_of by (discriminate || apply package_valid).
    unfold FS.lookup. now rewrite (get_put_same _ _ _ _ P2).
  - rewrite (remove_put_below _ _ (Tempfile.place d) ["python"] _
               ltac:(discriminate) ltac:(discriminate) P2).
    apply (remove_put_fresh _ _ _ _ L0 P1).
Qed.

(** The body of the [try] when it raises the provider's error. *)
Lemma attempt_rejected libs name rt region up req (t pkg : string) (w w' : world)
    (msg : string) :
  try_body libs name rt region up req t pkg w = (Raise (ClientError msg), w') ->
  up = true /\
  exists pre c,
    w'.(events) =
      (w.(events) ++ pre ++ [EvPublish region name (description libs) c [rt]])%list /\
    publish_layer_version region name (description libs) c [rt] = inl msg /\
    forall e, In e pre -> is_print e = false /\ is_publish e = false.
Proof.
  unfold attempt, bind.
  destruct (install sh libs req pkg w) as [[[]|e] wi] eqn:Ei.
  2: { intros H. injection H as -> _.
       apply install_events in Ei as (_ & _ & [K|(e' & K & He)]); [discriminate|].
       injection K as <-. destruct He as [K|(code & cmd & _ & K)]; discriminate. }
  apply install_events in Ei as (_ & [cmds Hc] & _).
  destruct (archive _ _ _ wi) as [[[]|e] wa] eqn:Ea.
  2: { intros H. injection H as -> _. apply raises_archive in Ea. simpl in Ea.
       discriminate. }
  apply archive_trace in Ea as [[_ [e K]]|Ha]; [discriminate|].
  intros H. unfold deliver in H. destruct up; [|discriminate H]. split; [reflexivity|].
  unfold bind, fs_read, emit, print, emit in H.
  destruct (FS.read (fs wa) (PosixPath.join t (name ++ ".zip"))) as [en|content].
  { injection H as K _. destruct en; discriminate. }
  simpl in H.
  destruct (publish_layer_version _ _ _ _ _) as [m|resp] eqn:P; [|discriminate].
  injection H as -> <-. cbn [events].
  exists (map EvShell cmds ++ [EvZipOpen (PosixPath.join t (name ++ ".zip"))])%list, content.
  split; [now rewrite Ha, Hc, <- !app_assoc|]. split; [exact P|].
  intros e K. apply in_app_or in K as [K|[<-|[]]]; [|split; reflexivity].
  apply in_map_iff in K as (x & <- & _). split; reflexivity.
Qed.

(** X16.  When [create_lambda_layer] raises the provider's error, upload
    was enabled and the publish call, made with the given layer name,
    description, region and runtime, is what raised it; the response is
    not printed, nothing else was published, and the teardown, the last
    thing done, has removed the workspace. *)
Theorem provider_error_propagates libs name rt region up req (w w' : world)
    (msg : string) :
  run_script libs name rt region up req w = (Raise (ClientError msg), w') ->
  up = true /\
  exists t pre c,
    w'.(events) =
      (w.(events) ++ pre ++
       [EvPublish region name (description libs) c [rt]; EvRmtree t])%list /\
    publish_layer_version region name (description libs) c [rt] = inl msg /\
    (forall e, In e pre -> is_print e = false /\ is_publish e = false) /\
    FS.isdir w'.(fs) t = false.
Proof.
  intros Hr. pose proof Hr as Hr0.
  destruct (workspace draws w) as [[[t pkg]|e] w2] eqn:Ew.
  2: { rewrite run_unfold, Ew in Hr. injection Hr as -> _.
       apply workspace_raise in Ew as (_ & _ & K). discriminate. }
  destruct (workspace_inv _ _ _ _ _ Ew) as [w1 Hm].
  pose proof (silent_workspace _ _ _ _ Ew) as Hs.
  rewrite run_unfold, Ew in Hr.
  destruct (attempt _ _ _ _ _ _ _ _ _ _ _ _ w2) as [rb w3] eqn:Eb. cbv zeta in Hr.
  destruct (FS.rmtree _ _) as [en|root] eqn:Er.
  { injection Hr as K _. destruct en; discriminate. }
  destruct rb as [[]|e]; [discriminate|]. injection Hr as -> <-.
  apply attempt_rejected in Eb as (-> & pre & c & Hev & Hp & Hpre).
  split; [reflexivity|]. exists t, pre, c. cbn [events fs].
  split; [now rewrite Hev, Hs, <- !app_assoc|]. split; [exact Hp|].
  split; [exact Hpre|].
  pose proof (teardown_leaves_nothing _ _ _ _ _ _ _ _ _ _ _ _ _ _ _ _ Hm Hr0) as [K _].
  exact K.
Qed.

(** X17.  What a call that returns has done, in order: every
    package-manager command, the opening of the archive, then either the
    publish call and the printing of its response or, with upload
    disabled, the report of the archive path, and last the teardown; it
    returns [None] and the workspace is gone. *)
Theorem successful_run_trace libs name rt region up req (w w' : world)
    (v : pyval Response) :
  run_script libs name rt region up req w = (Ok v, w') ->
  exists t out,
    w'.(events) =
      (w.(events) ++
       map EvShell (commands libs req (PosixPath.join t "python")) ++
       EvZipOpen (PosixPath.join t (name ++ ".zip")) :: out ++ [EvRmtree t])%list /\
    (if up then
       exists c resp,
         publish_layer_version region name (description libs) c [rt] = inr resp /\
         out = [EvPublish region name (description libs) c [rt]; EvPrint (str resp)]
     else
       out = [EvPrint ("Lambda layer package created at: " ++
                       PosixPath.join t (name ++ ".zip"))]) /\
    v = PyNone Response /\
    FS.isdir w'.(fs) t = false.
Proof.
  intros Hr.
  destruct (run_returns _ _ _ _ _ _ _ _ _ _ _ _ _ _ Hr)
    as (d & w2 & wr & Hw & Hev2 & Hb & ->).
  destruct (workspace_inv _ _ _ _ _ Hw) as [w1 Hm].
  pose proof (teardown_leaves_nothing _ _ _ _ _ _ _ _ _ _ _ _ _ _ _ _ Hm Hr) as [Hgone _].
  assert (Hlast : events w' = (events wr ++ [EvRmtree (FS.path_of (Tempfile.place d))])%list).
  { rewrite run_unfold, Hw, Hb in Hr. cbv zeta in Hr.
    destruct (FS.rmtree _ _); [discriminate|]. now injection Hr as <-. }
  exists (FS.path_of (Tempfile.place d)). rewrite package_path.
  unfold attempt, bind in Hb. rewrite install_as_commands in Hb.
  destruct (for_each _ (check_call sh) w2) as [[[]|e] wi] eqn:Ei; [|discriminate].
  apply check_calls in Ei as (_ & k & Hevi & Hk). rewrite Hk in Hevi.
  destruct (archive _ _ _ wi) as [[[]|e] wa] eqn:Ea; [|discriminate].
  apply archive_trace in Ea as [[_ [e K]]|Ha]; [discriminate|].
  apply deliver_trace in Hb as (_ & dl & Hd & Hdl).
  exists dl. split; [|split; [|split; [reflexivity | exact Hgone]]].
  - rewrite Hlast, Hd, Ha, Hevi, Hev2, <- !app_assoc. reflexivity.
  - inversion Hdl; subst; [reflexivity | eauto].
Qed.

End Outcome.

(** ** What the function can raise *)

Section Errors.

Variable Response : Type.
Variable str : Response -> string.
Variable sh : string -> FS.t -> Z * FS.t.
Variable publish_layer_version :
  string -> string -> string -> FS.fdata -> list string -> string + Response.
Variable draws : list (list nat).

Local Notation "'run_script'" :=
  (create_lambda_layer Response str sh publish_layer_version draws).
Local Notation "'try_body'" := (attempt Response str sh publish_layer_version).

Lemma attempt_raises libs name rt region up req (t pkg : string) (w w' : world)
    (e : exn) :
  try_body libs name rt region up req t pkg w = (Raise e, w') ->
  file_error e = true \/
  (exists code c, code <> 0%Z /\ e = CalledProcessError code [c]) \/
  (up = true /\ exists msg, e = ClientError msg).
Proof.
  unfold attempt, bind.
  destruct (install sh libs req pkg w) as [[[]|e1] wi] eqn:Ei.
  - destruct (archive _ _ _ wi) as [[[]|e2] wa] eqn:Ea.
    + intros H. pose proof H as H0. apply delivery_raise in H as [H|[msg ->]];
        [now left|].
      right. right. split; [|eauto]. destruct up; [reflexivity|].
      unfold deliver in H0. discriminate H0.
    + intros H. injection H as <- _. left. now apply raises_archive in Ea.
  - intros H. injection H as <- _.
    apply install_events in Ei as (_ & _ & [K|(e' & K & He)]); [discriminate|].
    injection K as <-. destruct He as [->|He]; [now left | right; now left].
Qed.

(** X18.  [create_lambda_layer] raises nothing but the errors of its
    file and archive operations ([OSError], [ValueError], [IndexError]),
    the [CalledProcessError] of a package-manager command that exited
    non-zero, and, with upload enabled only, the provider's error. *)
Theorem exceptions_of_a_run libs name rt region up req (w w' : world) (e : exn) :
  run_script libs name rt region up req w = (Raise e, w') ->
  file_error e = true \/
  (exists code c, code <> 0%Z /\ e = CalledProcessError code [c]) \/
  (up = true /\ exists msg, e = ClientError msg).
Proof.
  rewrite run_unfold.
  destruct (workspace draws w) as [[[t pkg]|e0] w2] eqn:Ew.
  - destruct (attempt _ _ _ _ _ _ _ _ _ _ _ _ w2) as [rb w3] eqn:Eb. cbv zeta.
    destruct (FS.rmtree _ _) as [en|root].
    + intros H. injection H as <- _. left. apply file_error_os.
    + destruct rb as [u|e1]; [discriminate|]. intros H. injection H as <- _.
      now apply attempt_raises in Eb.
  - intros H. injection H as <- _. left.
    now apply workspace_raise in Ew as (_ & _ & He).
Qed.

End Errors.

(** ** The sample package manager *)



(** ** The further properties on the sample machine *)

(** X1 on the sample machine. *)
Lemma installs_in_order_witness :
  exists k rest,
    (snd (Sample.run (Some ["requests"; "six"]) "test-layer" false None)).(events) =
    (Sample.machine.(events) ++
     map EvShell
       (firstn k (commands (Some ["requests"; "six"]) None
                    (PosixPath.join Sample.temp_dir "python"))) ++ rest)%list.
Proof.
  destruct (installs_in_order string (fun r => r) Sample.pip Sample.provider Sample.draws
              (Some ["requests"; "six"]) "test-layer" "python3.10" "us-east-1" false None
              Sample.machine (snd (Tempfile.mkdtemp Sample.draws Sample.machine))
              (snd (Sample.run (Some ["requests"; "six"]) "test-layer" false None))
              Sample.temp_dir
              (fst (Sample.run (Some ["requests"; "six"]) "test-layer" false None)))
    as (k & rest & Hev & _).
  - reflexivity.
  - reflexivity.
  - exists k, rest. exact Hev.
Defined.

(** X2 on the sample machine: [no-such-package] is not known. *)
Lemma install_error_stops_the_run_witness :
  exists t c,
    In c (commands (Some ["requests"; "no-such-package"; "six"]) None
            (PosixPath.join t "python")).
Proof.
  destruct (install_error_stops_the_run string (fun r => r) Sample.pip Sample.provider
              Sample.draws (Some ["requests"; "no-such-package"; "six"]) "test-layer"
              "python3.10" "us-east-1" true None Sample.machine
              (snd (Sample.run (Some ["requests"; "no-such-package"; "six"]) "test-layer"
                      true None))
              1%Z ["pip install no-such-package -t /tmp/tmpabcdefgh/python"])
    as (t & c & pre & _ & _ & Hin & _).
  - reflexivity.
  - exists t, c. exact Hin.
Defined.

(** X3 on the sample machine. *)
Lemma report_only_without_upload_witness :
  exists new,
    (snd (Sample.run (Some ["requests"]) "test-layer" false None)).(events) =
    (Sample.machine.(events) ++ new)%list /\
    List.length (filter is_print new) = 1.
Proof.
  destruct (report_only_without_upload string (fun r => r) Sample.pip Sample.provider
              Sample.draws (Some ["requests"]) "test-layer" "python3.10" "us-east-1" None
              Sample.machine
              (snd (Sample.run (Some ["requests"]) "test-layer" false None))
              (fst (Sample.run (Some ["requests"]) "test-layer" false None)))
    as (new & Hev & _ & _ & _ & Hone).
  - reflexivity.
  - exists new. split; [exact Hev|]. apply Hone. now exists (PyNone string).
Defined.

(** X4 on the sample machine. *)
Lemma published_archive_witness :
  exists new,
    (snd (Sample.run (Some ["requests"]) "test-layer" true None)).(events) =
    (Sample.machine.(events) ++ new)%list /\
    List.length (filter is_publish new) <= 1.
Proof.
  destruct (published_archive string (fun r => r) Sample.pip Sample.provider
              Sample.draws (Some ["requests"]) "test-layer" "python3.10" "us-east-1" None
              Sample.machine
              (snd (Sample.run (Some ["requests"]) "test-layer" true None))
              (fst (Sample.run (Some ["requests"]) "test-layer" true None)))
    as (new & Hev & Hone & _).
  - reflexivity.
  - reflexivity.
  - exists new. split; [exact Hev | exact Hone].
Defined.



(** X7 on the sample machine. *)
Lemma nul_layer_name_rejected_witness :
  exists e,
    fst (Sample.run (Some ["requests"]) (String PosixPath.nul "layer") true None) = Raise e.
Proof.
  destruct (nul_layer_name_rejected string (fun r => r) Sample.pip Sample.provider
              Sample.draws (Some ["requests"]) (String PosixPath.nul "layer") "python3.10"
              "us-east-1" true None Sample.machine
              (snd (Tempfile.mkdtemp Sample.draws Sample.machine))
              (snd (Sample.run (Some ["requests"]) (String PosixPath.nul "layer") true None))
              Sample.temp_dir
              (fst (Sample.run (Some ["requests"]) (String PosixPath.nul "layer") true None)))
    as [(e & He & _) _].
  - reflexivity.
  - reflexivity.
  - reflexivity.
  - exists e. exact He.
Defined.


(** X9 on the sample machine, the user typing two names. *)
Lemma prompt_only_when_needed_witness :
  exists new,
    (snd (main string (fun r => r) Sample.pip Sample.provider Sample.draws
            (Some "requests six")
            (Cmdline None (Some "test-layer") None None true None)
            Sample.machine)).(events) =
    (Sample.machine.(events) ++ new)%list.
Proof.
  destruct (prompt_only_when_needed string (fun r => r) Sample.pip Sample.provider
              Sample.draws (Some "requests six")
              (Cmdline None (Some "test-layer") None None true None) Sample.machine
              (snd (main string (fun r => r) Sample.pip Sample.provider Sample.draws
                      (Some "requests six")
                      (Cmdline None (Some "test-layer") None None true None)
                      Sample.machine))
              (fst (main string (fun r => r) Sample.pip Sample.provider Sample.draws
                      (Some "requests six")
                      (Cmdline None (Some "test-layer") None None true None)
                      Sample.machine)))
    as (new & Hev & _).
  - reflexivity.
  - exists new. exact Hev.
Defined.

(** X10 on the sample machine, the user typing three spaces. *)
Lemma blank_answer_builds_an_empty_layer_witness :
  exists new,
    (snd (main string (fun r => r) Sample.pip Sample.provider Sample.draws
            (Some "   ")
            (Cmdline None (Some "test-layer") None None false None)
            Sample.machine)).(events) =
    (Sample.machine.(events) ++ EvInput prompt :: new)%list /\
    forall cmd, ~ In (EvShell cmd) new.
Proof.
  destruct (blank_answer_builds_an_empty_layer string (fun r => r) Sample.pip
              Sample.provider Sample.draws (Some "   ")
              (Cmdline None (Some "test-layer") None None false None)
              "   " "test-layer" Sample.machine
              (snd (main string (fun r => r) Sample.pip Sample.provider Sample.draws
                      (Some "   ")
                      (Cmdline None (Some "test-layer") None None false None)
                      Sample.machine))
              (fst (main string (fun r => r) Sample.pip Sample.provider Sample.draws
                      (Some "   ")
                      (Cmdline None (Some "test-layer") None None false None)
                      Sample.machine)))
    as (new & Hev & Hsh & _).
  - reflexivity.
  - reflexivity.
  - reflexivity.
  - reflexivity.
  - reflexivity.
  - reflexivity.
  - exists new. split; [exact Hev | exact Hsh].
Defined.

(** X11 for a line with white space around and between two names. *)
Lemma answer_names_witness :
  Str.words "  requests   six " <> [] /\
  Forall (fun l => wordlike l = true) (Str.words "  requests   six ").
Proof.
  destruct (answer_names string (fun r => r) Sample.pip Sample.provider Sample.draws
              (Some "  requests   six ")
              (Cmdline None (Some "test-layer") None None true None)
              "  requests   six " "test-layer" Sample.machine)
    as (_ & Hne & Hall & _).
  - reflexivity.
  - reflexivity.
  - reflexivity.
  - reflexivity.
  - reflexivity.
  - reflexivity.
  - split; [exact Hne | exact Hall].
Defined.

(** X12 on the sample machine, for a command line without layer name. *)
Lemma exit_only_from_the_parser_witness :
  main string (fun r => r) Sample.pip Sample.provider Sample.draws None
    (Cmdline (Some ["requests"]) None None None false None) Sample.machine =
  (Raise (SystemExit 2), Sample.machine).
Proof.
  apply (exit_only_from_the_parser string (fun r => r) Sample.pip Sample.provider
           Sample.draws None).
  reflexivity.
Defined.

(** X13 on the sample machine, with [--region eu-west-1]. *)
Lemma main_passes_the_flags_witness :
  exists n desc cnt,
    In (EvPublish "eu-west-1" n desc cnt ["python3.10"])
       (snd (main string (fun r => r) Sample.pip Sample.provider Sample.draws None
               (Cmdline (Some ["requests"]) (Some "test-layer") None (Some "eu-west-1")
                  false None)
               Sample.machine)).(events).
Proof.
  destruct (main_passes_the_flags string (fun r => r) Sample.pip Sample.provider
              Sample.draws None
              (Cmdline (Some ["requests"]) (Some "test-layer") None (Some "eu-west-1")
                 false None)
              Sample.machine
              (snd (main string (fun r => r) Sample.pip Sample.provider Sample.draws None
                      (Cmdline (Some ["requests"]) (Some "test-layer") None
                         (Some "eu-west-1") false None)
                      Sample.machine))
              (fst (main string (fun r => r) Sample.pip Sample.provider Sample.draws None
                      (Cmdline (Some ["requests"]) (Some "test-layer") None
                         (Some "eu-west-1") false None)
                      Sample.machine)))
    as (new & Hev & _ & Hpub).
  - reflexivity.
  - destruct Hpub as (n & desc & cnt & _ & Hin).
    + now exists (PyNone string).
    + reflexivity.
    + exists n, desc, cnt. rewrite Hev. apply in_or_app. right. exact Hin.
Defined.

(** X14 on the sample machine. *)
Lemma archive_always_closed_witness :
  (snd (Sample.run (Some ["requests"]) "test-layer" true None)).(zf) = None.
Proof.
  refine (proj2 (archive_always_closed string (fun r => r) Sample.pip Sample.provider
                   Sample.draws)
            (Some ["requests"]) "test-layer" "python3.10" "us-east-1" true None
            Sample.machine
            (snd (Sample.run (Some ["requests"]) "test-layer" true None))
            (fst (Sample.run (Some ["requests"]) "test-layer" true None)) _ _).
  - reflexivity.
  - reflexivity.
Defined.

(** X15 on the sample machine. *)
Lemma workspace_is_fresh_witness :
  exists d w2,
    workspace Sample.draws Sample.machine =
    (Ok (Sample.temp_dir, Sample.temp_dir ++ "/python"), w2) /\
    FS.remove w2.(fs) (Tempfile.place d) = Sample.machine.(fs).
Proof.
  destruct (workspace_is_fresh Sample.draws Sample.machine
              (snd (Tempfile.mkdtemp Sample.draws Sample.machine)) Sample.temp_dir)
    as (d & w2 & _ & _ & Hw & _ & _ & _ & Hrm & _).
  - reflexivity.
  - exists d, w2. split; [exact Hw | exact Hrm].
Defined.

(** X16 on the sample machine, with a provider that rejects every layer. *)
Lemma provider_error_propagates_witness :
  exists t pre c,
    (snd (create_lambda_layer string (fun r => r) Sample.pip
            (fun _ _ _ _ _ => inl "AccessDenied") Sample.draws
            (Some ["requests"]) "test-layer" "python3.10" "us-east-1" true None
            Sample.machine)).(events) =
    (Sample.machine.(events) ++ pre ++
     [EvPublish "us-east-1" "test-layer" (description (Some ["requests"])) c ["python3.10"];
      EvRmtree t])%list.
Proof.
  destruct (provider_error_propagates string (fun r => r) Sample.pip
              (fun _ _ _ _ _ => inl "AccessDenied") Sample.draws
              (Some ["requests"]) "test-layer" "python3.10" "us-east-1" true None
              Sample.machine
              (snd (create_lambda_layer string (fun r => r) Sample.pip
                      (fun _ _ _ _ _ => inl "AccessDenied") Sample.draws
                      (Some ["requests"]) "test-layer" "python3.10" "us-east-1" true None
                      Sample.machine))
              "AccessDenied")
    as (_ & t & pre & c & Hev & _).
  - reflexivity.
  - exists t, pre, c. exact Hev.
Defined.

(** X17 on the sample machine. *)
Lemma successful_run_trace_witness :
  exists t out,
    (snd (Sample.run (Some ["requests"; "six"]) "test-layer" true None)).(events) =
    (Sample.machine.(events) ++
     map EvShell (commands (Some ["requests"; "six"]) None (PosixPath.join t "python")) ++
     EvZipOpen (PosixPath.join t ("test-layer" ++ ".zip")) :: out ++ [EvRmtree t])%list.
Proof.
  destruct (successful_run_trace string (fun r => r) Sample.pip Sample.provider
              Sample.draws (Some ["requests"; "six"]) "test-layer" "python3.10"
              "us-east-1" true None Sample.machine
              (snd (Sample.run (Some ["requests"; "six"]) "test-layer" true None))
              (PyNone string))
    as (t & out & Hev & _).
  - reflexivity.
  - exists t, out. exact Hev.
Defined.

(** X18 on the sample machine: [no-such-package] is not known. *)
Lemma exceptions_of_a_run_witness :
  exists code c, code <> 0%Z /\
    CalledProcessError 1 ["pip install no-such-package -t /tmp/tmpabcdefgh/python"] =
    CalledProcessError code [c].
Proof.
  destruct (exceptions_of_a_run string (fun r => r) Sample.pip Sample.provider
              Sample.draws (Some ["requests"; "no-such-package"; "six"]) "test-layer"
              "python3.10" "us-east-1" true None Sample.machine
              (snd (Sample.run (Some ["requests"; "no-such-package"; "six"]) "test-layer"
                      true None))
              (CalledProcessError 1
                 ["pip install no-such-package -t /tmp/tmpabcdefgh/python"]))
    as [K|[K|[_ [msg K]]]].
  - reflexivity.
  - discriminate K.
  - exact K.
  - discriminate K.
Defined.
